(** * Fact extraction, metrics and section index of the due-diligence agent

    A shallow embedding of the deterministic core of the repository:

    - [tools/adk_pdf_tools.py]            (module [PdfTools])
    - [agents/extraction_agent_adk.py]    (module [ExtractionAgent])
    - [tools/financial_calcs.py]          (module [FinancialCalcs])
    - [agents/financial_agent_adk.py]     (module [FinancialAgent])
    - [agents/valuation_agent_adk.py]     (module [ValuationAgent])
    - [tools/adk_text_tools.py]           (module [TextTools])
    - [agents/qa_agent_adk.py]            (module [QaAgent])

    Conventions of the embedding.

    - A Python [str] is a [string]; its characters are read as the code
      points 0..255.  Whitespace, digits and case folding are those of
      Python on that range.
    - A Python [float] is idealised as an exact rational ([Q]); rounding,
      overflow and the non-finite values are outside the model.
    - [None] is [option]'s [None]; a raised exception is an explicit
      error result.
    - A [dict] whose iteration order is irrelevant to the result is a
      [gmap]; a [dict] whose iteration order is observable is an
      association list with unique keys ([ODict.t]). *)

From Stdlib Require Import ZArith QArith Qabs Qpower Ascii String List Bool Lia.
From stdpp Require Import gmap strings list fin_maps sorting.

Local Open Scope Z_scope.

(* ===================================================================== *)
(** * Python strings                                                      *)
(* ===================================================================== *)

Module PyStr.

Definition code (c : ascii) : N := N_of_ascii c.

(** [str.isspace] on code points below 256 (also what [\s] matches). *)
Definition is_space (c : ascii) : bool :=
  let n := code c in
  ((9 <=? n) && (n <=? 13) || (28 <=? n) && (n <=? 32)
   || (n =? 133) || (n =? 160))%N.

(** Decimal digits: [\d] and the digits accepted by [int] and [float]. *)
Definition is_digit (c : ascii) : bool :=
  let n := code c in ((48 <=? n) && (n <=? 57))%N.

Definition digit_val (c : ascii) : Z := Z.of_N (code c) - 48.

Definition is_lower_alnum (c : ascii) : bool :=
  let n := code c in
  ((97 <=? n) && (n <=? 122) || (48 <=? n) && (n <=? 57))%N.

(** [str.lower] on one character. *)
Definition lower_char (c : ascii) : ascii :=
  let n := code c in
  if ((65 <=? n) && (n <=? 90))%N then ascii_of_N (n + 32)
  else if ((192 <=? n) && (n <=? 222) && negb (n =? 215))%N
       then ascii_of_N (n + 32)
  else c.

Fixpoint lower (s : string) : string :=
  match s with
  | EmptyString => EmptyString
  | String c s' => String (lower_char c) (lower s')
  end.

Definition rev (s : string) : string :=
  string_of_list_ascii (List.rev (list_ascii_of_string s)).

Fixpoint lstrip_with (f : ascii -> bool) (s : string) : string :=
  match s with
  | EmptyString => EmptyString
  | String c s' => if f c then lstrip_with f s' else s
  end.

Definition strip_with (f : ascii -> bool) (s : string) : string :=
  rev (lstrip_with f (rev (lstrip_with f s))).

(** [s.strip()] *)
Definition strip (s : string) : string := strip_with is_space s.

Fixpoint mem_char (c : ascii) (cs : string) : bool :=
  match cs with
  | EmptyString => false
  | String d cs' => if Ascii.eqb c d then true else mem_char c cs'
  end.

(** [s.strip(chars)] *)
Definition strip_chars (chars : string) (s : string) : string :=
  strip_with (fun c => mem_char c chars) s.

Fixpoint startswith (p s : string) : bool :=
  match p, s with
  | EmptyString, _ => true
  | String a p', String b s' => if Ascii.eqb a b then startswith p' s' else false
  | String _ _, EmptyString => false
  end.

Definition endswith (p s : string) : bool := startswith (rev p) (rev s).

(** [s.replace(c, new)] for a one-character [c]. *)
Fixpoint replace_char (c : ascii) (new : string) (s : string) : string :=
  match s with
  | EmptyString => EmptyString
  | String d s' =>
      if Ascii.eqb c d then String.append new (replace_char c new s')
      else String d (replace_char c new s')
  end.

(** [needle in s] *)
Fixpoint contains (needle s : string) : bool :=
  if startswith needle s then true
  else match s with
       | EmptyString => false
       | String _ s' => contains needle s'
       end.

(** [s[:n]] for [n >= 0] *)
Fixpoint take (n : nat) (s : string) : string :=
  match n, s with
  | O, _ => EmptyString
  | S n', String c s' => String c (take n' s')
  | S _, EmptyString => EmptyString
  end.

(** [s[n:]] for [n >= 0] *)
Fixpoint drop (n : nat) (s : string) : string :=
  match n, s with
  | O, _ => s
  | S n', String _ s' => drop n' s'
  | S _, EmptyString => EmptyString
  end.

(** [s[i:j]] for [0 <= i], [0 <= j] *)
Definition slice (i j : nat) (s : string) : string :=
  take (j - i) (drop i s).

(** Truthiness of a string. *)
Definition truthy (s : string) : bool :=
  match s with EmptyString => false | _ => true end.

(** [x or ""] for an optional string [x]. *)
Definition or_empty (x : option string) : string :=
  match x with Some s => s | None => EmptyString end.

(** [x or y] for optional strings: [x] unless it is [None] or empty. *)
Definition or_else (x y : option string) : option string :=
  match x with
  | Some s => if truthy s then x else y
  | None => y
  end.

End PyStr.

(* ===================================================================== *)
(** * Python number parsing: [int(str)] and [float(str)]                  *)
(* ===================================================================== *)

Module PyNum.
Import PyStr.

(** [digitpart ::= digit (["_"] digit)*], read after its first digit:
    returns the digits consumed and the rest of the input. *)
Fixpoint digits_tail (s : string) : list Z * string :=
  match s with
  | String c s' =>
      if is_digit c then
        let '(ds, r) := digits_tail s' in (digit_val c :: ds, r)
      else if Ascii.eqb c "_" then
        match s' with
        | String d s'' =>
            if is_digit d then
              let '(ds, r) := digits_tail s'' in (digit_val d :: ds, r)
            else (nil, s)
        | EmptyString => (nil, s)
        end
      else (nil, s)
  | EmptyString => (nil, s)
  end.

(** A [digitpart] at the head of the input, if there is one. *)
Definition digitpart (s : string) : option (list Z * string) :=
  match s with
  | String c s' =>
      if is_digit c then
        let '(ds, r) := digits_tail s' in Some (digit_val c :: ds, r)
      else None
  | EmptyString => None
  end.

Definition digits_value (ds : list Z) : Z :=
  fold_left (fun acc d => 10 * acc + d) ds 0.

(** An optional sign: [true] for a minus. *)
Definition sign (s : string) : bool * string :=
  match s with
  | String c s' =>
      if Ascii.eqb c "-" then (true, s')
      else if Ascii.eqb c "+" then (false, s')
      else (false, s)
  | EmptyString => (false, s)
  end.

Definition apply_sign (neg : bool) (z : Z) : Z := if neg then - z else z.

(** [int(s)] in base 10; [None] stands for [ValueError]. *)
Definition int (s : string) : option Z :=
  let '(neg, r) := sign (strip s) in
  match digitpart r with
  | Some (ds, EmptyString) => Some (apply_sign neg (digits_value ds))
  | _ => None
  end.

(** [[digitpart] "." digitpart | digitpart ["."]]: the digits before
    and after the point. *)
Definition number (s : string) : option (list Z * list Z * string) :=
  match digitpart s with
  | Some (ip, r) =>
      match r with
      | String c r' =>
          if Ascii.eqb c "." then
            match digitpart r' with
            | Some (fp, r'') => Some (ip, fp, r'')
            | None => Some (ip, nil, r')
            end
          else Some (ip, nil, r)
      | EmptyString => Some (ip, nil, r)
      end
  | None =>
      match s with
      | String c r' =>
          if Ascii.eqb c "." then
            match digitpart r' with
            | Some (fp, r'') => Some (nil, fp, r'')
            | None => None
            end
          else None
      | EmptyString => None
      end
  end.

(** [("e" | "E") [sign] digitpart], optional. *)
Definition exponent (s : string) : option (Z * string) :=
  match s with
  | String c r =>
      if Ascii.eqb c "e" || Ascii.eqb c "E" then
        let '(neg, r') := sign r in
        match digitpart r' with
        | Some (ds, r'') => Some (apply_sign neg (digits_value ds), r'')
        | None => None
        end
      else None
  | EmptyString => Some (0, s)
  end.

Definition pow10 (e : Z) : Q := Qpower (10 # 1) e.

(** [float(s)] on decimal literals; [None] stands for [ValueError].
    The literals [inf], [infinity] and [nan] denote no rational and
    are not values of this model. *)
Definition float (s : string) : option Q :=
  let '(neg, r) := sign (strip s) in
  match number r with
  | Some (ip, fp, r') =>
      match exponent r' with
      | Some (e, EmptyString) =>
          let m := digits_value (ip ++ fp) in
          Some (inject_Z (apply_sign neg m)
                * pow10 (e - Z.of_nat (length fp)))%Q
      | _ => None
      end
  | None => None
  end.

End PyNum.

(* ===================================================================== *)
(** * Python floats (as rationals) and sorting                            *)
(* ===================================================================== *)

Module PyFloat.

(** [a == b] *)
Definition eqb (a b : Q) : bool := Qeq_bool a b.

(** [a < b] *)
Definition ltb (a b : Q) : bool := negb (Qle_bool b a).

(** Truthiness of an optional float: neither [None] nor zero. *)
Definition truthy (x : option Q) : bool :=
  match x with
  | Some v => negb (eqb v 0)
  | None => false
  end.

End PyFloat.

Module PySort.

Fixpoint insert_str (x : string) (l : list string) : list string :=
  match l with
  | [] => [x]
  | y :: l' => if String.leb x y then x :: l else y :: insert_str x l'
  end.

(** [sorted(l)] on strings (ordered by code point). *)
Definition sorted (l : list string) : list string :=
  foldr insert_str [] l.

(** The set of all period keys of a Fact Table. *)
Definition period_set (facts : gmap string (gmap string Q)) : gset string :=
  map_fold (fun _ metric_map periods => periods ∪ dom metric_map) ∅ facts.

End PySort.

(* ===================================================================== *)
(** * tools/adk_pdf_tools.py                                              *)
(* ===================================================================== *)

Module PdfTools.
Import PyStr.

(** One [ix:nonFraction] element as the scanner reads it: the
    attributes it asks for ([tag.get]) and [tag.get_text(strip=True)]. *)
Record ix_tag := {
  attr_name : option string;
  attr_contextref : option string;
  attr_decimals : option string;
  attr_unitref : option string;
  attr_unitRef : option string;
  tag_text : string
}.

(** [_safe_parse_number].  The euro sign has no code point below 256,
    so removing it is the identity on the strings of this model. *)
Definition _safe_parse_number (text : string) : option Q :=
  let t := strip text in
  let is_negative := startswith "(" t && endswith ")" t in
  let t := strip_chars "()" t in
  let t := replace_char "163" "" (replace_char "$" "" t) in
  let t := strip (replace_char "," "" t) in
  match PyNum.float t with
  | Some num => Some (if is_negative then (- num)%Q else num)
  | None => None
  end.

(** The [decimals] attribute as an integer, [None] when it is absent
    or [int] raises [ValueError]. *)
Definition parse_decimals (decimals_attr : option string) : option Z :=
  match decimals_attr with
  | Some a => PyNum.int a
  | None => None
  end.

Definition scale_decimals (decimals : option Z) : Q :=
  match decimals with
  | Some d =>
      if d <? 0 then Qpower (10 # 1) (Z.abs d)
      else if 0 <? d then (1 / Qpower (10 # 1) d)%Q
      else 1%Q
  | None => 1%Q
  end.

Definition unit_desc (unit_map : gmap string string) (tag : ix_tag) : string :=
  let unit_ref :=
    or_empty (or_else (attr_unitref tag) (attr_unitRef tag)) in
  lower (or_empty (or_else (unit_map !! unit_ref) (Some unit_ref))).

Definition scale_unit (desc : string) : Q :=
  if contains "thousand" desc then 1000%Q
  else if contains "million" desc then 1000000%Q
  else if contains "billion" desc then 1000000000%Q
  else 1%Q.

(** The body of the scanning loop up to the store: the concept name,
    the period and the scaled value of a tag, or [None] where the loop
    says [continue]. *)
Definition fact_of_tag (context_period_map unit_map : gmap string string)
    (tag : ix_tag) : option (string * string * Q) :=
  let name_attr := or_empty (attr_name tag) in
  if negb (truthy name_attr) then None else
  match attr_contextref tag with
  | None => None
  | Some context_ref =>
      if negb (truthy context_ref) then None else
      match context_period_map !! context_ref with
      | None => None
      | Some period_end =>
          if negb (truthy period_end) then None else
          let text_value := tag_text tag in
          if negb (truthy text_value) then None else
          match _safe_parse_number text_value with
          | None => None
          | Some number =>
              let decimals := parse_decimals (attr_decimals tag) in
              let scaled_value :=
                (number * scale_decimals decimals
                 * scale_unit (unit_desc unit_map tag))%Q in
              Some (name_attr, period_end, scaled_value)
          end
      end
  end.

(** [raw_values_by_concept.setdefault(name, {})[period] = value] *)
Definition store (raw : gmap string (gmap string Q))
    (name period : string) (value : Q) : gmap string (gmap string Q) :=
  <[name := <[period := value]> (default ∅ (raw !! name))]> raw.

Definition scan_step (context_period_map unit_map : gmap string string)
    (raw : gmap string (gmap string Q)) (tag : ix_tag)
    : gmap string (gmap string Q) :=
  match fact_of_tag context_period_map unit_map tag with
  | Some (name, period, value) => store raw name period value
  | None => raw
  end.

(** The first loop of [_extract_key_facts_from_ixbrl]. *)
Definition scan (context_period_map unit_map : gmap string string)
    (ix_tags : list ix_tag) : gmap string (gmap string Q) :=
  fold_left (scan_step context_period_map unit_map) ix_tags ∅.

(** [concept_map], in the order the literal lists its keys. *)
Definition concept_map : list (string * list string) :=
  [ ("revenue",
      ["us-gaap:Revenues"; "us-gaap:SalesRevenueNet";
       "us-gaap:RevenueFromContractWithCustomerExcludingAssessedTax"]);
    ("total_current_assets", ["us-gaap:AssetsCurrent"]);
    ("total_assets", ["us-gaap:Assets"]);
    ("net_income", ["us-gaap:NetIncomeLoss"; "us-gaap:ProfitLoss"]);
    ("operating_cash_flow",
      ["us-gaap:NetCashProvidedByUsedInOperatingActivities"]);
    ("capital_expenditures",
      ["us-gaap:PaymentsToAcquirePropertyPlantAndEquipment";
       "us-gaap:CapitalExpendituresIncurredButNotYetPaid"]);
    ("operating_income", ["us-gaap:OperatingIncomeLoss"]);
    ("depreciation_amortization",
      ["us-gaap:DepreciationDepletionAndAmortization";
       "us-gaap:DepreciationAndAmortization"]);
    ("weighted_avg_shares_diluted",
      ["us-gaap:WeightedAverageNumberOfDilutedSharesOutstanding";
       "us-gaap:WeightedAverageNumberOfShareOutstandingDiluted"]);
    ("weighted_avg_shares_basic",
      ["us-gaap:WeightedAverageNumberOfSharesOutstandingBasic"]);
    ("common_shares_outstanding",
      ["us-gaap:CommonStockSharesOutstanding";
       "us-gaap:EntityCommonStockSharesOutstanding"]);
    ("shares_outstanding",
      ["us-gaap:CommonStockSharesOutstanding";
       "us-gaap:EntityCommonStockSharesOutstanding";
       "us-gaap:WeightedAverageNumberOfDilutedSharesOutstanding";
       "us-gaap:WeightedAverageNumberOfSharesOutstandingBasic"]) ].

(** [for period_end, value in period_map.items(): merged[period_end] = value] *)
Definition update_all (merged period_map : gmap string Q) : gmap string Q :=
  fold_left (fun acc kv => <[kv.1 := kv.2]> acc) (map_to_list period_map) merged.

(** The inner loop over the concepts of one friendly key. *)
Definition merge_step (raw : gmap string (gmap string Q))
    (merged : gmap string Q) (concept : string) : gmap string Q :=
  match raw !! concept with
  | None => merged
  | Some period_map =>
      if decide (period_map = ∅) then merged
      else update_all merged period_map
  end.

Definition merge_concepts (raw : gmap string (gmap string Q))
    (concept_list : list string) : gmap string Q :=
  fold_left (merge_step raw) concept_list ∅.

(** The second loop: friendly keys with at least one period. *)
Definition map_concepts (cmap : list (string * list string))
    (raw : gmap string (gmap string Q)) : gmap string (gmap string Q) :=
  fold_left
    (fun result kc =>
       let merged := merge_concepts raw kc.2 in
       if decide (merged = ∅) then result else <[kc.1 := merged]> result)
    cmap ∅.

Definition _extract_key_facts_from_ixbrl
    (ix_tags : list ix_tag) (context_period_map unit_map : gmap string string)
    : gmap string (gmap string Q) :=
  map_concepts concept_map (scan context_period_map unit_map ix_tags).

(** ** The context map, the unit map and the public entry point *)

(** A context element as [_build_context_period_map] reads it: its
    [id] attribute (the element filter asks for one) and the [.string]
    of its first instant and of its first end-date descendant, [None]
    when there is no such element or it has no single string. *)
Record context_tag := {
  context_id : string;
  instant_string : option string;
  enddate_string : option string
}.

Definition context_period_step (context_period : gmap string string)
    (ctx : context_tag) : gmap string string :=
  let ctx_id := context_id ctx in
  if negb (truthy ctx_id) then context_period else
  let from_end_date :=
    match enddate_string ctx with
    | Some e => if truthy e then <[ctx_id := strip e]> context_period
                else context_period
    | None => context_period
    end in
  match instant_string ctx with
  | Some i => if truthy i then <[ctx_id := strip i]> context_period
              else from_end_date
  | None => from_end_date
  end.

Definition _build_context_period_map (contexts : list context_tag)
    : gmap string string :=
  fold_left context_period_step contexts ∅.

(** A unit element: its [id] and [unit.get_text(" ", strip=True)]. *)
Record unit_tag := {
  unit_id : string;
  unit_text : string
}.

Definition unit_step (unit_map : gmap string string) (unit : unit_tag)
    : gmap string string :=
  if negb (truthy (unit_id unit)) then unit_map
  else <[unit_id unit := unit_text unit]> unit_map.

Definition _build_unit_map (units : list unit_tag) : gmap string string :=
  fold_left unit_step units ∅.

(** The parsed file as [parse_10k_html_ixbrl] uses it: the elements the
    three scans find, in document order, and the results of
    [_extract_company_name], [_extract_trading_symbol] and
    [_extract_cik]. *)
Record soup := {
  context_tags : list context_tag;
  unit_tags : list unit_tag;
  nonfraction_tags : list ix_tag;
  found_company_name : option string;
  found_trading_symbol : option string;
  found_cik : option string
}.

(** The dictionary [parse_10k_html_ixbrl] returns. *)
Record parsed := {
  p_company_name : option string;
  p_ticker : option string;
  p_symbol : option string;
  p_cik : option string;
  p_facts : gmap string (gmap string Q)
}.

(** [parse_10k_html_ixbrl] on the content of the file; [None] as
    argument and as result stands for a file that does not exist
    ([FileNotFoundError]). *)
Definition parse_10k_html_ixbrl (file : option soup) : option parsed :=
  match file with
  | None => None
  | Some soup =>
      let context_period_map := _build_context_period_map (context_tags soup) in
      let unit_map := _build_unit_map (unit_tags soup) in
      let company_name := found_company_name soup in
      let ticker := found_trading_symbol soup in
      let cik := found_cik soup in
      let facts :=
        _extract_key_facts_from_ixbrl (nonfraction_tags soup)
          context_period_map unit_map in
      Some {| p_company_name := company_name;
              p_ticker := ticker;
              p_symbol := ticker;
              p_cik := cik;
              p_facts := facts |}
  end.

End PdfTools.

(* ===================================================================== *)
(** * agents/extraction_agent_adk.py                                      *)
(* ===================================================================== *)

Module ExtractionAgent.
Import PyStr.

(** A context element as the direct pass reads it: its [id] attribute
    and the text of the first end-date or instant element under its
    period child ([None] when there is no such element). *)
Record ctx_elem := {
  ctx_id : option string;
  ctx_end_text : option string
}.

(** A non-fraction element as the direct pass reads it. *)
Record fact_elem := {
  fe_name : option string;
  fe_contextref : option string;
  fe_contextRef : option string;
  fe_text : option string;
  fe_decimals : option string
}.

(** The document behind [doc_path]: [None] when it cannot be read. *)
Definition document : Type := option (list ctx_elem * list fact_elem).

Definition REVENUE_CONCEPTS : list string :=
  [ "us-gaap:Revenues";
    "us-gaap:RevenueFromContractWithCustomerExcludingAssessedTax" ].

Definition is_revenue_concept (name : string) : bool :=
  bool_decide (name ∈ REVENUE_CONCEPTS).

Definition context_step (m : gmap string string) (ctx : ctx_elem)
    : gmap string string :=
  match ctx_id ctx with
  | None => m
  | Some cid =>
      if negb (truthy cid) then m else
      match ctx_end_text ctx with
      | None => m
      | Some txt =>
          if negb (truthy txt) then m else
          let period_str := strip txt in
          if truthy period_str then <[cid := period_str]> m else m
      end
  end.

Definition context_end_by_id (ctxs : list ctx_elem) : gmap string string :=
  fold_left context_step ctxs ∅.

(** [prev is None or scaled > prev] followed by the store. *)
Definition keep_max (revenue_by_period : gmap string Q)
    (period_str : string) (scaled : Q) : gmap string Q :=
  match revenue_by_period !! period_str with
  | None => <[period_str := scaled]> revenue_by_period
  | Some prev =>
      if PyFloat.ltb prev scaled
      then <[period_str := scaled]> revenue_by_period
      else revenue_by_period
  end.

(** Scaling of the direct pass: only a negative [decimals] scales.
    [raw_val * (10 ** (-d))] converts the integer power to a float and
    raises [OverflowError] from [10 ** 309] on; like a malformed
    attribute this ends in [except Exception: scaled_val = raw_val]. *)
Definition direct_scaled (raw_val : Q) (decimals_attr : option string) : Q :=
  match decimals_attr with
  | None => raw_val
  | Some a =>
      match PyNum.int a with
      | Some d =>
          if d <? 0 then
            if - d <=? 308 then (raw_val * inject_Z (10 ^ (- d)))%Q
            else raw_val
          else raw_val
      | None => raw_val
      end
  end.

(** Period and scaled value of one element, [None] on [continue]. *)
Definition direct_fact (ctx_map : gmap string string) (fact : fact_elem)
    : option (string * Q) :=
  let name := strip (or_empty (fe_name fact)) in
  if negb (is_revenue_concept name) then None else
  match or_else (fe_contextref fact) (fe_contextRef fact) with
  | None => None
  | Some ctx_ref =>
      if negb (truthy ctx_ref) then None else
      match ctx_map !! ctx_ref with
      | None => None
      | Some period_str =>
          if negb (truthy period_str) then None else
          let raw_text := replace_char "," "" (strip (or_empty (fe_text fact))) in
          if negb (truthy raw_text) then None else
          match PyNum.float raw_text with
          | None => None
          | Some raw_val => Some (period_str, direct_scaled raw_val (fe_decimals fact))
          end
      end
  end.

Definition direct_step (ctx_map : gmap string string)
    (revenue_by_period : gmap string Q) (fact : fact_elem) : gmap string Q :=
  match direct_fact ctx_map fact with
  | Some (period_str, scaled_val) => keep_max revenue_by_period period_str scaled_val
  | None => revenue_by_period
  end.

Definition _extract_revenue_direct_from_file (doc : document) : gmap string Q :=
  match doc with
  | None => ∅
  | Some (ctxs, facts) =>
      fold_left (direct_step (context_end_by_id ctxs)) facts ∅
  end.

(** A fact dictionary of a list found in [parsed], with the value
    shapes [_fix_revenue_from_ixbrl] tests for. *)
Inductive period_field :=
| PeriodNone
| PeriodStr (s : string)
| PeriodDict (end_date instant : option string).

Inductive raw_field :=
| RawNone
| RawNum (q : Q)
| RawStr (s : string).

Record parsed_fact := {
  pf_name : option string;
  pf_period : period_field;
  pf_scaled : option Q;
  pf_raw : raw_field;
  pf_decimals : option Z
}.

(** The keys of [parsed] that [_fix_revenue_from_ixbrl] reads. *)
Record parsed_doc := {
  ixbrl_facts : option (list parsed_fact);
  raw_ixbrl_facts : option (list parsed_fact);
  facts_list : option (list parsed_fact)
}.

(** [a or b] on optional lists: the empty list is falsy. *)
Definition list_or {A} (a b : option (list A)) : option (list A) :=
  match a with
  | Some (_ :: _) => a
  | _ => b
  end.

Definition parsed_facts (parsed : parsed_doc) : list parsed_fact :=
  default [] (list_or (ixbrl_facts parsed)
                (list_or (raw_ixbrl_facts parsed)
                   (list_or (facts_list parsed) (Some [])))).

Definition period_of (p : period_field) : option string :=
  match p with
  | PeriodNone => None
  | PeriodStr s => Some s
  | PeriodDict e i => or_else e i
  end.

(** The value of a listed fact, [None] on [continue]; an
    [OverflowError] of [scaled * (10 ** (-decimals))] is caught by
    [except Exception: continue]. *)
Definition scaled_of (fact : parsed_fact) : option Q :=
  match pf_scaled fact with
  | Some v => Some v
  | None =>
      let scale (v : Q) : option Q :=
        match pf_decimals fact with
        | Some d =>
            if d <? 0 then
              if - d <=? 308 then Some (v * inject_Z (10 ^ (- d)))%Q
              else None
            else Some v
        | None => Some v
        end in
      match pf_raw fact with
      | RawNone => None
      | RawNum q => scale q
      | RawStr s =>
          match PyNum.float s with
          | Some q => scale q
          | None => None
          end
      end
  end.

Definition parsed_fact_value (fact : parsed_fact) : option (string * Q) :=
  let name := strip (or_empty (pf_name fact)) in
  if negb (is_revenue_concept name) then None else
  match period_of (pf_period fact) with
  | None => None
  | Some period_str =>
      if negb (truthy period_str) then None else
      match scaled_of fact with
      | None => None
      | Some scaled => Some (period_str, scaled)
      end
  end.

Definition parsed_step (revenue_by_period : gmap string Q)
    (fact : parsed_fact) : gmap string Q :=
  match parsed_fact_value fact with
  | Some (period_str, scaled) => keep_max revenue_by_period period_str scaled
  | None => revenue_by_period
  end.

Definition revenue_from_parsed (facts : list parsed_fact) : gmap string Q :=
  fold_left parsed_step facts ∅.

(** [_fix_revenue_from_ixbrl]: the Fact Table after the call. *)
Definition _fix_revenue_from_ixbrl (doc : document) (parsed : parsed_doc)
    (facts : gmap string (gmap string Q)) : gmap string (gmap string Q) :=
  let from_parsed := revenue_from_parsed (parsed_facts parsed) in
  if negb (bool_decide (from_parsed = ∅))
  then <["revenue" := from_parsed]> facts
  else
    let revenue_by_period := _extract_revenue_direct_from_file doc in
    if bool_decide (revenue_by_period = ∅) then facts
    else <["revenue" := revenue_by_period]> facts.

(** [available_periods] of the state delta: [sorted(periods)]. *)
Definition available_periods (facts : gmap string (gmap string Q))
    : list string :=
  PySort.sorted (elements (PySort.period_set facts)).

End ExtractionAgent.

(* ===================================================================== *)
(** * tools/financial_calcs.py                                            *)
(* ===================================================================== *)

Module FinancialCalcs.

Definition safe_div (a b : Q) : Q :=
  if PyFloat.eqb b 0 then 0%Q else (a / b)%Q.

Definition _collect_all_periods (facts : gmap string (gmap string Q))
    : list string :=
  elements (PySort.period_set facts).

Definition _get_value (facts : gmap string (gmap string Q))
    (metric period : string) : option Q :=
  default ∅ (facts !! metric) !! period.

Fixpoint _get_any_value (facts : gmap string (gmap string Q))
    (metric_names : list string) (period : string) : option Q :=
  match metric_names with
  | [] => None
  | name :: rest =>
      match _get_value facts name period with
      | Some val => Some val
      | None => _get_any_value facts rest period
      end
  end.

(** [if x is not None: result[key] = x] *)
Definition set_if (key : string) (x : option Q) (result : gmap string Q)
    : gmap string Q :=
  match x with
  | Some v => <[key := v]> result
  | None => result
  end.

(** The running sum of the EBITDA block: [ebitda_val += x] when [x] is
    not [None]. *)
Definition add_if (x : option Q) (acc : Q) : Q :=
  match x with
  | Some v => (acc + v)%Q
  | None => acc
  end.

Definition _compute_metrics_for_period
    (facts : gmap string (gmap string Q)) (period : string) : gmap string Q :=
  let revenue := _get_any_value facts ["net_sales"; "revenue"] period in
  let net_income := _get_value facts "net_income" period in
  let op_cf := _get_value facts "operating_cash_flow" period in
  let capex := _get_value facts "capital_expenditures" period in
  let cost_of_sales := _get_value facts "cost_of_sales" period in
  let operating_income := _get_value facts "operating_income" period in
  let interest :=
    _get_any_value facts
      ["interest_expense"; "interest_and_other_expense"; "interest_and_other"]
      period in
  let income_tax :=
    _get_any_value facts
      ["income_tax_expense"; "provision_for_income_taxes"] period in
  let d_and_a :=
    _get_any_value facts
      ["depreciation_and_amortization"; "depreciation_amortization"] period in
  let result : gmap string Q := ∅ in
  let result := set_if "revenue" revenue result in
  let result := set_if "net_income" net_income result in
  let result := set_if "operating_cash_flow" op_cf result in
  let result := set_if "capital_expenditures" capex result in
  (* 1) gross margin *)
  let result :=
    match revenue, cost_of_sales with
    | Some r, Some c =>
        let gross_profit := (r - c)%Q in
        <["gross_margin" := safe_div gross_profit r]>
          (<["gross_profit" := gross_profit]> result)
    | _, _ => result
    end in
  (* 2) operating margin *)
  let result :=
    match revenue, operating_income with
    | Some r, Some oi =>
        <["operating_margin" := safe_div oi r]>
          (<["operating_income" := oi]> result)
    | _, _ => result
    end in
  (* 3) EBITDA and EBITDA margin *)
  let result :=
    match net_income with
    | Some ni =>
        let ebitda_val := add_if d_and_a (add_if income_tax (add_if interest ni)) in
        let result := <["ebitda" := ebitda_val]> result in
        match revenue with
        | Some r => <["ebitda_margin" := safe_div ebitda_val r]> result
        | None => result
        end
    | None => result
    end in
  (* 4) net margin *)
  let result :=
    match revenue, net_income with
    | Some r, Some ni => <["net_margin" := safe_div ni r]> result
    | _, _ => result
    end in
  (* 5) free cash flow and its margin *)
  let result :=
    match op_cf, capex with
    | Some o, Some c =>
        let fcf := (o - c)%Q in
        let result := <["fcf" := fcf]> result in
        match revenue with
        | Some r => <["fcf_margin" := safe_div fcf r]> result
        | None => result
        end
    | _, _ => result
    end in
  result.

Definition metrics_to_track : list (string * string) :=
  [ ("revenue", "revenue_growth");
    ("net_income", "net_income_growth");
    ("fcf", "fcf_growth");
    ("ebitda", "ebitda_growth") ].

(** [{p: i for i, p in enumerate(sorted_periods)}] *)
Definition idx_by_period (sorted_periods : list string) : gmap string nat :=
  fold_left (fun m ip => <[ip.2 := ip.1]> m) (imap pair sorted_periods) ∅.

(** [per_period.get(period, {}).get(metric)] *)
Definition metric_at (per_period : gmap string (gmap string Q))
    (period metric : string) : option Q :=
  default ∅ (per_period !! period) !! metric.

(** The body of the loop over [sorted_periods] for one metric.  Every
    period of the loop is a key of [idx_by_period] and index [idx - 1]
    is in range, so the two [None] branches on those lookups stand for
    a [KeyError] and an [IndexError] that cannot occur. *)
Definition growth_step (per_period : gmap string (gmap string Q))
    (sorted_periods : list string) (idx_of : gmap string nat)
    (metric : string) (growth_map : gmap string Q) (period : string)
    : gmap string Q :=
  match idx_of !! period with
  | None => growth_map
  | Some idx =>
      if Nat.eqb idx 0 then growth_map else
      match sorted_periods !! (idx - 1)%nat with
      | None => growth_map
      | Some prev_period =>
          match metric_at per_period period metric,
                metric_at per_period prev_period metric with
          | Some current_val, Some prev_val =>
              if PyFloat.eqb prev_val 0 then growth_map
              else <[period := ((current_val - prev_val) / prev_val)%Q]> growth_map
          | _, _ => growth_map
          end
      end
  end.

Definition _compute_yoy_growth (per_period : gmap string (gmap string Q))
    (periods : list string) : gmap string (gmap string Q) :=
  let yoy : gmap string (gmap string Q) :=
    fold_left (fun m mg => <[mg.2 := ∅]> m) metrics_to_track ∅ in
  let sorted_periods := PySort.sorted periods in
  let idx_of := idx_by_period sorted_periods in
  fold_left
    (fun yoy mg =>
       <[mg.2 := fold_left (growth_step per_period sorted_periods idx_of mg.1)
                   sorted_periods ∅]> yoy)
    metrics_to_track yoy.

Record core_metrics := {
  cm_periods : list string;
  cm_per_period : gmap string (gmap string Q);
  cm_yoy : gmap string (gmap string Q)
}.

Definition compute_core_metrics (facts : gmap string (gmap string Q))
    : core_metrics :=
  let periods := PySort.sorted (_collect_all_periods facts) in
  let per_period :=
    fold_left
      (fun m period => <[period := _compute_metrics_for_period facts period]> m)
      periods ∅ in
  {| cm_periods := periods;
     cm_per_period := per_period;
     cm_yoy := _compute_yoy_growth per_period periods |}.

End FinancialCalcs.

(* ===================================================================== *)
(** * agents/financial_agent_adk.py                                       *)
(* ===================================================================== *)

(** The outcome of an agent run: the state delta it yields, or the
    exception it raises. *)
Inductive outcome (A : Type) :=
| Yield (delta : A)
| Raise (message : string).
Arguments Yield {A} delta.
Arguments Raise {A} message.

Module FinancialAgent.

Definition _safe_growth (curr prev : option Q) : option Q :=
  match curr, prev with
  | Some c, Some p =>
      if PyFloat.eqb p 0 then None else Some ((c - p) / Qabs p)%Q
  | _, _ => None
  end.

(** What the agent reads from the session state. *)
Record state := {
  financials_raw : option (gmap string (gmap string Q));
  available_periods : option (list string)
}.

(** [_get_for_period] *)
Definition _get_for_period (facts : gmap string (gmap string Q))
    (friendly_key period : string) : option Q :=
  default ∅ (facts !! friendly_key) !! period.

Definition compute_ebitda (operating_income d_and_a net_income : option Q)
    : option Q :=
  match operating_income, d_and_a with
  | Some oi, Some da => Some (oi + da)%Q
  | Some oi, None => Some oi
  | None, _ =>
      match d_and_a, net_income with
      | Some da, Some ni => Some (ni + da)%Q
      | _, _ => net_income
      end
  end.

(** [x / revenue] under the guard [if revenue and revenue != 0]. *)
Definition margin (x revenue : option Q) : option Q :=
  match revenue with
  | Some r =>
      if PyFloat.truthy revenue && negb (PyFloat.eqb r 0) then
        match x with
        | Some v => Some (v / r)%Q
        | None => None
        end
      else None
  | None => None
  end.

(** [prev_metrics.get(key)]: [None] for a missing key and for a key
    bound to [None]. *)
Definition get (metrics : gmap string (option Q)) (key : string) : option Q :=
  mjoin (metrics !! key).

(** The [metrics] dictionary one iteration of the loop over [periods]
    builds, given the dictionary built so far and [prev_period]. *)
Definition period_metrics (facts : gmap string (gmap string Q))
    (financial_metrics : gmap string (gmap string (option Q)))
    (prev_period : option string) (period : string)
    : gmap string (option Q) :=
  let revenue := _get_for_period facts "revenue" period in
  let net_income := _get_for_period facts "net_income" period in
  let ocf := _get_for_period facts "operating_cash_flow" period in
  let capex := _get_for_period facts "capital_expenditures" period in
  let operating_income := _get_for_period facts "operating_income" period in
  let d_and_a := _get_for_period facts "depreciation_amortization" period in
  let ebitda := compute_ebitda operating_income d_and_a net_income in
  let fcf :=
    match ocf, capex with
    | Some o, Some c => Some (o - c)%Q
    | _, _ => None
    end in
  let ebitda_margin := margin ebitda revenue in
  let net_margin := margin net_income revenue in
  let fcf_margin := margin fcf revenue in
  let metrics : gmap string (option Q) :=
    <["fcf_margin" := fcf_margin]> (
    <["fcf" := fcf]> (
    <["net_margin" := net_margin]> (
    <["ebitda_margin" := ebitda_margin]> (
    <["ebitda" := ebitda]> (
    <["depreciation_amortization" := d_and_a]> (
    <["operating_income" := operating_income]> (
    <["capital_expenditures" := capex]> (
    <["operating_cash_flow" := ocf]> (
    <["net_income" := net_income]> (
    <["revenue" := revenue]> ∅)))))))))) in
  match prev_period with
  | Some pp =>
      let prev_metrics := default ∅ (financial_metrics !! pp) in
      <["ebitda_growth" := _safe_growth ebitda (get prev_metrics "ebitda")]> (
      <["fcf_growth" := _safe_growth fcf (get prev_metrics "fcf")]> (
      <["net_income_growth" :=
          _safe_growth net_income (get prev_metrics "net_income")]> (
      <["revenue_growth" :=
          _safe_growth revenue (get prev_metrics "revenue")]> metrics)))
  | None => metrics
  end.

(** One iteration: [financial_metrics[period] = metrics] and
    [prev_period = period]. *)
Definition period_step (facts : gmap string (gmap string Q))
    (acc : gmap string (gmap string (option Q)) * option string)
    (period : string)
    : gmap string (gmap string (option Q)) * option string :=
  (<[period := period_metrics facts acc.1 acc.2 period]> acc.1, Some period).

Definition build_metrics (facts : gmap string (gmap string Q))
    (periods : list string) : gmap string (gmap string (option Q)) :=
  (fold_left (period_step facts) periods (∅, None)).1.

(** The part of the state delta that depends on the Fact Table. *)
Record delta := {
  financial_metrics : gmap string (gmap string (option Q));
  latest_metrics : gmap string (option Q);
  yoy_metrics : gmap string (option Q);
  key_period : string
}.

Definition _run_async_impl (st : state) : outcome delta :=
  let facts := default ∅ (financials_raw st) in
  let periods := default [] (available_periods st) in
  match last periods with
  | None => Raise "FinancialAgent: 'available_periods' missing or empty"
  | Some key =>
      let fm := build_metrics facts periods in
      let latest := default ∅ (fm !! key) in
      Yield {| financial_metrics := fm;
               latest_metrics := latest;
               yoy_metrics :=
                 filter (fun kv => PyStr.endswith "_growth" kv.1 = true) latest;
               key_period := key |}
  end.

End FinancialAgent.

(* ===================================================================== *)
(** * agents/valuation_agent_adk.py                                       *)
(* ===================================================================== *)

Module ValuationAgent.

(** What the agent reads from the session state. *)
Record state := {
  available_periods : option (list string);
  key_period : option string;
  financial_metrics : option (gmap string (gmap string (option Q)));
  memo_latest_metrics : option (gmap string (option Q));
  live_quote : option (gmap string (option Q));
  live_stock : option (gmap string (option Q));
  financials_raw : option (gmap string (gmap string Q))
}.

(** [valuation_metrics]; the formatted percentage string is left out. *)
Record valuation_metrics := {
  vm_current_price : option Q;
  vm_revenue : option Q;
  vm_shares_raw : option Q;
  vm_shares_source : option string;
  vm_shares : option Q;
  vm_market_cap : option Q;
  vm_market_cap_millions : option Q;
  vm_pe : option Q;
  vm_fcf_yield : option Q;
  vm_key_period : option string
}.

Definition no_periods_metrics : valuation_metrics :=
  {| vm_current_price := None; vm_revenue := None; vm_shares_raw := None;
     vm_shares_source := None; vm_shares := None; vm_market_cap := None;
     vm_market_cap_millions := None; vm_pe := None; vm_fcf_yield := None;
     vm_key_period := None |}.

Definition share_keys_order : list string :=
  [ "common_shares_outstanding"; "shares_outstanding";
    "weighted_avg_shares_diluted"; "weighted_avg_shares_basic" ].

Fixpoint find_shares (facts : gmap string (gmap string Q))
    (keys : list string) (key_period : string) : option (Q * string) :=
  match keys with
  | [] => None
  | key :: rest =>
      match default ∅ (facts !! key) !! key_period with
      | Some val => Some (val, key)
      | None => find_shares facts rest key_period
      end
  end.

(** [a or b] on optional dictionaries: the empty one is falsy. *)
Definition dict_or {V} (a b : option (gmap string V)) : option (gmap string V) :=
  match a with
  | Some m => if bool_decide (m = ∅) then b else a
  | None => b
  end.

Definition get (metrics : gmap string (option Q)) (key : string) : option Q :=
  mjoin (metrics !! key).

(** The metrics of the key period, with the fallback to
    [memo_financials["latest_metrics"]]. *)
Definition key_metrics (st : state) (key : string) : gmap string (option Q) :=
  let fm := default ∅ (financial_metrics st) in
  let metrics := default ∅ (fm !! key) in
  if bool_decide (metrics = ∅)
  then default ∅ (dict_or (memo_latest_metrics st) (Some ∅))
  else metrics.

Definition valuation_for (st : state) (key : string) : valuation_metrics :=
  let metrics := key_metrics st key in
  let revenue := get metrics "revenue" in
  let net_income := get metrics "net_income" in
  let fcf := get metrics "fcf" in
  let quote := default ∅ (dict_or (live_quote st) (dict_or (live_stock st) (Some ∅))) in
  let current_price := get quote "current_price" in
  let facts := default ∅ (financials_raw st) in
  let found := find_shares facts share_keys_order key in
  let shares_raw := fst <$> found in
  let shares_source := snd <$> found in
  let shares := shares_raw in
  let market_cap :=
    match current_price, shares with
    | Some p, Some s => Some (p * s)%Q
    | _, _ => None
    end in
  let pe :=
    match market_cap, net_income with
    | Some mc, Some ni => if PyFloat.truthy net_income then Some (mc / ni)%Q else None
    | _, _ => None
    end in
  let fcf_yield :=
    match market_cap, fcf with
    | Some mc, Some f =>
        if PyFloat.truthy fcf && PyFloat.truthy market_cap
        then Some (f / mc)%Q else None
    | _, _ => None
    end in
  let market_cap_millions :=
    match market_cap with
    | Some mc => Some (mc / 1000000)%Q
    | None => None
    end in
  {| vm_current_price := current_price; vm_revenue := revenue;
     vm_shares_raw := shares_raw; vm_shares_source := shares_source;
     vm_shares := shares; vm_market_cap := market_cap;
     vm_market_cap_millions := market_cap_millions; vm_pe := pe;
     vm_fcf_yield := fcf_yield; vm_key_period := Some key |}.

Definition _run_async_impl (st : state) : outcome valuation_metrics :=
  let periods := default [] (available_periods st) in
  match PyStr.or_else (key_period st) None with
  | Some key => Yield (valuation_for st key)
  | None =>
      match last periods with
      | Some key => Yield (valuation_for st key)
      | None => Yield no_periods_metrics
      end
  end.

End ValuationAgent.

(* ===================================================================== *)
(** * Insertion-ordered dictionaries                                      *)
(* ===================================================================== *)

Module ODict.

(** A [dict] whose iteration order matters: its items in insertion
    order.  The operations keep the keys unique. *)
Definition t (V : Type) : Type := list (string * V).

Fixpoint get {V} (d : t V) (k : string) : option V :=
  match d with
  | [] => None
  | (k', v) :: d' => if String.eqb k' k then Some v else get d' k
  end.

Definition mem {V} (d : t V) (k : string) : bool :=
  match get d k with Some _ => true | None => false end.

(** [d[k] = v]: a bound key keeps its position, a new key goes last. *)
Fixpoint set {V} (d : t V) (k : string) (v : V) : t V :=
  match d with
  | [] => [(k, v)]
  | (k', v') :: d' =>
      if String.eqb k' k then (k, v) :: d' else (k', v') :: set d' k v
  end.

Definition keys {V} (d : t V) : list string := map fst d.

End ODict.

(* ===================================================================== *)
(** * tools/adk_text_tools.py                                             *)
(* ===================================================================== *)

Module TextTools.
Import PyStr.

Record heading := {
  h_start : nat;
  h_end : nat;
  h_section_number : string;
  h_heading : string;
  h_section_id : string
}.

(** The longest prefix of [s] whose characters satisfy [f], of at most
    [n] characters, and the rest. *)
Fixpoint span_upto (n : nat) (f : ascii -> bool) (s : string) : string * string :=
  match n, s with
  | S n', String c s' =>
      if f c then let '(p, r) := span_upto n' f s' in (String c p, r)
      else (EmptyString, s)
  | _, _ => (EmptyString, s)
  end.

(** The same without a bound (a greedy [*]). *)
Definition span (f : ascii -> bool) (s : string) : string * string :=
  span_upto (String.length s) f s.

(** A pattern letter under [re.IGNORECASE]; [p] is a lower-case letter. *)
Definition ci (p c : ascii) : bool := Ascii.eqb (lower_char c) p.

Definition not_newline (c : ascii) : bool := negb (Ascii.eqb c "010").

(** The pattern [(item\s+(\d+[a]?)\.\s*[^\n]{0,120})] with
    [re.IGNORECASE], tried at the head of [s]: the length of group 1
    and the text of group 2.  Every quantifier is greedy and none of
    them can give a character back to what follows it, so the first
    attempt decides the match. *)
Definition match_heading (s : string) : option (nat * string) :=
  match s with
  | String c1 (String c2 (String c3 (String c4 r))) =>
      if ci "i" c1 && ci "t" c2 && ci "e" c3 && ci "m" c4 then
        let '(ws, r1) := span is_space r in
        if negb (truthy ws) then None else
        let '(ds, r2) := span is_digit r1 in
        if negb (truthy ds) then None else
        let '(a, r3) :=
          match r2 with
          | String c r' =>
              if ci "a" c then (String c EmptyString, r') else (EmptyString, r2)
          | EmptyString => (EmptyString, r2)
          end in
        match r3 with
        | String c r4 =>
            if Ascii.eqb c "." then
              let '(ws2, r5) := span is_space r4 in
              let '(tl, _) := span_upto 120 not_newline r5 in
              Some ((4 + String.length ws + String.length ds
                     + String.length a + 1 + String.length ws2
                     + String.length tl)%nat,
                    String.append ds a)
            else None
        | EmptyString => None
        end
      else None
  | _ => None
  end.

Definition make_heading (pos len : nat) (group1 group2 : string) : heading :=
  let number := strip group2 in
  {| h_start := pos;
     h_end := (pos + len)%nat;
     h_section_number := number;
     h_heading := strip group1;
     h_section_id := String.append "item_" (lower number) |}.

(** [pattern.finditer]: matches from left to right, not overlapping.
    [skip] counts the characters still covered by the last match. *)
Fixpoint finditer (s : string) (pos skip : nat) : list heading :=
  match s with
  | EmptyString => []
  | String _ s' =>
      match skip with
      | S k => finditer s' (S pos) k
      | O =>
          match match_heading s with
          | Some (len, group2) =>
              make_heading pos len (take len s) group2
                :: finditer s' (S pos) (len - 1)
          | None => finditer s' (S pos) 0
          end
      end
  end.

Fixpoint insert_by_start (x : heading) (l : list heading) : list heading :=
  match l with
  | [] => [x]
  | y :: l' =>
      if (h_start x <=? h_start y)%nat then x :: l else y :: insert_by_start x l'
  end.

(** [matches.sort(key=lambda x: x["start"])] (stable). *)
Definition sort_by_start (l : list heading) : list heading :=
  foldr insert_by_start [] l.

Definition _find_item_headings (full_text : string) : list heading :=
  sort_by_start (finditer full_text 0 0).

Record chunk := {
  c_id : string;
  c_label : string;
  c_section_number : string;
  c_text : string
}.

Record index_entry := {
  e_id : string;
  e_label : string;
  e_section_type : string;
  e_part : string;
  e_page_estimate : option Z;
  e_approx_char_len : option nat;
  e_present_in_document : bool
}.

(** [len(text) if text else None] *)
Definition approx_len (text : string) : option nat :=
  if truthy text then Some (String.length text) else None.

(** The loop that cuts the text between consecutive headings. *)
Fixpoint build_chunks (full_text : string) (headings : list heading)
    : list chunk :=
  match headings with
  | [] => []
  | h :: rest =>
      let end_ :=
        match rest with
        | next :: _ => h_start next
        | [] => String.length full_text
        end in
      {| c_id := h_section_id h;
         c_label := h_heading h;
         c_section_number := h_section_number h;
         c_text := strip (slice (h_start h) end_ full_text) |}
      :: build_chunks full_text rest
  end.

(** Keep the longest text of each section id. *)
Definition index_chunk (sections_by_id : ODict.t chunk) (c : chunk)
    : ODict.t chunk :=
  match ODict.get sections_by_id (c_id c) with
  | None => ODict.set sections_by_id (c_id c) c
  | Some old =>
      if (String.length (c_text old) <? String.length (c_text c))%nat
      then ODict.set sections_by_id (c_id c) c
      else sections_by_id
  end.

Definition index_chunks (chunks : list chunk) : ODict.t chunk :=
  fold_left index_chunk chunks [].

(** [_entry] *)
Definition _entry (sections_by_id : ODict.t chunk)
    (sec_id default_label section_type part : string) (page : option Z)
    : index_entry :=
  let detected := ODict.get sections_by_id sec_id in
  let detected_label := c_label <$> detected in
  let text := or_empty (c_text <$> detected) in
  {| e_id := sec_id;
     e_label := or_empty (or_else detected_label (Some default_label));
     e_section_type := section_type;
     e_part := part;
     e_page_estimate := page;
     e_approx_char_len := approx_len text;
     e_present_in_document :=
       match detected with Some _ => true | None => false end |}.

(** The static table of [_build_sections_index]: id, default label,
    section type, part and page of every catalogued item, in the order
    of the dictionary literal. *)
Definition catalogue : list (string * string * string * string * option Z) :=
  [
    ("item_1", "Item 1. Business",
      "business", "PART I", Some 3);
    ("item_1a", "Item 1A. Risk Factors",
      "risks", "PART I", Some 9);
    ("item_1b", "Item 1B. Unresolved Staff Comments",
      "staff_comments", "PART I", Some 28);
    ("item_1c", "Item 1C. Cybersecurity",
      "cybersecurity", "PART I", Some 28);
    ("item_2", "Item 2. Properties",
      "properties", "PART I", Some 29);
    ("item_3", "Item 3. Legal Proceedings",
      "legal", "PART I", Some 51);
    ("item_4", "Item 4. Mine Safety Disclosures",
      "safety", "PART I", Some 51);
    ("item_5", "Item 5. Market for the Registrantâ€™s Common Equity, Related Stockholder Matters and Issuer Purchases of Equity Securities",
      "equity_market", "PART II", Some 53);
    ("item_6", "Item 6. [Reserved]",
      "reserved", "PART II", Some 54);
    ("item_7", "Item 7. Managementâ€™s Discussion and Analysis of Financial Condition and Results of Operations",
      "mdna", "PART II", Some 54);
    ("item_7a", "Item 7A. Quantitative and Qualitative Disclosures About Market Risk",
      "market_risk", "PART II", Some 82);
    ("item_8", "Item 8. Financial Statements and Supplementary Data",
      "financials", "PART II", Some 84);
    ("item_9", "Item 9. Changes in and Disagreements with Accountants on Accounting and Financial Disclosure",
      "accounting_changes", "PART II", Some 137);
    ("item_9a", "Item 9A. Controls and Procedures",
      "controls", "PART II", Some 137);
    ("item_9b", "Item 9B. Other Information",
      "other_info", "PART II", Some 137);
    ("item_9c", "Item 9C. Disclosure Regarding Foreign Jurisdictions That Prevent Inspections",
      "foreign_disclosure", "PART II", Some 137);
    ("item_10", "Item 10. Directors, Executive Officers and Corporate Governance",
      "directors_governance", "PART III", Some 137);
    ("item_11", "Item 11. Executive Compensation",
      "compensation", "PART III", Some 138);
    ("item_12", "Item 12. Security Ownership of Certain Beneficial Owners and Management and Related Stockholder Matters",
      "ownership", "PART III", Some 138);
    ("item_13", "Item 13. Certain Relationships and Related Transactions, and Director Independence",
      "relationships", "PART III", Some 138);
    ("item_14", "Item 14. Principal Accountant Fees and Services",
      "accountant_fees", "PART III", Some 138);
    ("item_15", "Item 15. Exhibits and Financial Statement Schedules",
      "exhibits", "PART IV", Some 138);
    ("item_16", "Item 16. Form 10-K Summary",
      "summary", "PART IV", Some 144)
  ].

Definition catalogue_ids : list string :=
  map (fun row => row.1.1.1.1) catalogue.

Definition static_index (sections_by_id : ODict.t chunk)
    : ODict.t index_entry :=
  fold_left
    (fun index row =>
       let '(sec_id, default_label, section_type, part, page) := row in
       ODict.set index sec_id
         (_entry sections_by_id sec_id default_label section_type part page))
    catalogue [].

Definition extra_entry (sid : string) (sec : chunk) : index_entry :=
  {| e_id := sid;
     e_label := c_label sec;
     e_section_type := "other";
     e_part := "UNKNOWN";
     e_page_estimate := None;
     e_approx_char_len := approx_len (c_text sec);
     e_present_in_document := true |}.

Definition add_extra (index : ODict.t index_entry) (item : string * chunk)
    : ODict.t index_entry :=
  if ODict.mem index item.1 then index
  else ODict.set index item.1 (extra_entry item.1 item.2).

Definition _build_sections_index (sections_by_id : ODict.t chunk)
    : ODict.t index_entry :=
  fold_left add_extra sections_by_id (static_index sections_by_id).

Record section_map := {
  full_text : string;
  sections_by_id : ODict.t chunk;
  chunks : list chunk;
  sections_index : ODict.t index_entry
}.

(** [build_10k_section_map] on the flattened text of the document. *)
Definition build_10k_section_map (text : string) : section_map :=
  let headings := _find_item_headings text in
  match headings with
  | [] =>
      {| full_text := text; sections_by_id := [];
         chunks := []; sections_index := [] |}
  | _ :: _ =>
      let cs := build_chunks text headings in
      let by_id := index_chunks cs in
      {| full_text := text; sections_by_id := by_id;
         chunks := cs; sections_index := _build_sections_index by_id |}
  end.

End TextTools.

(* ===================================================================== *)
(** * agents/qa_agent_adk.py                                              *)
(* ===================================================================== *)

Module QaAgent.
Import PyStr.

(** [re.sub(r"[^a-z0-9\s]+", " ", text)]: every maximal run of other
    characters becomes one space.  [in_run] tells that the previous
    character belonged to such a run. *)
Fixpoint sub_other (in_run : bool) (s : string) : string :=
  match s with
  | EmptyString => EmptyString
  | String c s' =>
      if is_lower_alnum c || is_space c then String c (sub_other false s')
      else if in_run then sub_other true s'
      else String " " (sub_other true s')
  end.

(** [text.split()]: the maximal runs of non-space characters.  [cur]
    is the token being read, reversed. *)
Fixpoint split_ws (cur : list ascii) (s : string) : list string :=
  let flush (rest : list string) : list string :=
    match cur with
    | [] => rest
    | _ :: _ => string_of_list_ascii (List.rev cur) :: rest
    end in
  match s with
  | EmptyString => flush []
  | String c s' =>
      if is_space c then flush (split_ws [] s')
      else split_ws (c :: cur) s'
  end.

Definition _normalize_text (text : string) : list string :=
  let text := lower text in
  let text := sub_other false text in
  filter (fun t => truthy t = true) (split_ws [] text).

(** A value of the normalized index: a section dictionary with the
    keys the scorer reads, or something that is not a dictionary. *)
Record section := {
  s_label : option string;
  s_title : option string;
  s_text : option string
}.

Inductive index_value :=
| Meta (m : section)
| NotDict.

Definition section_tokens (sec : section) : gset string :=
  let title := or_empty (or_else (s_label sec) (or_else (s_title sec) (Some ""))) in
  let text := or_empty (s_text sec) in
  let text_snippet := take 2000 text in
  list_to_set (_normalize_text (String.append title (String.append " " text_snippet))).

Definition _score_section_for_question (question : string) (sec : section) : Q :=
  let q_tokens : gset string := list_to_set (_normalize_text question) in
  let s_tokens := section_tokens sec in
  if bool_decide (s_tokens = ∅) then 0%Q
  else
    let overlap := q_tokens ∩ s_tokens in
    (inject_Z (Z.of_nat (size overlap))
     / inject_Z (Z.of_nat (Nat.max (size q_tokens) 1)))%Q.

(** The first loop: the sections with a positive score. *)
Definition score_items (question : string) (index : ODict.t index_value)
    : list (Q * string) :=
  flat_map
    (fun item =>
       match item.2 with
       | NotDict => []
       | Meta m =>
           let score := _score_section_for_question question m in
           if PyFloat.ltb 0 score then [(score, item.1)] else []
       end)
    index.

Fixpoint insert_desc (x : Q * string) (l : list (Q * string)) : list (Q * string) :=
  match l with
  | [] => [x]
  | y :: l' =>
      if Qle_bool y.1 x.1 then x :: l else y :: insert_desc x l'
  end.

(** [scored.sort(key=lambda x: x[0], reverse=True)]: by score,
    descending; equal scores keep their order. *)
Definition sort_desc (l : list (Q * string)) : list (Q * string) :=
  foldr insert_desc [] l.

(** The second loop, with its two [break]s.  Every [sid] of [scored]
    is a key of the index, so the [None] branch of the lookup stands for
    a [KeyError] that cannot occur. *)
Fixpoint select (index : ODict.t index_value) (top_k : nat) (min_score : Q)
    (scored : list (Q * string)) (results : ODict.t index_value)
    : ODict.t index_value :=
  match scored with
  | [] => results
  | (score, sid) :: rest =>
      if PyFloat.ltb score min_score then results
      else
        match ODict.get index sid with
        | None => results
        | Some meta =>
            let results := ODict.set results sid meta in
            if (top_k <=? length results)%nat then results
            else select index top_k min_score rest results
        end
  end.

Definition _fallback_sections_for_question (question : string)
    (sections_index_norm : ODict.t index_value)
    (top_k : nat) (min_score : Q) : ODict.t index_value :=
  select sections_index_norm top_k min_score
    (sort_desc (score_items question sections_index_norm)) [].

(** The call of the agent: [top_k=5, min_score=0.15]. *)
Definition fallback (question : string)
    (sections_index_norm : ODict.t index_value) : ODict.t index_value :=
  _fallback_sections_for_question question sections_index_norm 5 (15 # 100).

(** ** Intent detection *)

(** [any(kw in q for kw in keywords)] *)
Definition any_keyword (keywords : list string) (q : string) : bool :=
  existsb (fun kw => contains kw q) keywords.

Definition live_quote_keywords : list string :=
  [ "stock price"; "share price"; "market price"; "todayâ€™s price";
      "today's price"; "todays price"; "live price"; "live market";
      "market cap"; "market capitalization"; "valuation today";
      "current price"; "trading at"; "stock is trading";
      "share is trading"; "current market cap" ].

(** [_wants_live_quote]; the argument is [None] for a missing question. *)
Definition _wants_live_quote (question : option string) : bool :=
  any_keyword live_quote_keywords (lower (or_empty question)).

Definition financial_words : list string :=
  [ "financial highlight"; "financial highlights"; "financials"; "results";
      "performance"; "earnings"; "revenue"; "sales"; "net income";
      "profit"; "margin"; "cash flow"; "operating cash"; "free cash flow";
      "fcf" ].

Definition risk_words : list string :=
  [ "risk"; "risks"; "risk factor"; "risk factors"; "headwind";
      "headwinds"; "tailwind"; "tailwinds"; "downside"; "threat";
      "threats"; "uncertainty"; "volatility" ].

Definition mdna_words : list string :=
  [ "md&a"; "mdna"; "managementâ€™s discussion"; "management's discussion";
      "management discussion"; "item 7"; "item seven" ].

Definition memo_words : list string :=
  [ "investment memo"; "investment thesis"; "overall view";
      "overall assessment"; "due diligence summary"; "high level";
      "summary view" ].

(** [if any(...): intents.add(label)] *)
Definition add_if_any (words : list string) (label : string) (q : string)
    (intents : gset string) : gset string :=
  if any_keyword words q then intents ∪ {[ label ]} else intents.

Definition _detect_intents_rule_based (question : option string) : gset string :=
  let q := lower (or_empty question) in
  let intents : gset string := ∅ in
  let intents := add_if_any financial_words "financials" q intents in
  let intents := add_if_any risk_words "risks" q intents in
  let intents := add_if_any mdna_words "mdna" q intents in
  let intents := add_if_any memo_words "memo" q intents in
  if bool_decide (intents = ∅) then {[ "memo" ]} else intents.

Definition allowed_intents : gset string :=
  {[ "financials"; "risks"; "mdna"; "memo" ]}.

(** [_refine_intents_with_llm], given what the model call produced:
    [Some labels] for a reply that parses to a JSON object (its
    ["intents"] list, empty when the key is missing), [None] for any
    exception inside the [try] block. *)
Definition _refine_intents_with_llm (llm_reply : option (list string))
    (rule_intents : gset string) : gset string :=
  match llm_reply with
  | None => rule_intents
  | Some llm_intents_raw =>
      let llm_intents : gset string :=
        list_to_set (filter (fun i => i ∈ allowed_intents) llm_intents_raw) in
      let combined := rule_intents ∪ llm_intents in
      if bool_decide (combined = ∅)
      then (if bool_decide (rule_intents = ∅) then {[ "memo" ]} else rule_intents)
      else combined
  end.

(** [_detect_intents] *)
Definition _detect_intents (llm_reply : option (list string))
    (question : option string) : gset string :=
  _refine_intents_with_llm llm_reply (_detect_intents_rule_based question).

(** ** Normalising and filtering the section index *)

(** A value of [state["sections_index"]] as the filter reads it: a
    dictionary with its ["id"] and ["section_type"], a falsy value
    ([None], an empty dictionary), or a truthy value that is no
    dictionary. *)
Inductive filter_value :=
| FDict (id section_type : option string)
| FFalsy
| FOther.

(** [state["sections_index"]]: a dictionary, a list, or anything else. *)
Inductive raw_index :=
| RawDict (d : ODict.t filter_value)
| RawList (l : list filter_value)
| RawOther.

(** The loop of the list form: [out[sid] = entry] for every dictionary
    with a truthy id. *)
Definition normalize_step (out : ODict.t filter_value) (entry : filter_value)
    : ODict.t filter_value :=
  match entry with
  | FDict (Some sid) _ =>
      if truthy sid then ODict.set out sid entry else out
  | _ => out
  end.

Definition _normalize_sections_index (sections_index_raw : raw_index)
    : ODict.t filter_value :=
  match sections_index_raw with
  | RawDict d => d
  | RawList l => fold_left normalize_step l []
  | RawOther => []
  end.

(** [wanted_types] *)
Definition wanted_types (intents : gset string) : gset string :=
  let w : gset string := ∅ in
  let w := if bool_decide ("risks" ∈ intents) then w ∪ {[ "risks" ]} else w in
  let w := if bool_decide ("mdna" ∈ intents) then w ∪ {[ "mdna" ]} else w in
  let w := if bool_decide ("financials" ∈ intents) then w ∪ {[ "financials" ]} else w in
  w.

(** The filtering loop.  [(meta or {}).get("section_type")] raises
    [AttributeError] on a truthy value that is no dictionary. *)
Fixpoint filter_loop (wanted : gset string) (items : ODict.t filter_value)
    (filtered : ODict.t filter_value) : outcome (ODict.t filter_value) :=
  match items with
  | [] => Yield filtered
  | (sid, meta) :: rest =>
      match meta with
      | FOther => Raise "AttributeError"
      | FFalsy => filter_loop wanted rest filtered
      | FDict _ stype =>
          match stype with
          | Some ty =>
              if bool_decide (ty ∈ wanted)
              then filter_loop wanted rest (ODict.set filtered sid meta)
              else filter_loop wanted rest filtered
          | None => filter_loop wanted rest filtered
          end
      end
  end.

Definition _filter_sections_index_by_intents (sections_index_raw : raw_index)
    (intents : gset string) : outcome (ODict.t filter_value) :=
  let index := _normalize_sections_index sections_index_raw in
  match index with
  | [] => Yield []
  | _ :: _ =>
      let wanted := wanted_types intents in
      if bool_decide (wanted = ∅) then Yield index
      else filter_loop wanted index []
  end.

End QaAgent.

(* ===================================================================== *)
(** * agents/extraction_agent_adk.py: the agent                          *)
(* ===================================================================== *)

Module ExtractionAgentRun.
Import PyStr.

(** The keys of the session state the agent reads. *)
Record state := {
  report_path : option string;
  html_path : option string;
  pdf_path : option string
}.

(** The state delta of the event.  [d_extraction] is the dictionary
    [parsed] as it is when the event is built; the optional entries are
    the keys that are set only under a condition. *)
Record delta := {
  d_extraction : PdfTools.parsed;
  d_financials_raw : gmap string (gmap string Q);
  d_company : option string;
  d_ticker : option string;
  d_symbol : option string;
  d_cik : option string;
  d_available_periods : option (list string)
}.

(** [parsed] has none of the keys the first route of
    [_fix_revenue_from_ixbrl] looks for. *)
Definition parsed_lists : ExtractionAgent.parsed_doc :=
  {| ExtractionAgent.ixbrl_facts := None;
     ExtractionAgent.raw_ixbrl_facts := None;
     ExtractionAgent.facts_list := None |}.

(** [state.get("report_path") or state.get("html_path") or
    state.get("pdf_path")] *)
Definition doc_path (st : state) : option string :=
  or_else (report_path st) (or_else (html_path st) (pdf_path st)).

(** The message of the [ValueError]. *)
Definition missing_path : string :=
  "ExtractionAgent: missing document path in session.state. Expected one of: 'report_path', 'html_path', or 'pdf_path'.".

(** [_run_async_impl].  [parser_view] gives, for a path, the file as
    [parse_10k_html_ixbrl] sees it ([None] when there is no file), and
    [direct_view] the same file as the direct revenue pass sees it.
    [facts = parsed.get("facts") or {}] is the dictionary stored in
    [parsed] unless that one is empty, so the revenue fix shows in
    [parsed] as well. *)
Definition _run_async_impl
    (parser_view : string → option PdfTools.soup)
    (direct_view : string → ExtractionAgent.document)
    (st : state) : outcome delta :=
  match doc_path st with
  | None => Raise missing_path
  | Some path =>
      if negb (truthy path) then Raise missing_path else
      match PdfTools.parse_10k_html_ixbrl (parser_view path) with
      | None => Raise (String.append "File not found: " path)
      | Some parsed =>
          let company_name := PdfTools.p_company_name parsed in
          let ticker := PdfTools.p_ticker parsed in
          let symbol := or_else (PdfTools.p_symbol parsed) ticker in
          let cik := PdfTools.p_cik parsed in
          let shared := negb (bool_decide (PdfTools.p_facts parsed = ∅)) in
          let facts :=
            ExtractionAgent._fix_revenue_from_ixbrl (direct_view path)
              parsed_lists (PdfTools.p_facts parsed) in
          let parsed :=
            if shared
            then {| PdfTools.p_company_name := PdfTools.p_company_name parsed;
                    PdfTools.p_ticker := PdfTools.p_ticker parsed;
                    PdfTools.p_symbol := PdfTools.p_symbol parsed;
                    PdfTools.p_cik := PdfTools.p_cik parsed;
                    PdfTools.p_facts := facts |}
            else parsed in
          let available_periods := ExtractionAgent.available_periods facts in
          Yield {| d_extraction := parsed;
                   d_financials_raw := facts;
                   d_company := company_name;
                   d_ticker := ticker;
                   d_symbol := symbol;
                   d_cik := cik;
                   d_available_periods :=
                     match available_periods with
                     | [] => None
                     | _ :: _ => Some available_periods
                     end |}
      end
  end.

End ExtractionAgentRun.

(* ===================================================================== *)
(** * tools/adk_finance_tools.py                                          *)
(* ===================================================================== *)

Module FinanceTools.

(** The keys of [extraction] that are read, each a dictionary from
    names to period maps.  A value that is no dictionary behaves under
    ["facts"], and as a value of the raw facts, like a missing one, and
    is modelled so. *)
Record extraction := {
  facts : option (gmap string (gmap string Q));
  ixbrl_facts : option (gmap string (gmap string Q));
  facts_raw : option (gmap string (gmap string Q));
  raw_facts : option (gmap string (gmap string Q))
}.

(** [a or b] on optional dictionaries: the empty dictionary is falsy. *)
Definition dict_or (a b : option (gmap string (gmap string Q)))
    : option (gmap string (gmap string Q)) :=
  match a with
  | Some m => if bool_decide (m = ∅) then b else a
  | None => b
  end.

(** [ix] *)
Definition ix_source (e : extraction) : gmap string (gmap string Q) :=
  default ∅ (dict_or (ixbrl_facts e)
               (dict_or (facts_raw e) (dict_or (raw_facts e) (Some ∅)))).

(** [_copy_metric(dst_key, *source_keys)]: the loop with its [return]. *)
Fixpoint _copy_metric (ix : gmap string (gmap string Q)) (dst_key : string)
    (source_keys : list string) (facts : gmap string (gmap string Q))
    : gmap string (gmap string Q) :=
  match source_keys with
  | [] => facts
  | tag :: rest =>
      match ix !! tag with
      | Some src_map =>
          if bool_decide (src_map = ∅)
          then _copy_metric ix dst_key rest facts
          else <[dst_key := src_map]> facts
      | None => _copy_metric ix dst_key rest facts
      end
  end.

(** [build_facts_from_extraction]; the first test is
    [isinstance(direct_facts, dict) and direct_facts]. *)
Definition build_facts_from_extraction (e : extraction)
    : gmap string (gmap string Q) :=
  match dict_or (facts e) None with
  | Some direct_facts => direct_facts
  | None =>
      let ix := ix_source e in
      let facts : gmap string (gmap string Q) := ∅ in
      let facts :=
        _copy_metric ix "revenue"
          [ "NetSales"; "RevenueFromContractWithCustomer"; "SalesRevenueNet";
            "Revenues" ] facts in
      let facts :=
        _copy_metric ix "cost_of_sales"
          [ "CostOfSales"; "CostOfGoodsAndServicesSold"; "CostOfGoodsSold" ]
          facts in
      let facts :=
        _copy_metric ix "operating_income"
          [ "OperatingIncomeLoss"; "OperatingIncome" ] facts in
      let facts :=
        _copy_metric ix "net_income" [ "NetIncomeLoss"; "NetIncome" ] facts in
      let facts :=
        _copy_metric ix "operating_cash_flow"
          [ "NetCashProvidedByUsedInOperatingActivities";
            "NetCashProvidedByUsedInOperatingActivitiesContinuingOperations" ]
          facts in
      let facts :=
        _copy_metric ix "capital_expenditures"
          [ "PaymentsToAcquirePropertyPlantAndEquipment"; "CapitalExpenditures" ]
          facts in
      let facts :=
        _copy_metric ix "interest_expense"
          [ "InterestExpense"; "InterestAndDebtExpense" ] facts in
      let facts :=
        _copy_metric ix "income_tax_expense"
          [ "IncomeTaxExpenseBenefit"; "ProvisionForIncomeTaxes" ] facts in
      let facts :=
        _copy_metric ix "depreciation_and_amortization"
          [ "DepreciationDepletionAndAmortization"; "DepreciationAndAmortization" ]
          facts in
      facts
  end.

Definition compute_financial_metrics_from_extraction (e : extraction)
    : FinancialCalcs.core_metrics :=
  FinancialCalcs.compute_core_metrics (build_facts_from_extraction e).

End FinanceTools.
(* ===================================================================== *)
(** * Vocabulary of the statements                                        *)
(* ===================================================================== *)

Section Vocabulary.
Import PdfTools.

(** The value stored for a concept and a period. *)
Definition stored (raw : gmap string (gmap string Q)) (name period : string)
    : option Q :=
  default ∅ (raw !! name) !! period.

(** The decimals scale in the words of the specification: [10^|d|] for
    a negative [d], [1/10^d] for a positive one, [1] when the attribute
    is absent or does not parse (and for [d = 0], which the
    specification's general formula [10^(-d)] also sends to [1]). *)
Definition spec_decimal_scale (decimals_attr : option string) : Q :=
  match decimals_attr with
  | None => 1%Q
  | Some a =>
      match PyNum.int a with
      | None => 1%Q
      | Some d =>
          if decide (d < 0) then inject_Z (10 ^ Z.abs d)
          else if decide (0 < d) then (1 / inject_Z (10 ^ d))%Q
          else 1%Q
      end
  end.

(** The fact of the specification's scaling example. *)
Definition example_tag : ix_tag :=
  {| attr_name := Some "us-gaap:Revenues";
     attr_contextref := Some "FD2022";
     attr_decimals := Some "-6";
     attr_unitref := Some "usd";
     attr_unitRef := None;
     tag_text := "648,125" |}.

Definition example_contexts : gmap string string :=
  {[ "FD2022" := "2022-09-24" ]}.

Definition example_units : gmap string string :=
  {[ "usd" := "iso4217:USD" ]}.

(** The first concept of a list that reports the period, with its value:
    what a merge in which earlier concepts are preferred would keep. *)
Fixpoint first_reporting (raw : gmap string (gmap string Q))
    (concepts : list string) (period : string) : option Q :=
  match concepts with
  | [] => None
  | c :: rest =>
      match stored raw c period with
      | Some v => Some v
      | None => first_reporting raw rest period
      end
  end.

(** The last concept of a list that reports the period, with its value. *)
Definition last_reporting (raw : gmap string (gmap string Q))
    (concepts : list string) (period : string) : option Q :=
  first_reporting raw (rev concepts) period.

(** The value of the last scanned tag that asserts the concept for the
    period. *)
Fixpoint last_fact (ctx um : gmap string string) (tags : list ix_tag)
    (name period : string) : option Q :=
  match tags with
  | [] => None
  | tag :: rest =>
      match last_fact ctx um rest name period with
      | Some v => Some v
      | None =>
          match fact_of_tag ctx um tag with
          | Some (n, p, v) =>
              if decide (n = name ∧ p = period) then Some v else None
          | None => None
          end
      end
  end.

(** The preference merge as the specification words it: the merged
    value of a metric is that of the first concept of its list that
    reports the period. *)
Definition preference_merge_claim : Prop :=
  ∀ (ctx um : gmap string string) (tags : list ix_tag)
    (key : string) (concepts : list string) (period : string),
    (key, concepts) ∈ concept_map →
    stored (_extract_key_facts_from_ixbrl tags ctx um) key period
    = first_reporting (scan ctx um tags) concepts period.

(** Duplicate resolution as the specification words it: the stored
    value is at least every value asserted for the concept and period. *)
Definition duplicates_max_claim : Prop :=
  ∀ (ctx um : gmap string string) (tags : list ix_tag) (tag : ix_tag)
    (name period : string) (v : Q),
    tag ∈ tags →
    fact_of_tag ctx um tag = Some (name, period, v) →
    ∃ w, stored (scan ctx um tags) name period = Some w ∧ (v <= w)%Q.

(** A revenue fact of context [FD2022] without scaling. *)
Definition plain_tag (concept text : string) : ix_tag :=
  {| attr_name := Some concept;
     attr_contextref := Some "FD2022";
     attr_decimals := None;
     attr_unitref := None;
     attr_unitRef := None;
     tag_text := text |}.

End Vocabulary.

Section ReconcilerVocabulary.
Import ExtractionAgent.

(** The (period, scaled value) pairs the direct pass observes, in
    document order. *)
Definition direct_observations (doc : document) : list (string * Q) :=
  match doc with
  | None => []
  | Some (ctxs, facts) => omap (direct_fact (context_end_by_id ctxs)) facts
  end.

(** The pairs observed in the fact list of [parsed], when it has one. *)
Definition parsed_observations (parsed : parsed_doc) : list (string * Q) :=
  omap parsed_fact_value (parsed_facts parsed).

(** The observations of the reconciler: those of the list in [parsed]
    when there are any, else those of the direct pass over the file. *)
Definition reconciler_observations (doc : document) (parsed : parsed_doc)
    : list (string * Q) :=
  match parsed_observations parsed with
  | [] => direct_observations doc
  | o :: obs => o :: obs
  end.

(** [rbp] holds, for each observed period, the maximum observed value. *)
Definition holds_maxima (rbp : gmap string Q) (obs : list (string * Q)) : Prop :=
  ∀ period : string,
    (rbp !! period = None ↔ ∀ v, (period, v) ∉ obs)
    ∧ ∀ mx, rbp !! period = Some mx →
        (period, mx) ∈ obs ∧ ∀ v, (period, v) ∈ obs → (v <= mx)%Q.

(** A parse result without any fact list, as [parse_10k_html_ixbrl]
    returns it. *)
Definition no_fact_list : parsed_doc :=
  {| ixbrl_facts := None; raw_ixbrl_facts := None; facts_list := None |}.

Definition revenue_elem (text : string) : fact_elem :=
  {| fe_name := Some "us-gaap:Revenues";
     fe_contextref := Some "FD2022";
     fe_contextRef := None;
     fe_text := Some text;
     fe_decimals := None |}.

(** A document with two revenue facts, 100 and 120, for one period. *)
Definition two_revenue_doc : document :=
  Some ([ {| ctx_id := Some "FD2022"; ctx_end_text := Some "2022-09-24" |} ],
        [ revenue_elem "100"; revenue_elem "120" ]).

(** A Fact Table in which the generic merge left 7 for that period and
    a value for another one. *)
Definition generic_facts : gmap string (gmap string Q) :=
  {[ "revenue" := {[ "2022-09-24" := 7%Q; "2021-09-25" := 5%Q ]};
     "net_income" := {[ "2022-09-24" := 1%Q ]} ]}.

(** The fixed set of authoritative revenue concepts. *)
Definition authoritative_revenue_concepts : gset string :=
  {[ "us-gaap:Revenues";
     "us-gaap:RevenueFromContractWithCustomerExcludingAssessedTax" ]}.

(** Element [e] is a fact of the reconciler's pass over the document:
    it names an authoritative revenue concept, its context reference
    resolves to the non-empty [period], and its text, commas removed,
    reads as the number [raw]. *)
Definition revenue_fact (ctxs : list ctx_elem) (e : fact_elem)
    (period : string) (raw : Q) : Prop :=
  PyStr.strip (PyStr.or_empty (fe_name e)) ∈ authoritative_revenue_concepts
  ∧ (∃ ref : string,
       PyStr.or_else (fe_contextref e) (fe_contextRef e) = Some ref
       ∧ ref ≠ EmptyString
       ∧ context_end_by_id ctxs !! ref = Some period)
  ∧ period ≠ EmptyString
  ∧ PyNum.float
      (PyStr.replace_char "," "" (PyStr.strip (PyStr.or_empty (fe_text e))))
    = Some raw.

(** The scale of the reconciler's pass: [10^|d|] for a negative integer
    [decimals] [d] (as long as the power is a float, that is down to
    [-308]), and [1] in every other case: an absent or unparsable
    attribute, zero, and also a positive [d]. *)
Definition pass_scale (decimals_attr : option string) : Q :=
  match decimals_attr with
  | None => 1%Q
  | Some a =>
      match PyNum.int a with
      | None => 1%Q
      | Some d =>
          if decide (-308 ≤ d < 0) then inject_Z (10 ^ Z.abs d) else 1%Q
      end
  end.

(** The pass observes [value] for [period]: the number of one of its
    facts for that period, scaled by the pass. *)
Definition pass_observes (ctxs : list ctx_elem) (elems : list fact_elem)
    (period : string) (value : Q) : Prop :=
  ∃ (e : fact_elem) (raw : Q),
    e ∈ elems ∧ revenue_fact ctxs e period raw
    ∧ (value == raw * pass_scale (fe_decimals e))%Q.

(** C3 with the scaled value of the specification's data model (the
    number times the decimal scale of C1, there being no unit hint):
    every value of the replaced revenue entry is the scaled value of a
    fact of the pass for its period. *)
Definition spec_scaled_override_claim : Prop :=
  ∀ (ctxs : list ctx_elem) (elems : list fact_elem)
    (facts : gmap string (gmap string Q)),
    (∃ e period raw, e ∈ elems ∧ revenue_fact ctxs e period raw) →
    ∃ rbp : gmap string Q,
      _fix_revenue_from_ixbrl (Some (ctxs, elems)) no_fact_list facts
      = <["revenue" := rbp]> facts
      ∧ ∀ (period : string) (mx : Q),
          rbp !! period = Some mx →
          ∃ e raw, e ∈ elems ∧ revenue_fact ctxs e period raw
                   ∧ (mx == raw * spec_decimal_scale (fe_decimals e))%Q.

Definition fact_of_concept (concept text : string) (decimals : option string)
    : fact_elem :=
  {| fe_name := Some concept;
     fe_contextref := Some "FD2022";
     fe_contextRef := None;
     fe_text := Some text;
     fe_decimals := decimals |}.

Definition fd2022 : list ctx_elem :=
  [ {| ctx_id := Some "FD2022"; ctx_end_text := Some "2022-09-24" |} ].

(** A document with one revenue fact, 100 with [decimals = 2]. *)
Definition fine_revenue_elems : list fact_elem :=
  [ fact_of_concept "us-gaap:Revenues" "100" (Some "2") ].

(** A document with the revenue facts 100 (in tens, hence 1000) and
    120, and a larger fact of a concept outside the fixed set. *)
Definition scaled_revenue_elems : list fact_elem :=
  [ fact_of_concept "us-gaap:Revenues" "100" (Some "-1");
    fact_of_concept "us-gaap:Revenues" "120" None;
    fact_of_concept "us-gaap:SalesRevenueNet" "5,000" (Some "-1") ].

End ReconcilerVocabulary.

Section MetricsVocabulary.

(** The metrics whose growth is tracked. *)
Inductive tracked := Revenue | NetIncome | Fcf | Ebitda.

Definition metric_key (t : tracked) : string :=
  match t with
  | Revenue => "revenue"
  | NetIncome => "net_income"
  | Fcf => "fcf"
  | Ebitda => "ebitda"
  end.

Definition growth_key (t : tracked) : string :=
  match t with
  | Revenue => "revenue_growth"
  | NetIncome => "net_income_growth"
  | Fcf => "fcf_growth"
  | Ebitda => "ebitda_growth"
  end.

(** EBITDA in the words of the specification. *)
Definition spec_ebitda (operating_income d_and_a net_income : option Q)
    : option Q :=
  match operating_income, d_and_a with
  | Some oi, Some da => Some (oi + da)%Q
  | _, _ =>
      match operating_income with
      | Some oi => Some oi
      | None =>
          match net_income, d_and_a with
          | Some ni, Some da => Some (ni + da)%Q
          | _, _ => net_income
          end
      end
  end.

(** Growth in the words of the specification: [(current - previous) /
    |previous|], absent when a value is missing or the previous one is
    zero. *)
Definition spec_growth (current previous : option Q) : option Q :=
  match current, previous with
  | Some c, Some p =>
      if Qeq_dec p 0 then None else Some ((c - p) / Qabs p)%Q
  | _, _ => None
  end.

(** Equality of optional rationals up to [Qeq]. *)
Definition opt_Qeq (x y : option Q) : Prop :=
  match x, y with
  | Some a, Some b => (a == b)%Q
  | None, None => True
  | _, _ => False
  end.

(** Free cash flow of a period as [FinancialAgent] computes it. *)
Definition agent_fcf (facts : gmap string (gmap string Q)) (period : string)
    : option Q :=
  match FinancialAgent._get_for_period facts "operating_cash_flow" period,
        FinancialAgent._get_for_period facts "capital_expenditures" period with
  | Some o, Some c => Some (o - c)%Q
  | _, _ => None
  end.

(** EBITDA of a period as [FinancialAgent] computes it. *)
Definition agent_ebitda (facts : gmap string (gmap string Q)) (period : string)
    : option Q :=
  FinancialAgent.compute_ebitda
    (FinancialAgent._get_for_period facts "operating_income" period)
    (FinancialAgent._get_for_period facts "depreciation_amortization" period)
    (FinancialAgent._get_for_period facts "net_income" period).

(** The value of a tracked metric for a period in [FinancialAgent]. *)
Definition agent_value (facts : gmap string (gmap string Q)) (t : tracked)
    (period : string) : option Q :=
  match t with
  | Revenue => FinancialAgent._get_for_period facts "revenue" period
  | NetIncome => FinancialAgent._get_for_period facts "net_income" period
  | Fcf => agent_fcf facts period
  | Ebitda => agent_ebitda facts period
  end.

(** The metrics [FinancialAgent] reports for a period of its run. *)
Definition agent_metrics (facts : gmap string (gmap string Q))
    (periods : list string) (period : string) : gmap string (option Q) :=
  default ∅ (FinancialAgent.build_metrics facts periods !! period).

(** C5 as the specification states it, read on [financial_calcs]: the
    [ebitda] entry of a period follows the specification's preference
    chain. *)
Definition calcs_ebitda_claim : Prop :=
  ∀ (facts : gmap string (gmap string Q)) (period : string),
    FinancialCalcs._compute_metrics_for_period facts period !! "ebitda"
    = spec_ebitda
        (FinancialCalcs._get_value facts "operating_income" period)
        (FinancialCalcs._get_any_value facts
           ["depreciation_and_amortization"; "depreciation_amortization"] period)
        (FinancialCalcs._get_value facts "net_income" period).

(** Growth as [financial_calcs] documents it: [(current - previous) /
    previous], absent when a value is missing or the previous one is
    zero. *)
Definition calcs_growth (current previous : option Q) : option Q :=
  match current, previous with
  | Some c, Some p =>
      if Qeq_dec p 0 then None else Some ((c - p) / p)%Q
  | _, _ => None
  end.

(** The growth entry [_compute_yoy_growth] reports for a metric and a
    period. *)
Definition yoy_at (per_period : gmap string (gmap string Q))
    (periods : list string) (t : tracked) (period : string) : option Q :=
  default ∅ (FinancialCalcs._compute_yoy_growth per_period periods !! growth_key t)
    !! period.

(** The loop state after the periods [l]. *)
Definition run_acc (facts : gmap string (gmap string Q)) (l : list string)
    : gmap string (gmap string (option Q)) * option string :=
  fold_left (FinancialAgent.period_step facts) l (∅, None).

(** What one iteration of the loop over the sorted periods stores for
    its period, if anything. *)
Definition growth_value (per_period : gmap string (gmap string Q))
    (sorted_periods : list string) (idx_of : gmap string nat)
    (metric period : string) : option Q :=
  match idx_of !! period with
  | None => None
  | Some idx =>
      if Nat.eqb idx 0 then None else
      match sorted_periods !! (idx - 1)%nat with
      | None => None
      | Some prev_period =>
          match FinancialCalcs.metric_at per_period period metric,
                FinancialCalcs.metric_at per_period prev_period metric with
          | Some current_val, Some prev_val =>
              if PyFloat.eqb prev_val 0 then None
              else Some ((current_val - prev_val) / prev_val)%Q
          | _, _ => None
          end
      end
  end.

(** C6 as the specification states it, read on
    [financial_calcs._compute_yoy_growth]: growth over [|previous|]. *)
Definition calcs_growth_claim : Prop :=
  ∀ (per_period : gmap string (gmap string Q)) (periods l1 l2 : list string)
    (q p : string) (t : tracked),
    NoDup periods →
    PySort.sorted periods = l1 ++ q :: p :: l2 →
    opt_Qeq (yoy_at per_period periods t p)
      (spec_growth (FinancialCalcs.metric_at per_period p (metric_key t))
         (FinancialCalcs.metric_at per_period q (metric_key t))).

(** Two periods with revenue -100 and then -50. *)
Definition loss_periods : list string := ["2021-09-25"; "2022-09-24"].

Definition loss_per_period : gmap string (gmap string Q) :=
  {[ "2021-09-25" := {[ "revenue" := (-100)%Q ]};
     "2022-09-24" := {[ "revenue" := (-50)%Q ]} ]}.

(** The specification's growth example: revenue 100 and then 130. *)
Definition growth_facts : gmap string (gmap string Q) :=
  {[ "revenue" := {[ "2021-09-25" := 100%Q; "2022-09-24" := 130%Q ]} ]}.

Definition growth_per_period : gmap string (gmap string Q) :=
  {[ "2021-09-25" := {[ "revenue" := 100%Q ]};
     "2022-09-24" := {[ "revenue" := 130%Q ]} ]}.

(** A denominator that is zero or missing. *)
Definition zero_or_missing (x : option Q) : Prop :=
  match x with
  | None => True
  | Some v => (v == 0)%Q
  end.

(** A guarded quotient in the words of the specification: absent when
    the denominator is zero or an operand is missing. *)
Definition spec_ratio (x denominator : option Q) : option Q :=
  match x, denominator with
  | Some v, Some d => if Qeq_dec d 0 then None else Some (v / d)%Q
  | _, _ => None
  end.

Definition calcs_margin_keys : list string :=
  [ "gross_margin"; "operating_margin"; "ebitda_margin"; "net_margin";
    "fcf_margin" ].

(** Revenue of a period as [financial_calcs] reads it. *)
Definition calcs_revenue (facts : gmap string (gmap string Q)) (period : string)
    : option Q :=
  FinancialCalcs._get_any_value facts ["net_sales"; "revenue"] period.

(** C4 as the specification states it, read on [financial_calcs]: a
    margin is absent when revenue is zero or missing. *)
Definition calcs_division_guard_claim : Prop :=
  ∀ (facts : gmap string (gmap string Q)) (period key : string),
    key ∈ calcs_margin_keys →
    zero_or_missing (calcs_revenue facts period) →
    FinancialCalcs._compute_metrics_for_period facts period !! key = None.

(** A Fact Table with revenue 0 and net income 5. *)
Definition zero_revenue_facts : gmap string (gmap string Q) :=
  {[ "revenue" := {[ "2022-09-24" := 0%Q ]};
     "net_income" := {[ "2022-09-24" := 5%Q ]} ]}.

(** The Fact Table has zero periods: no metric reports a value for any
    period. *)
Definition zero_periods (facts : gmap string (gmap string Q)) : Prop :=
  ∀ (metric : string) (pm : gmap string Q), facts !! metric = Some pm → pm = ∅.

(** C7 as the specification states it: both agents raise when the Fact
    Table has zero periods. *)
Definition no_periods_claim : Prop :=
  ∀ (sf : FinancialAgent.state) (sv : ValuationAgent.state),
    zero_periods (default ∅ (FinancialAgent.financials_raw sf)) →
    zero_periods (default ∅ (ValuationAgent.financials_raw sv)) →
    (∃ msg, FinancialAgent._run_async_impl sf = Raise msg)
    ∧ (∃ msg, ValuationAgent._run_async_impl sv = Raise msg).

(** Every value of every period's metrics is [None]. *)
Definition all_none (fm : gmap string (gmap string (option Q))) : Prop :=
  ∀ (period : string) (m : gmap string (option Q)) (key : string) (v : option Q),
    fm !! period = Some m → m !! key = Some v → v = None.

(** Session states after an extraction that found no period. *)
Definition empty_financial_state : FinancialAgent.state :=
  {| FinancialAgent.financials_raw := Some ∅;
     FinancialAgent.available_periods := None |}.

(** A session state with an empty Fact Table that still holds the
    period list of an earlier run. *)
Definition stale_financial_state : FinancialAgent.state :=
  {| FinancialAgent.financials_raw := Some ∅;
     FinancialAgent.available_periods := Some ["2021-09-25"; "2022-09-24"] |}.

Definition empty_valuation_state : ValuationAgent.state :=
  {| ValuationAgent.available_periods := None;
     ValuationAgent.key_period := None;
     ValuationAgent.financial_metrics := None;
     ValuationAgent.memo_latest_metrics := None;
     ValuationAgent.live_quote := None;
     ValuationAgent.live_stock := None;
     ValuationAgent.financials_raw := Some ∅ |}.

(** A Fact Table with operating income 10, D&A 2 and net income 5. *)
Definition ebitda_facts : gmap string (gmap string Q) :=
  {[ "operating_income" := {[ "2022-09-24" := 10%Q ]};
     "depreciation_amortization" := {[ "2022-09-24" := 2%Q ]};
     "net_income" := {[ "2022-09-24" := 5%Q ]} ]}.

End MetricsVocabulary.

Section SectionVocabulary.

Definition newline : string := String "010" EmptyString.

(** A flattened text with the headings of Item 1A and Item 1B, each on
    a line of its own and followed by a body line. *)
Definition two_items_text : string :=
  String.append "Item 1A. Risk Factors"
    (String.append newline
       (String.append "First body."
          (String.append newline
             (String.append "Item 1B. Unresolved Staff Comments"
                (String.append newline "Second body."))))).

(** The entry of the Section Index for an id. *)
Definition index_entry_of (text id : string) : option TextTools.index_entry :=
  ODict.get (TextTools.sections_index (TextTools.build_10k_section_map text)) id.

(** The detected section for an id. *)
Definition detected (text id : string) : option TextTools.chunk :=
  ODict.get (TextTools.sections_by_id (TextTools.build_10k_section_map text)) id.

(** The entry the static table gives an id, if it lists the id. *)
Fixpoint static_row (rows : list (string * string * string * string * option Z))
    (id : string) : option (string * string * string * string * option Z) :=
  match rows with
  | [] => None
  | row :: rest =>
      match static_row rest id with
      | Some r => Some r
      | None => if decide (row.1.1.1.1 = id) then Some row else None
      end
  end.

End SectionVocabulary.

Section RetrievalVocabulary.
Import QaAgent.

(** The tokens of the question. *)
Definition question_tokens (question : string) : gset string :=
  list_to_set (_normalize_text question).

(** The score of an index value: that of a section dictionary, 0 for
    anything else. *)
Definition item_score (question : string) (v : index_value) : Q :=
  match v with
  | Meta m => _score_section_for_question question m
  | NotDict => 0%Q
  end.

(** The longest prefix whose elements satisfy [f]. *)
Fixpoint take_while {A} (f : A → bool) (l : list A) : list A :=
  match l with
  | [] => []
  | x :: l' => if f x then x :: take_while f l' else []
  end.

(** The scored sections, best first, as the fallback ranks them. *)
Definition ranking (question : string) (index : ODict.t index_value)
    : list (Q * string) :=
  sort_desc (score_items question index).

(** Descending order of the scores of index items. *)
Definition score_ge (question : string) (a b : string * index_value) : Prop :=
  (item_score question b.2 <= item_score question a.2)%Q.

(** Descending order of scored pairs. *)
Definition desc (a b : Q * string) : Prop := (b.1 <= a.1)%Q.

(** The item the second loop stores for a scored pair. *)
Definition stored_item (index : ODict.t index_value) (x : Q * string)
    : string * index_value :=
  (x.2, default NotDict (ODict.get index x.2)).

Definition above (min_score : Q) (x : Q * string) : bool :=
  negb (PyFloat.ltb x.1 min_score).

(** The pairs the fallback selects from the ranking. *)
Definition selected (question : string) (index : ODict.t index_value)
    (top_k : nat) (min_score : Q) : list (Q * string) :=
  take top_k (take_while (above min_score) (ranking question index)).

(** Tokens in the words of the specification.  A character counts
    when it is a letter or a digit, and counts as its lower-case form;
    every other character (punctuation, white space) separates. *)
Fixpoint translate (c : ascii) (from to : string) : option ascii :=
  match from, to with
  | String a from', String b to' =>
      if Ascii.eqb c a then Some b else translate c from' to'
  | _, _ => None
  end.

Definition spec_word_char (c : ascii) : option ascii :=
  translate c
    "ABCDEFGHIJKLMNOPQRSTUVWXYZabcdefghijklmnopqrstuvwxyz0123456789"
    "abcdefghijklmnopqrstuvwxyzabcdefghijklmnopqrstuvwxyz0123456789".

Definition emit (word : list ascii) (rest : list string) : list string :=
  match word with
  | [] => rest
  | _ :: _ => string_of_list_ascii (rev word) :: rest
  end.

(** The maximal runs of counting characters, case-folded; [word] is
    the run being read, reversed. *)
Fixpoint spec_tokens_from (word : list ascii) (s : string) : list string :=
  match s with
  | EmptyString => emit word []
  | String c s' =>
      match spec_word_char c with
      | Some c' => spec_tokens_from (c' :: word) s'
      | None => emit word (spec_tokens_from [] s')
      end
  end.

Definition spec_tokens (s : string) : gset string :=
  list_to_set (spec_tokens_from [] s).

(** The label of a section: its [label], or its [title] when there is
    no label or an empty one. *)
Definition spec_label (m : section) : string :=
  match s_label m with
  | Some (String c l) => String c l
  | _ => default EmptyString (s_title m)
  end.

(** The first [n] characters of a text. *)
Definition spec_prefix (n : nat) (s : string) : string :=
  string_of_list_ascii (firstn n (list_ascii_of_string s)).

(** What the specification tokenizes for a section: its label and the
    first 2000 characters of its text. *)
Definition spec_section_text (m : section) : string :=
  String.append (spec_label m)
    (String.append " " (spec_prefix 2000 (default EmptyString (s_text m)))).

Definition section_with (label text : string) : index_value :=
  Meta {| s_label := Some label; s_title := None; s_text := Some text |}.

(** An index of three sections; for the question ["cyber risk"] one
    shares no token, one shares a token of its label and one of its
    text, and one shares a token of its text only. *)
Definition text_index : ODict.t index_value :=
  [ ("item_1", section_with "Item 1. Business" "We design phones.");
    ("item_1a", section_with "Item 1A. Risk Factors"
                  "Cyber-attacks could disrupt our operations.");
    ("item_1c", section_with "Item 1C. Cybersecurity"
                  "Our CYBER program is overseen by the board.") ].

End RetrievalVocabulary.

(* ===================================================================== *)
(** * Further vocabulary                                                  *)
(* ===================================================================== *)

Section TableVocabulary.

(** A Fact Table with a generic revenue entry and one other metric. *)
Definition table_with_income : gmap string (gmap string Q) :=
  {[ "revenue" := {[ "2022-09-24" := 7%Q ]};
     "net_income" := {[ "2022-09-24" := 1%Q ]} ]}.

End TableVocabulary.

Section MoreSectionVocabulary.

(** A text in which "Item 7." appears twice, first as a line of a table
    of contents and then as the heading of the section itself. *)
Definition twice_item_7_text : string :=
  String.append "Item 7. Contents"
    (String.append newline
       (String.append "Item 7. Discussion"
          (String.append newline "The body of the discussion."))).

(** A text with a catalogued heading and one outside the catalogue. *)
Definition extra_item_text : string :=
  String.append "Item 17. Appendix"
    (String.append newline
       (String.append "Item 1A. Risk Factors"
          (String.append newline "Risks."))).

End MoreSectionVocabulary.

Section AgentVocabulary.

(** The order [sorted] puts period strings in. *)
Definition str_le (a b : string) : Prop := String.leb a b = true.

(** The keys every metrics dictionary of [FinancialAgent] has. *)
Definition base_keys : gset string :=
  {[ "revenue"; "net_income"; "operating_cash_flow"; "capital_expenditures";
     "operating_income"; "depreciation_amortization"; "ebitda";
     "ebitda_margin"; "net_margin"; "fcf"; "fcf_margin" ]}.

(** The keys added for a period that has a predecessor. *)
Definition growth_keys : gset string :=
  {[ "revenue_growth"; "net_income_growth"; "fcf_growth"; "ebitda_growth" ]}.


(** A state in which only the two weighted-average share counts are
    reported for the key period. *)
Definition weighted_shares_state : ValuationAgent.state :=
  {| ValuationAgent.available_periods := Some ["2022-09-24"];
     ValuationAgent.key_period := None;
     ValuationAgent.financial_metrics :=
       Some {[ "2022-09-24" :=
                 {[ "net_income" := Some 50%Q; "fcf" := Some 0%Q;
                    "revenue" := Some 400%Q ]} ]};
     ValuationAgent.memo_latest_metrics := None;
     ValuationAgent.live_quote := Some {[ "current_price" := Some 10%Q ]};
     ValuationAgent.live_stock := None;
     ValuationAgent.financials_raw :=
       Some {[ "weighted_avg_shares_basic" := {[ "2022-09-24" := 90%Q ]};
               "weighted_avg_shares_diluted" := {[ "2022-09-24" := 100%Q ]} ]} |}.

(** A state of [FinancialAgent] with two periods. *)
Definition two_period_state : FinancialAgent.state :=
  {| FinancialAgent.financials_raw := Some growth_facts;
     FinancialAgent.available_periods := Some loss_periods |}.

End AgentVocabulary.

Section PeriodVocabulary.

(** Some metric of the Fact Table reports the period. *)
Definition reported (facts : gmap string (gmap string Q)) (p : string) : Prop :=
  ∃ metric pm, facts !! metric = Some pm ∧ is_Some (pm !! p).

(** A Fact Table whose metrics cover different periods. *)
Definition staggered_facts : gmap string (gmap string Q) :=
  {[ "revenue" := {[ "2022-09-24" := 130%Q; "2020-09-26" := 90%Q ]};
     "net_income" := {[ "2021-09-25" := 20%Q ]} ]}.

End PeriodVocabulary.

Section TokenVocabulary.

(** Every character of the string satisfies [f]. *)
Definition all_chars (f : ascii → bool) (s : string) : Prop :=
  Forall (fun c => f c = true) (list_ascii_of_string s).

End TokenVocabulary.


Section IntentVocabulary.

(** The intents that select sections by their type. *)
Definition typed_intents : gset string := {[ "risks"; "mdna"; "financials" ]}.

(** The filter keeps an entry: a dictionary whose [section_type] is one
    of the wanted types. *)
Definition kept_by (wanted : gset string) (item : string * QaAgent.filter_value)
    : bool :=
  match item.2 with
  | QaAgent.FDict _ (Some ty) => bool_decide (ty ∈ wanted)
  | _ => false
  end.

(** A dictionary of the list form whose ["id"] is [sid]. *)
Definition has_id (sid : string) (entry : QaAgent.filter_value) : bool :=
  match entry with
  | QaAgent.FDict (Some s) _ => String.eqb s sid
  | _ => false
  end.

(** An index with a risks section, an MD&A section and an entry
    without a section type. *)
Definition typed_index : ODict.t QaAgent.filter_value :=
  [ ("item_1a", QaAgent.FDict (Some "item_1a") (Some "risks"));
    ("item_7", QaAgent.FDict (Some "item_7") (Some "mdna"));
    ("item_9", QaAgent.FDict (Some "item_9") None);
    ("item_8", QaAgent.FDict (Some "item_8") (Some "financials")) ].

End IntentVocabulary.

Section PipelineVocabulary.

(** The first of [report_path], [html_path] and [pdf_path] that is a
    non-empty string. *)
Definition first_path (st : ExtractionAgentRun.state) : option string :=
  head (filter (fun p : string => p ≠ EmptyString)
          (omap id [ ExtractionAgentRun.report_path st;
                     ExtractionAgentRun.html_path st;
                     ExtractionAgentRun.pdf_path st ])).

(** The state [FinancialAgent] reads in a session that holds what
    [ExtractionAgent] wrote and nothing older. *)
Definition financial_state_of (d : ExtractionAgentRun.delta)
    : FinancialAgent.state :=
  {| FinancialAgent.financials_raw := Some (ExtractionAgentRun.d_financials_raw d);
     FinancialAgent.available_periods := ExtractionAgentRun.d_available_periods d |}.

(** A file with one context, one revenue fact in millions and no
    trading symbol. *)
Definition one_fact_soup : PdfTools.soup :=
  {| PdfTools.context_tags :=
       [ {| PdfTools.context_id := "FD2022";
            PdfTools.instant_string := None;
            PdfTools.enddate_string := Some "2022-09-24" |} ];
     PdfTools.unit_tags := [];
     PdfTools.nonfraction_tags := [ example_tag ];
     PdfTools.found_company_name := Some "Apple Inc.";
     PdfTools.found_trading_symbol := None;
     PdfTools.found_cik := None |}.

(** A file system with that file under one path. *)
Definition one_file (path : string) : option PdfTools.soup :=
  if String.eqb path "uploads/aapl.htm" then Some one_fact_soup else None.

(** A state whose [report_path] is empty and whose [html_path] names
    the file. *)
Definition upload_state : ExtractionAgentRun.state :=
  {| ExtractionAgentRun.report_path := Some EmptyString;
     ExtractionAgentRun.html_path := Some "uploads/aapl.htm";
     ExtractionAgentRun.pdf_path := Some "other.pdf" |}.

End PipelineVocabulary.
#[local] Set Warnings "-clear-no-such-hyp".
#[local] Arguments FinancialAgent.period_metrics : simpl never.

(* ===================================================================== *)
(** * Properties of the Fact Scanner                                      *)
(* ===================================================================== *)

Section FactScanner.
Import PdfTools.



Lemma stored_store raw name period value name' period' :
  stored (store raw name period value) name' period'
  = if decide (name = name' ∧ period = period') then Some value
    else stored raw name' period'.
Proof.
  unfold stored, store.
  destruct (decide (name = name')) as [->|Hn].
  - rewrite lookup_insert_eq. simpl.
    destruct (decide (period = period')) as [->|Hp].
    + rewrite lookup_insert_eq. by rewrite decide_True.
    + rewrite lookup_insert_ne by done. rewrite decide_False by (intros [? ?]; congruence). done.
  - rewrite lookup_insert_ne by done. rewrite decide_False by (intros [? ?]; congruence). done.
Qed.


(** Whatever the scan has stored was put there by one of the tags. *)
Lemma scan_stored_from_tag ctx um (tags : list ix_tag) name period v :
  stored (scan ctx um tags) name period = Some v →
  ∃ tag, tag ∈ tags ∧ fact_of_tag ctx um tag = Some (name, period, v).
Proof.
  unfold scan. revert name period v.
  induction tags as [|tag tags IH] using rev_ind; intros name period v.
  - unfold stored. simpl. rewrite lookup_empty. simpl. by rewrite lookup_empty.
  - rewrite fold_left_app. simpl. unfold scan_step at 1.
    destruct (fact_of_tag ctx um tag) as [[[n p] x]|] eqn:Hf.
    + rewrite stored_store. case_decide as Hd.
      * destruct Hd as [-> ->]. intros [= ->].
        exists tag. split; [set_solver | done].
      * intros Hs. destruct (IH _ _ _ Hs) as (t & Ht & Hft).
        exists t. split; [set_solver | done].
    + intros Hs. destruct (IH _ _ _ Hs) as (t & Ht & Hft).
      exists t. split; [set_solver | done].
Qed.



End FactScanner.



(* ===================================================================== *)
(** * Properties of the concept merge                                     *)
(* ===================================================================== *)

Section ConceptMerge.
Import PdfTools.

Lemma fold_insert_lookup (l : list (string * Q)) (m : gmap string Q) (k : string) :
  NoDup l.*1 →
  fold_left (fun acc kv => <[kv.1 := kv.2]> acc) l m !! k
  = match (list_to_map l : gmap string Q) !! k with
    | Some v => Some v
    | None => m !! k
    end.
Proof.
  revert m. induction l as [|[k' v'] l IH]; intros m Hnd.
  - simpl. by rewrite lookup_empty.
  - apply NoDup_cons in Hnd as [Hk' Hnd]. simpl. rewrite IH by done.
    destruct (decide (k' = k)) as [->|Hne].
    + rewrite !lookup_insert_eq.
      by rewrite (not_elem_of_list_to_map_1 _ _ Hk').
    + by rewrite !lookup_insert_ne.
Qed.

Lemma update_all_lookup (merged period_map : gmap string Q) (k : string) :
  update_all merged period_map !! k
  = match period_map !! k with
    | Some v => Some v
    | None => merged !! k
    end.
Proof.
  unfold update_all. rewrite fold_insert_lookup by apply NoDup_fst_map_to_list.
  by rewrite list_to_map_to_list.
Qed.

Lemma merge_step_lookup raw (merged : gmap string Q) concept period :
  merge_step raw merged concept !! period
  = match stored raw concept period with
    | Some v => Some v
    | None => merged !! period
    end.
Proof.
  unfold merge_step, stored.
  destruct (raw !! concept) as [pm|]; simpl.
  - case_decide as He.
    + subst pm. by rewrite lookup_empty.
    + apply update_all_lookup.
  - by rewrite lookup_empty.
Qed.

Lemma merge_concepts_lookup raw (concepts : list string) period :
  merge_concepts raw concepts !! period = last_reporting raw concepts period.
Proof.
  unfold merge_concepts, last_reporting.
  induction concepts as [|c concepts IH] using rev_ind.
  - simpl. by rewrite lookup_empty.
  - rewrite fold_left_app, rev_app_distr. simpl.
    rewrite merge_step_lookup, IH. done.
Qed.

Lemma map_concepts_fold_other (cmap : list (string * list string)) raw
    (acc : gmap string (gmap string Q)) key :
  key ∉ cmap.*1 →
  fold_left
    (fun result kc =>
       let merged := merge_concepts raw kc.2 in
       if decide (merged = ∅) then result else <[kc.1 := merged]> result)
    cmap acc !! key
  = acc !! key.
Proof.
  revert acc. induction cmap as [|[k cs] cmap IH]; intros acc Hnin; [done|].
  simpl in *. apply not_elem_of_cons in Hnin as [Hne Hnin].
  rewrite IH by done. case_decide; [done|]. by rewrite lookup_insert_ne.
Qed.

Lemma map_concepts_fold_stored (cmap : list (string * list string)) raw
    (acc : gmap string (gmap string Q)) key concepts period :
  NoDup cmap.*1 →
  acc !! key = None →
  (key, concepts) ∈ cmap →
  stored
    (fold_left
       (fun result kc =>
          let merged := merge_concepts raw kc.2 in
          if decide (merged = ∅) then result else <[kc.1 := merged]> result)
       cmap acc) key period
  = merge_concepts raw concepts !! period.
Proof.
  revert acc. induction cmap as [|[k cs] cmap IH]; intros acc Hnd Hacc Hin.
  - by apply elem_of_nil in Hin.
  - simpl in *. apply NoDup_cons in Hnd as [Hk Hnd].
    apply elem_of_cons in Hin as [[= <- <-]|Hin].
    + unfold stored. rewrite map_concepts_fold_other by done.
      case_decide as He.
      * by rewrite Hacc, He.
      * by rewrite lookup_insert_eq.
    + assert (k ≠ key) as Hne.
      { intros ->. apply Hk. apply list_elem_of_fmap. by exists (key, concepts). }
      apply IH; [done| |done].
      case_decide; [done|]. by rewrite lookup_insert_ne.
Qed.

Lemma map_concepts_stored (cmap : list (string * list string)) raw key concepts period :
  NoDup cmap.*1 →
  (key, concepts) ∈ cmap →
  stored (map_concepts cmap raw) key period = merge_concepts raw concepts !! period.
Proof.
  intros Hnd Hin. unfold map_concepts.
  by apply map_concepts_fold_stored; [|apply lookup_empty|].
Qed.

Lemma concept_map_keys_nodup : NoDup concept_map.*1.
Proof. apply (bool_decide_unpack _). vm_compute. exact I. Qed.

Lemma scan_fold_stored ctx um (tags : list ix_tag) raw name period :
  stored (fold_left (scan_step ctx um) tags raw) name period
  = match last_fact ctx um tags name period with
    | Some v => Some v
    | None => stored raw name period
    end.
Proof.
  revert raw. induction tags as [|tag tags IH]; intros raw; [done|].
  simpl. rewrite IH.
  destruct (last_fact ctx um tags name period); [done|].
  unfold scan_step.
  destruct (fact_of_tag ctx um tag) as [[[n p] v]|]; [|done].
  rewrite stored_store. by repeat case_decide.
Qed.

Lemma scan_stored_last_fact ctx um (tags : list ix_tag) name period :
  stored (scan ctx um tags) name period = last_fact ctx um tags name period.
Proof.
  unfold scan. rewrite scan_fold_stored.
  destruct (last_fact ctx um tags name period); [done|].
  unfold stored. rewrite lookup_empty. simpl. by rewrite lookup_empty.
Qed.

End ConceptMerge.

(** C2, as the specification states it, fails on the code: with concept
    list [A; B] and both concepts reporting the period, the merged
    value is B's, not A's; and of two assertions 120 and 100 of one
    concept for one period the stored value is the later 100. *)
Lemma C2_counterexample :
  ¬ preference_merge_claim ∧ ¬ duplicates_max_claim.
Proof.
  split.
  - intros H.
    specialize (H example_contexts ∅
                  [plain_tag "us-gaap:Revenues" "100";
                   plain_tag "us-gaap:SalesRevenueNet" "50"]
                  "revenue"
                  ["us-gaap:Revenues"; "us-gaap:SalesRevenueNet";
                   "us-gaap:RevenueFromContractWithCustomerExcludingAssessedTax"]
                  "2022-09-24").
    assert (Hin : ("revenue",
                   ["us-gaap:Revenues"; "us-gaap:SalesRevenueNet";
                    "us-gaap:RevenueFromContractWithCustomerExcludingAssessedTax"])
                  ∈ PdfTools.concept_map) by (unfold PdfTools.concept_map; set_solver).
    specialize (H Hin). vm_compute in H. discriminate H.
  - intros H.
    destruct (H example_contexts ∅
                [plain_tag "us-gaap:Revenues" "120";
                 plain_tag "us-gaap:Revenues" "100"]
                (plain_tag "us-gaap:Revenues" "120")
                "us-gaap:Revenues" "2022-09-24" 120%Q) as (w & Hw & Hle).
    + set_solver.
    + vm_compute. reflexivity.
    + vm_compute in Hw. injection Hw as <-.
      vm_compute in Hle. by apply Hle.
Qed.

(** C2 (amended): for every canonical metric and every period the
    merged Fact Table holds one value, that of the last concept of the
    metric's list that reports the period (a later concept overrides an
    earlier one), and the value a concept reports for a period is that
    of the last scanned assertion of that concept and period. *)
Theorem C2_last_concept_wins
    (ctx um : gmap string string) (tags : list PdfTools.ix_tag)
    (key : string) (concepts : list string) (period : string) :
  (key, concepts) ∈ PdfTools.concept_map →
  stored (PdfTools._extract_key_facts_from_ixbrl tags ctx um) key period
  = last_reporting (PdfTools.scan ctx um tags) concepts period
  ∧ ∀ concept : string,
      stored (PdfTools.scan ctx um tags) concept period
      = last_fact ctx um tags concept period.
Proof.
  intros Hin. split.
  - unfold PdfTools._extract_key_facts_from_ixbrl.
    rewrite (map_concepts_stored _ _ key concepts)
      by (done || apply concept_map_keys_nodup).
    apply merge_concepts_lookup.
  - intros concept. apply scan_stored_last_fact.
Qed.

(** C2 (amended) on a document where two concepts of [net_income]
    report the same period. *)
Lemma C2_last_concept_wins_witness :
  stored (PdfTools._extract_key_facts_from_ixbrl
            [plain_tag "us-gaap:NetIncomeLoss" "7";
             plain_tag "us-gaap:ProfitLoss" "9"] example_contexts ∅)
    "net_income" "2022-09-24"
  = Some 9%Q.
Proof.
  rewrite (proj1 (C2_last_concept_wins example_contexts ∅
             [plain_tag "us-gaap:NetIncomeLoss" "7";
              plain_tag "us-gaap:ProfitLoss" "9"]
             "net_income" ["us-gaap:NetIncomeLoss"; "us-gaap:ProfitLoss"]
             "2022-09-24"
             ltac:(unfold PdfTools.concept_map; set_solver))).
  vm_compute. reflexivity.
Defined.

(* ===================================================================== *)
(** * Properties of the Revenue Reconciler                                *)
(* ===================================================================== *)

Section Reconciler.
Import ExtractionAgent.

Lemma ltb_lt (a b : Q) : PyFloat.ltb a b = true ↔ (a < b)%Q.
Proof.
  unfold PyFloat.ltb. rewrite negb_true_iff.
  split.
  - intros H. apply Qnot_le_lt. intros Hle.
    apply Qle_bool_iff in Hle. congruence.
  - intros H. destruct (Qle_bool b a) eqn:E; [|done].
    apply Qle_bool_iff in E. by apply Qlt_not_le in H.
Qed.

Lemma ltb_ge (a b : Q) : PyFloat.ltb a b = false ↔ (b <= a)%Q.
Proof.
  unfold PyFloat.ltb. rewrite negb_false_iff. apply Qle_bool_iff.
Qed.

Lemma keep_max_lookup (m : gmap string Q) (p q : string) (v : Q) :
  keep_max m p v !! q
  = if decide (p = q)
    then Some match m !! p with
              | None => v
              | Some prev => if PyFloat.ltb prev v then v else prev
              end
    else m !! q.
Proof.
  unfold keep_max. destruct (m !! p) as [prev|] eqn:Hp.
  - destruct (PyFloat.ltb prev v); case_decide; subst;
      by rewrite ?lookup_insert_eq, ?lookup_insert_ne.
  - case_decide; subst; by rewrite ?lookup_insert_eq, ?lookup_insert_ne.
Qed.

(** Both passes are a fold of [keep_max] over their observations. *)
Lemma fold_step_omap {A} (f : A → option (string * Q)) (l : list A)
    (m : gmap string Q) :
  fold_left
    (fun acc x => match f x with
                  | Some (p, v) => keep_max acc p v
                  | None => acc
                  end) l m
  = fold_left (fun acc pv => keep_max acc pv.1 pv.2) (omap f l) m.
Proof.
  revert m. induction l as [|x l IH]; intros m; [done|].
  simpl. destruct (f x) as [[p v]|]; simpl; apply IH.
Qed.

Lemma keep_max_fold_maxima (obs : list (string * Q)) :
  holds_maxima (fold_left (fun acc pv => keep_max acc pv.1 pv.2) obs ∅) obs.
Proof.
  induction obs as [|[p v] obs IH] using rev_ind; intros period.
  - simpl. rewrite lookup_empty. split; [|done].
    split; [intros _ w Hw; by apply elem_of_nil in Hw | done].
  - rewrite fold_left_app. simpl. rewrite keep_max_lookup.
    destruct (IH period) as [Hnone Hsome].
    case_decide as Hpq.
    + subst p. split.
      * split; [done|]. intros Hno. exfalso. apply (Hno v). set_solver.
      * intros mx [= <-].
        destruct (fold_left _ obs ∅ !! period) as [prev|] eqn:Hprev.
        -- destruct (Hsome prev eq_refl) as [Hin Hmax].
           destruct (PyFloat.ltb prev v) eqn:Hlt.
           ++ apply ltb_lt in Hlt. split; [set_solver|].
              intros w Hw. apply elem_of_app in Hw as [Hw|Hw].
              ** apply Qle_trans with prev; [by apply Hmax | by apply Qlt_le_weak].
              ** apply list_elem_of_singleton in Hw as [= ->]. apply Qle_refl.
           ++ apply ltb_ge in Hlt. split; [set_solver|].
              intros w Hw. apply elem_of_app in Hw as [Hw|Hw].
              ** by apply Hmax.
              ** by apply list_elem_of_singleton in Hw as [= ->].
        -- split; [set_solver|].
           intros w Hw. apply elem_of_app in Hw as [Hw|Hw].
           ++ exfalso. by apply (proj1 Hnone eq_refl w).
           ++ apply list_elem_of_singleton in Hw as [= ->]. apply Qle_refl.
    + split.
      * rewrite Hnone. split.
        -- intros Hno w Hw. apply elem_of_app in Hw as [Hw|Hw];
             [by apply (Hno w) | apply list_elem_of_singleton in Hw; congruence].
        -- intros Hno w Hw. apply (Hno w). set_solver.
      * intros mx Hmx. destruct (Hsome mx Hmx) as [Hin Hmax].
        split; [set_solver|].
        intros w Hw. apply elem_of_app in Hw as [Hw|Hw];
          [by apply Hmax | apply list_elem_of_singleton in Hw; congruence].
Qed.

Lemma keep_max_fold_empty (obs : list (string * Q)) :
  fold_left (fun acc pv => keep_max acc pv.1 pv.2) obs ∅ = ∅ ↔ obs = [].
Proof.
  split; [|by intros ->].
  destruct obs as [|[p v] obs]; [done|]. intros He. exfalso.
  destruct (keep_max_fold_maxima ((p, v) :: obs) p) as [Hnone _].
  rewrite He, lookup_empty in Hnone.
  apply (proj1 Hnone eq_refl v). set_solver.
Qed.

Lemma revenue_from_parsed_fold (parsed : parsed_doc) :
  revenue_from_parsed (parsed_facts parsed)
  = fold_left (fun acc pv => keep_max acc pv.1 pv.2) (parsed_observations parsed) ∅.
Proof. apply fold_step_omap. Qed.

Lemma direct_pass_fold (doc : document) :
  _extract_revenue_direct_from_file doc
  = fold_left (fun acc pv => keep_max acc pv.1 pv.2) (direct_observations doc) ∅.
Proof.
  destruct doc as [[ctxs facts]|]; [|done]. apply fold_step_omap.
Qed.


(** The override in terms of the observations: no observation leaves
    the Fact Table unchanged, and otherwise its [revenue] entry is
    replaced by the map of the per-period maxima. *)
Lemma revenue_override_observations
    (doc : ExtractionAgent.document) (parsed : ExtractionAgent.parsed_doc)
    (facts : gmap string (gmap string Q)) :
  (reconciler_observations doc parsed = [] →
     ExtractionAgent._fix_revenue_from_ixbrl doc parsed facts = facts)
  ∧ (reconciler_observations doc parsed ≠ [] →
     ∃ rbp : gmap string Q,
       ExtractionAgent._fix_revenue_from_ixbrl doc parsed facts
       = <["revenue" := rbp]> facts
       ∧ rbp ≠ ∅
       ∧ holds_maxima rbp (reconciler_observations doc parsed))
  ∧ (ExtractionAgent.parsed_facts parsed = [] →
     reconciler_observations doc parsed = direct_observations doc).
Proof.
  unfold ExtractionAgent._fix_revenue_from_ixbrl, reconciler_observations.
  rewrite revenue_from_parsed_fold, direct_pass_fold.
  destruct (parsed_observations parsed) as [|o obs] eqn:Hobs.
  - simpl. rewrite bool_decide_eq_true_2 by done. simpl.
    split; [|split].
    + intros ->. simpl. by rewrite bool_decide_eq_true_2.
    + intros Hne. rewrite bool_decide_eq_false_2
        by (by rewrite keep_max_fold_empty).
      eexists. split; [done|]. split.
      * by rewrite keep_max_fold_empty.
      * apply keep_max_fold_maxima.
    + done.
  - rewrite bool_decide_eq_false_2 by (by rewrite keep_max_fold_empty).
    simpl negb. cbv iota.
    split; [intros Hnil; discriminate Hnil|split].
    + intros _. eexists. split; [done|]. split.
      * by rewrite keep_max_fold_empty.
      * apply keep_max_fold_maxima.
    + intros Hnil. unfold parsed_observations in Hobs. by rewrite Hnil in Hobs.
Qed.

Lemma str_truthy_iff (s : string) : PyStr.truthy s = true ↔ s ≠ EmptyString.
Proof. by destruct s. Qed.

Lemma revenue_concept_spec (name : string) :
  is_revenue_concept name = true ↔ name ∈ authoritative_revenue_concepts.
Proof.
  unfold is_revenue_concept, REVENUE_CONCEPTS, authoritative_revenue_concepts.
  rewrite bool_decide_eq_true. set_solver.
Qed.

(** An element is observed by the direct pass exactly when it is a fact
    of the pass, and then with the number scaled by [direct_scaled]. *)
Lemma direct_fact_spec (ctxs : list ctx_elem) (e : fact_elem)
    (period : string) (v : Q) :
  direct_fact (context_end_by_id ctxs) e = Some (period, v)
  ↔ ∃ raw, revenue_fact ctxs e period raw
           ∧ v = direct_scaled raw (fe_decimals e).
Proof.
  unfold direct_fact, revenue_fact. split.
  - destruct (is_revenue_concept _) eqn:Hc; [|done]. simpl.
    apply revenue_concept_spec in Hc.
    destruct (PyStr.or_else _ _) as [ref|] eqn:Href; [|done].
    destruct (PyStr.truthy ref) eqn:Hr; [|done]. simpl.
    destruct (context_end_by_id ctxs !! ref) as [p|] eqn:Hp; [|done].
    destruct (PyStr.truthy p) eqn:Htp; [|done]. simpl.
    destruct (PyStr.truthy (PyStr.replace_char _ _ _)) eqn:Ht; [|done]. simpl.
    destruct (PyNum.float _) as [raw|] eqn:Hf; [|done].
    intros [= <- <-]. exists raw. split; [|done].
    split; [done|]. split.
    + exists ref. split; [done|]. split; [by apply str_truthy_iff|done].
    + split; [by apply str_truthy_iff|done].
  - intros (raw & (Hc & (ref & Href & Hr & Hp) & Htp & Hf) & ->).
    apply revenue_concept_spec in Hc. rewrite Hc. simpl.
    rewrite Href. apply str_truthy_iff in Hr. rewrite Hr. simpl.
    rewrite Hp. apply str_truthy_iff in Htp. rewrite Htp. simpl.
    destruct (PyStr.truthy (PyStr.replace_char _ _ _)) eqn:Ht; simpl.
    + by rewrite Hf.
    + destruct (PyStr.replace_char _ _ _); [|done].
      vm_compute in Hf. discriminate Hf.
Qed.

(** The scaling of the direct pass is the multiplication by
    [pass_scale]. *)
Lemma direct_scaled_spec (raw : Q) (decimals_attr : option string) :
  (direct_scaled raw decimals_attr == raw * pass_scale decimals_attr)%Q.
Proof.
  unfold direct_scaled, pass_scale.
  destruct decimals_attr as [a|]; [|by rewrite Qmult_1_r].
  destruct (PyNum.int a) as [d|]; [|by rewrite Qmult_1_r].
  destruct (Z.ltb_spec d 0) as [Hd|Hd].
  - destruct (Z.leb_spec (- d) 308) as [Hb|Hb].
    + rewrite decide_True by lia.
      replace (Z.abs d) with (- d) by lia. reflexivity.
    + rewrite decide_False by lia. by rewrite Qmult_1_r.
  - rewrite decide_False by lia. by rewrite Qmult_1_r.
Qed.

Lemma direct_observations_spec (ctxs : list ctx_elem) (elems : list fact_elem)
    (period : string) :
  (∀ v, (period, v) ∈ direct_observations (Some (ctxs, elems)) →
        pass_observes ctxs elems period v)
  ∧ (∀ v, pass_observes ctxs elems period v →
          ∃ w, (period, w) ∈ direct_observations (Some (ctxs, elems))
               ∧ (v == w)%Q).
Proof.
  unfold direct_observations, pass_observes. split.
  - intros v Hin. apply list_elem_of_omap in Hin as (e & He & Hf).
    apply direct_fact_spec in Hf as (raw & Hr & ->).
    exists e, raw. split; [done|]. split; [done|]. apply direct_scaled_spec.
  - intros v (e & raw & He & Hr & Hv).
    exists (direct_scaled raw (fe_decimals e)). split.
    + apply list_elem_of_omap. exists e. split; [done|].
      apply direct_fact_spec. by exists raw.
    + by rewrite Hv, direct_scaled_spec.
Qed.

End Reconciler.

(** C3, as the specification states it, fails for the scaled value of
    its data model: a revenue fact 100 with [decimals = 2] has the
    scaled value 1, and the reconciler stores 100. *)
Lemma C3_counterexample : ¬ spec_scaled_override_claim.
Proof.
  intros H.
  destruct (H fd2022 fine_revenue_elems ∅) as (rbp & Hfix & Hval).
  - exists (fact_of_concept "us-gaap:Revenues" "100" (Some "2")),
      "2022-09-24", 100%Q.
    split; [set_solver|].
    split; [vm_compute; set_solver|].
    split; [exists "FD2022"; split; [done|]; split; [done|]; vm_compute; reflexivity|].
    split; [done|]. vm_compute. reflexivity.
  - assert (Hrbp : rbp !! "2022-09-24" = Some 100%Q).
    { assert (Hl : (<["revenue" := rbp]> (∅ : gmap string (gmap string Q)))
                     !! "revenue" = Some rbp) by apply lookup_insert_eq.
      rewrite <- Hfix in Hl. vm_compute in Hl. injection Hl as <-.
      vm_compute. reflexivity. }
    destruct (Hval _ _ Hrbp) as (e & raw & He & (_ & _ & _ & Hf) & Hmx).
    apply list_elem_of_singleton in He. subst e.
    vm_compute in Hf. injection Hf as <-.
    vm_compute in Hmx. discriminate Hmx.
Qed.

(** C3 (amended): the reconciler's pass over the document observes the
    facts of the two authoritative revenue concepts, each with its
    number scaled by the pass itself: times [10^|d|] for a negative
    [decimals] [d], unscaled otherwise.  When it observes at least one
    value, the [revenue] entry of the Fact Table is replaced as a whole
    by a map that has exactly the observed periods and holds for each
    the maximum observed value; when it observes none, or the file
    cannot be read, the Fact Table is left unchanged.  The parse result
    of this repository carries no fact list, which is the hypothesis. *)
Theorem C3_revenue_override
    (ctxs : list ExtractionAgent.ctx_elem)
    (elems : list ExtractionAgent.fact_elem)
    (parsed : ExtractionAgent.parsed_doc)
    (facts : gmap string (gmap string Q)) :
  ExtractionAgent.parsed_facts parsed = [] →
  ((∀ period value, ¬ pass_observes ctxs elems period value) →
     ExtractionAgent._fix_revenue_from_ixbrl (Some (ctxs, elems)) parsed facts
     = facts)
  ∧ ((∃ period value, pass_observes ctxs elems period value) →
     ∃ rbp : gmap string Q,
       ExtractionAgent._fix_revenue_from_ixbrl (Some (ctxs, elems)) parsed facts
       = <["revenue" := rbp]> facts
       ∧ rbp ≠ ∅
       ∧ ∀ period : string,
           (rbp !! period = None
            ↔ ∀ value, ¬ pass_observes ctxs elems period value)
           ∧ ∀ mx : Q,
               rbp !! period = Some mx →
               pass_observes ctxs elems period mx
               ∧ ∀ value, pass_observes ctxs elems period value →
                          (value <= mx)%Q)
  ∧ ExtractionAgent._fix_revenue_from_ixbrl None parsed facts = facts.
Proof.
  intros Hlist.
  destruct (revenue_override_observations (Some (ctxs, elems)) parsed facts)
    as (Hnone & Hsome & Hroute).
  specialize (Hroute Hlist). rewrite Hroute in Hnone, Hsome.
  split; [|split].
  - intros Hno. apply Hnone.
    destruct (direct_observations (Some (ctxs, elems))) as [|[p v] obs] eqn:Hobs;
      [done|].
    exfalso. apply (Hno p v).
    apply (proj1 (direct_observations_spec ctxs elems p)).
    rewrite Hobs. set_solver.
  - intros (p & v & Hpv).
    destruct (proj2 (direct_observations_spec ctxs elems p) v Hpv) as (w & Hw & _).
    destruct Hsome as (rbp & Hfix & Hne & Hmax).
    { intros Hnil. rewrite Hnil in Hw. by apply elem_of_nil in Hw. }
    exists rbp. split; [done|]. split; [done|].
    intros period. destruct (Hmax period) as [Hn Hs]. split.
    + rewrite Hn. split.
      * intros Hno value Hobs.
        destruct (proj2 (direct_observations_spec ctxs elems period) value Hobs)
          as (w' & Hw' & _).
        by apply (Hno w').
      * intros Hno w' Hw'. apply (Hno w').
        by apply (proj1 (direct_observations_spec ctxs elems period)).
    + intros mx Hmx. destruct (Hs mx Hmx) as [Hin Hle]. split.
      * by apply (proj1 (direct_observations_spec ctxs elems period)).
      * intros value Hobs.
        destruct (proj2 (direct_observations_spec ctxs elems period) value Hobs)
          as (w' & Hw' & Heq).
        rewrite Heq. by apply Hle.
  - destruct (revenue_override_observations None parsed facts)
      as (Hnone' & _ & Hroute').
    apply Hnone'. by rewrite (Hroute' Hlist).
Qed.

(** C3 (amended) on a document with the revenue facts 100 in tens and
    120 for one period and a larger fact of another concept: the
    generic revenue entry, both of its periods, is replaced by the
    single value 1000. *)
Lemma C3_revenue_override_witness :
  ExtractionAgent.parsed_facts no_fact_list = []
  ∧ ExtractionAgent._fix_revenue_from_ixbrl (Some (fd2022, scaled_revenue_elems))
      no_fact_list generic_facts
    = <["revenue" := {[ "2022-09-24" := 1000%Q ]}]> generic_facts
  ∧ ExtractionAgent._fix_revenue_from_ixbrl None no_fact_list generic_facts
    = generic_facts.
Proof.
  split; [reflexivity|].
  split; [vm_compute; reflexivity|].
  exact (proj2 (proj2 (C3_revenue_override fd2022 scaled_revenue_elems
                         no_fact_list generic_facts eq_refl))).
Defined.

(* ===================================================================== *)
(** * Properties of the metrics engine                                    *)
(* ===================================================================== *)

Section AgentMetrics.
Import FinancialAgent.

Ltac lookup_inserts :=
  repeat first
    [ rewrite lookup_insert_eq
    | rewrite lookup_insert_ne by discriminate ].

Lemma compute_ebitda_spec (oi da ni : option Q) :
  compute_ebitda oi da ni = spec_ebitda oi da ni.
Proof. by destruct oi, da, ni. Qed.

Lemma period_metrics_value facts fm prev period (t : tracked) :
  period_metrics facts fm prev period !! metric_key t
  = Some (agent_value facts t period).
Proof.
  unfold period_metrics.
  destruct prev, t; simpl; lookup_inserts; reflexivity.
Qed.

Lemma period_metrics_margins facts fm prev period :
  let revenue := _get_for_period facts "revenue" period in
  period_metrics facts fm prev period !! "ebitda_margin"
  = Some (margin (agent_ebitda facts period) revenue)
  ∧ period_metrics facts fm prev period !! "net_margin"
    = Some (margin (_get_for_period facts "net_income" period) revenue)
  ∧ period_metrics facts fm prev period !! "fcf_margin"
    = Some (margin (agent_fcf facts period) revenue).
Proof.
  unfold period_metrics.
  destruct prev; simpl; repeat split; lookup_inserts; reflexivity.
Qed.

Lemma period_metrics_growth facts fm pp period (t : tracked) :
  period_metrics facts fm (Some pp) period !! growth_key t
  = Some (_safe_growth (agent_value facts t period)
            (get (default ∅ (fm !! pp)) (metric_key t))).
Proof.
  unfold period_metrics.
  destruct t; simpl; lookup_inserts; reflexivity.
Qed.

Lemma period_metrics_no_growth facts fm period (t : tracked) :
  period_metrics facts fm None period !! growth_key t = None.
Proof.
  unfold period_metrics.
  destruct t; simpl; lookup_inserts; apply lookup_empty.
Qed.

Lemma run_acc_snoc facts l p :
  run_acc facts (l ++ [p]) = period_step facts (run_acc facts l) p.
Proof. unfold run_acc. by rewrite fold_left_app. Qed.

Lemma run_acc_prev facts l : (run_acc facts l).2 = last l.
Proof.
  destruct l as [|x l] using rev_ind; [done|].
  by rewrite run_acc_snoc, last_snoc.
Qed.

Lemma fold_step_other facts (l : list string) acc p :
  p ∉ l → (fold_left (period_step facts) l acc).1 !! p = acc.1 !! p.
Proof.
  revert acc. induction l as [|x l IH]; intros acc Hnin; [done|].
  apply not_elem_of_cons in Hnin as [Hne Hnin].
  simpl. rewrite IH by done. simpl. by rewrite lookup_insert_ne.
Qed.

(** The metrics of a period are those built at its last occurrence. *)
Lemma build_metrics_at facts (l1 l2 : list string) p :
  p ∉ l2 →
  build_metrics facts (l1 ++ p :: l2) !! p
  = Some (period_metrics facts (run_acc facts l1).1 (last l1) p).
Proof.
  intros Hnin. unfold build_metrics.
  rewrite fold_left_app. simpl.
  rewrite fold_step_other by done. simpl.
  rewrite lookup_insert_eq. fold (run_acc facts l1).
  by rewrite run_acc_prev.
Qed.

Lemma build_metrics_elem facts (periods : list string) p :
  p ∈ periods →
  ∃ fm prev,
    build_metrics facts periods !! p = Some (period_metrics facts fm prev p).
Proof.
  intros Hin. apply list_elem_of_split_r in Hin as (l1 & l2 & -> & Hnin).
  eexists _, _. by apply build_metrics_at.
Qed.

Lemma agent_metrics_value facts (periods : list string) p (t : tracked) :
  p ∈ periods →
  agent_metrics facts periods p !! metric_key t = Some (agent_value facts t p).
Proof.
  intros Hin. unfold agent_metrics.
  destruct (build_metrics_elem facts periods p Hin) as (fm & prev & ->).
  apply period_metrics_value.
Qed.

End AgentMetrics.

Section CalcsMetrics.
Import FinancialCalcs.

Ltac lookup_inserts :=
  repeat first
    [ rewrite lookup_insert_eq
    | rewrite lookup_insert_ne by discriminate ].

Lemma set_if_lookup_ne key x (result : gmap string Q) k :
  key ≠ k → set_if key x result !! k = result !! k.
Proof. intros Hne. destruct x; simpl; [by rewrite lookup_insert_ne|done]. Qed.

(** The [ebitda] entry of [_compute_metrics_for_period]: net income plus
    each of interest, income tax and D&A that is present; no entry
    without net income. *)
Lemma calcs_ebitda facts period :
  _compute_metrics_for_period facts period !! "ebitda"
  = match _get_value facts "net_income" period with
    | Some ni =>
        Some (add_if
                (_get_any_value facts
                   ["depreciation_and_amortization"; "depreciation_amortization"]
                   period)
                (add_if
                   (_get_any_value facts
                      ["income_tax_expense"; "provision_for_income_taxes"] period)
                   (add_if
                      (_get_any_value facts
                         ["interest_expense"; "interest_and_other_expense";
                          "interest_and_other"] period)
                      ni)))
    | None => None
    end.
Proof.
  unfold _compute_metrics_for_period.
  repeat case_match; lookup_inserts;
    rewrite ?set_if_lookup_ne by discriminate;
    try reflexivity; try apply lookup_empty.
Qed.

End CalcsMetrics.

(** C5, as the specification states it, fails on
    [financial_calcs._compute_metrics_for_period]: with operating income
    10, D&A 2 and net income 5 its EBITDA is 5 + 2 = 7, not 10 + 2. *)
Lemma C5_counterexample : ¬ calcs_ebitda_claim.
Proof.
  intros H. specialize (H ebitda_facts "2022-09-24").
  vm_compute in H. discriminate H.
Qed.

(** C5 (amended): in [FinancialAgent], for every period of the run,
    EBITDA is operating income plus D&A when both are present, else
    operating income alone when present, else net income plus D&A when
    both are present, else net income; in
    [financial_calcs._compute_metrics_for_period] EBITDA is net income
    plus each of interest, income tax and D&A that is present, and has
    no entry when net income is missing. *)
Theorem C5_ebitda_preference
    (facts : gmap string (gmap string Q)) (periods : list string)
    (period : string) :
  period ∈ periods →
  agent_metrics facts periods period !! "ebitda"
  = Some (spec_ebitda
            (FinancialAgent._get_for_period facts "operating_income" period)
            (FinancialAgent._get_for_period facts "depreciation_amortization" period)
            (FinancialAgent._get_for_period facts "net_income" period))
  ∧ FinancialCalcs._compute_metrics_for_period facts period !! "ebitda"
    = match FinancialCalcs._get_value facts "net_income" period with
      | Some ni =>
          Some (FinancialCalcs.add_if
                  (FinancialCalcs._get_any_value facts
                     ["depreciation_and_amortization"; "depreciation_amortization"]
                     period)
                  (FinancialCalcs.add_if
                     (FinancialCalcs._get_any_value facts
                        ["income_tax_expense"; "provision_for_income_taxes"] period)
                     (FinancialCalcs.add_if
                        (FinancialCalcs._get_any_value facts
                           ["interest_expense"; "interest_and_other_expense";
                            "interest_and_other"] period)
                        ni)))
      | None => None
      end.
Proof.
  intros Hin. split.
  - pose proof (agent_metrics_value facts periods period Ebitda Hin) as Hv.
    simpl in Hv. rewrite Hv. unfold agent_ebitda.
    by rewrite compute_ebitda_spec.
  - apply calcs_ebitda.
Qed.

(** C5 (amended) on the Fact Table with operating income 10, D&A 2 and
    net income 5: the agent reports 12, [financial_calcs] reports 7. *)
Lemma C5_ebitda_preference_witness :
  agent_metrics ebitda_facts ["2022-09-24"] "2022-09-24" !! "ebitda"
  = Some (Some (10 + 2)%Q)
  ∧ FinancialCalcs._compute_metrics_for_period ebitda_facts "2022-09-24" !! "ebitda"
    = Some (5 + 2)%Q.
Proof.
  destruct (C5_ebitda_preference ebitda_facts ["2022-09-24"] "2022-09-24"
              ltac:(set_solver)) as [Ha Hc].
  split.
  - rewrite Ha. vm_compute. reflexivity.
  - rewrite Hc. vm_compute. reflexivity.
Defined.

(* ===================================================================== *)
(** * Year-over-year growth                                               *)
(* ===================================================================== *)

Section Growth.

Lemma eqb_zero (p : Q) : PyFloat.eqb p 0 = true ↔ (p == 0)%Q.
Proof. apply Qeq_bool_iff. Qed.

Lemma safe_growth_spec (cur prev : option Q) :
  FinancialAgent._safe_growth cur prev = spec_growth cur prev.
Proof.
  destruct cur as [c|], prev as [p|]; simpl; try done.
  destruct (Qeq_dec p 0) as [Hz|Hz].
  - apply eqb_zero in Hz. by rewrite Hz.
  - destruct (PyFloat.eqb p 0) eqn:E; [|done].
    apply eqb_zero in E. contradiction.
Qed.

(** In [FinancialAgent] the growth entries of a period compare it with
    the period just before it in the list. *)
Lemma agent_growth_adjacent facts (l1 l2 : list string) q p (t : tracked) :
  NoDup (l1 ++ q :: p :: l2) →
  agent_metrics facts (l1 ++ q :: p :: l2) p !! growth_key t
  = Some (spec_growth (agent_value facts t p) (agent_value facts t q)).
Proof.
  intros Hnd. unfold agent_metrics.
  replace (l1 ++ q :: p :: l2) with ((l1 ++ [q]) ++ p :: l2) in *
    by (by rewrite <- app_assoc).
  apply NoDup_app in Hnd as (Hnd1 & _ & Hnd2).
  apply NoDup_cons in Hnd2 as [Hp _].
  rewrite build_metrics_at by done. simpl.
  rewrite last_snoc, period_metrics_growth.
  rewrite run_acc_snoc. unfold FinancialAgent.period_step. simpl.
  rewrite lookup_insert_eq. simpl.
  unfold FinancialAgent.get. rewrite period_metrics_value. simpl.
  by rewrite safe_growth_spec.
Qed.

Lemma agent_growth_first facts (l : list string) p (t : tracked) :
  NoDup (p :: l) →
  agent_metrics facts (p :: l) p !! growth_key t = None.
Proof.
  intros Hnd. apply NoDup_cons in Hnd as [Hp _].
  unfold agent_metrics.
  pose proof (build_metrics_at facts [] l p Hp) as Hb.
  change ([] ++ p :: l) with (p :: l) in Hb.
  rewrite Hb. apply period_metrics_no_growth.
Qed.

Import FinancialCalcs.

Ltac lookup_inserts :=
  repeat first
    [ rewrite lookup_insert_eq
    | rewrite lookup_insert_ne by discriminate ].

Lemma yoy_lookup per_period (periods : list string) (t : tracked) :
  _compute_yoy_growth per_period periods !! growth_key t
  = Some (fold_left
            (growth_step per_period (PySort.sorted periods)
               (idx_by_period (PySort.sorted periods)) (metric_key t))
            (PySort.sorted periods) ∅).
Proof.
  unfold _compute_yoy_growth, metrics_to_track.
  destruct t; simpl; lookup_inserts; reflexivity.
Qed.

Lemma idx_by_period_lookup (l : list string) (i : nat) (p : string) :
  NoDup l → l !! i = Some p → idx_by_period l !! p = Some i.
Proof.
  unfold idx_by_period. revert i p.
  induction l as [|x l IH] using rev_ind; intros i p Hnd Hi; [done|].
  rewrite imap_app, fold_left_app. simpl.
  apply NoDup_app in Hnd as (Hnd & Hdisj & _).
  apply lookup_snoc_Some in Hi as [[Hlt Hi]|[-> ->]].
  - rewrite lookup_insert_ne.
    + by apply IH.
    + intros ->. apply (Hdisj p); [|set_solver].
      by apply list_elem_of_lookup_2 in Hi.
  - rewrite Nat.add_0_r. by rewrite lookup_insert_eq.
Qed.

Lemma growth_step_value per_period sorted_periods idx_of metric
    (gm : gmap string Q) period :
  growth_step per_period sorted_periods idx_of metric gm period
  = match growth_value per_period sorted_periods idx_of metric period with
    | Some g => <[period := g]> gm
    | None => gm
    end.
Proof.
  unfold growth_step, growth_value. by repeat case_match.
Qed.

Lemma growth_fold_lookup per_period sorted_periods idx_of metric
    (l : list string) (gm : gmap string Q) p :
  NoDup l →
  fold_left (growth_step per_period sorted_periods idx_of metric) l gm !! p
  = if decide (p ∈ l)
    then match growth_value per_period sorted_periods idx_of metric p with
         | Some g => Some g
         | None => gm !! p
         end
    else gm !! p.
Proof.
  revert gm. induction l as [|x l IH]; intros gm Hnd; [done|].
  apply NoDup_cons in Hnd as [Hx Hnd]. simpl.
  rewrite IH by done. rewrite growth_step_value.
  destruct (decide (p = x)) as [->|Hne].
  - rewrite decide_False by done. rewrite decide_True by set_solver.
    destruct (growth_value _ _ _ _ x); [by rewrite lookup_insert_eq|done].
  - destruct (decide (p ∈ l)) as [Hin|Hnin].
    + rewrite decide_True by set_solver.
      destruct (growth_value _ _ _ _ p); [done|].
      destruct (growth_value _ _ _ _ x); [by rewrite lookup_insert_ne|done].
    + rewrite decide_False by set_solver.
      destruct (growth_value _ _ _ _ x); [by rewrite lookup_insert_ne|done].
Qed.

Lemma growth_value_calcs (c p : option Q) :
  match c, p with
  | Some current_val, Some prev_val =>
      if PyFloat.eqb prev_val 0 then None
      else Some ((current_val - prev_val) / prev_val)%Q
  | _, _ => None
  end = calcs_growth c p.
Proof.
  destruct c as [c|], p as [p|]; simpl; try done.
  destruct (Qeq_dec p 0) as [Hz|Hz].
  - apply eqb_zero in Hz. by rewrite Hz.
  - destruct (PyFloat.eqb p 0) eqn:E; [|done].
    apply eqb_zero in E. contradiction.
Qed.

Lemma calcs_growth_adjacent per_period (periods l1 l2 : list string) q p
    (t : tracked) :
  NoDup (PySort.sorted periods) →
  PySort.sorted periods = l1 ++ q :: p :: l2 →
  yoy_at per_period periods t p
  = calcs_growth (metric_at per_period p (metric_key t))
      (metric_at per_period q (metric_key t)).
Proof.
  intros Hnd Hs. unfold yoy_at. rewrite yoy_lookup. simpl.
  rewrite growth_fold_lookup by done.
  rewrite decide_True by (rewrite Hs; set_solver).
  assert (Hp : PySort.sorted periods !! S (length l1) = Some p).
  { rewrite Hs.
    replace (l1 ++ q :: p :: l2) with ((l1 ++ [q]) ++ p :: l2)
      by (by rewrite <- app_assoc).
    apply list_lookup_middle. rewrite length_app. simpl. lia. }
  assert (Hq : PySort.sorted periods !! length l1 = Some q).
  { rewrite Hs. by apply list_lookup_middle. }
  unfold growth_value.
  rewrite (idx_by_period_lookup _ _ _ Hnd Hp). simpl.
  rewrite Nat.sub_0_r, Hq, growth_value_calcs, lookup_empty.
  by destruct (calcs_growth _ _).
Qed.

Lemma calcs_growth_first per_period (periods l : list string) p (t : tracked) :
  NoDup (PySort.sorted periods) →
  PySort.sorted periods = p :: l →
  yoy_at per_period periods t p = None.
Proof.
  intros Hnd Hs. unfold yoy_at. rewrite yoy_lookup. simpl.
  rewrite growth_fold_lookup by done.
  rewrite decide_True by (rewrite Hs; set_solver).
  assert (Hp : PySort.sorted periods !! 0%nat = Some p) by (by rewrite Hs).
  unfold growth_value.
  rewrite (idx_by_period_lookup _ _ _ Hnd Hp). simpl. apply lookup_empty.
Qed.

End Growth.

(** C6, as the specification states it, fails on
    [financial_calcs._compute_yoy_growth]: from revenue -100 to -50 it
    reports (-50 + 100) / -100 = -1/2, where (current - previous) /
    |previous| is 1/2. *)
Lemma C6_counterexample : ¬ calcs_growth_claim.
Proof.
  intros H.
  specialize (H loss_per_period loss_periods [] [] "2021-09-25" "2022-09-24"
                Revenue).
  assert (Hnd : NoDup loss_periods)
    by (apply (bool_decide_unpack _); vm_compute; exact I).
  specialize (H Hnd eq_refl). vm_compute in H. discriminate H.
Qed.

(** C6 (amended): for every tracked metric and every period [p] that
    directly follows a period [q] in chronological order,
    [FinancialAgent] reports the growth (current - previous) /
    |previous|, and [None] when either value is missing or the previous
    one is zero; [financial_calcs._compute_yoy_growth] reports (current -
    previous) / previous, without the absolute value (the same number
    for a positive previous value), and no entry in those same cases.
    In both the chronologically first period has no growth entry. *)
Theorem C6_yoy_growth
    (facts per_period : gmap string (gmap string Q))
    (periods l1 l2 : list string) (q p : string) (t : tracked) :
  NoDup periods →
  PySort.sorted periods = periods →
  periods = l1 ++ q :: p :: l2 →
  agent_metrics facts periods p !! growth_key t
  = Some (spec_growth (agent_value facts t p) (agent_value facts t q))
  ∧ (∀ p0 l, periods = p0 :: l →
       agent_metrics facts periods p0 !! growth_key t = None)
  ∧ yoy_at per_period periods t p
    = calcs_growth (FinancialCalcs.metric_at per_period p (metric_key t))
        (FinancialCalcs.metric_at per_period q (metric_key t))
  ∧ (∀ p0 l, periods = p0 :: l → yoy_at per_period periods t p0 = None)
  ∧ (∀ c pv : Q, (0 < pv)%Q →
       opt_Qeq (calcs_growth (Some c) (Some pv)) (spec_growth (Some c) (Some pv))).
Proof.
  intros Hnd Hsorted Hsplit. split; [|split; [|split; [|split]]].
  - subst periods. by apply agent_growth_adjacent.
  - intros p0 l Hl. rewrite Hl in *. by apply agent_growth_first.
  - apply (calcs_growth_adjacent _ _ l1 l2); by rewrite Hsorted.
  - intros p0 l Hl. apply (calcs_growth_first _ _ l); by rewrite Hsorted.
  - intros c pv Hpos. simpl.
    destruct (Qeq_dec pv 0) as [Hz|Hz]; [done|]. simpl.
    rewrite Qabs_pos by (by apply Qlt_le_weak). reflexivity.
Qed.

(** C6 (amended) on the specification's example: revenue 100 and then
    130 gives a growth of 30/100 for the second period and no growth
    entry for the first one. *)
Lemma C6_yoy_growth_witness :
  opt_Qeq
    (mjoin (agent_metrics growth_facts loss_periods "2022-09-24" !! "revenue_growth"))
    (Some (3 # 10)%Q)
  ∧ agent_metrics growth_facts loss_periods "2021-09-25" !! "revenue_growth" = None
  ∧ opt_Qeq (yoy_at growth_per_period loss_periods Revenue "2022-09-24")
      (Some (3 # 10)%Q)
  ∧ yoy_at growth_per_period loss_periods Revenue "2021-09-25" = None.
Proof.
  destruct (C6_yoy_growth growth_facts growth_per_period loss_periods
              [] [] "2021-09-25" "2022-09-24" Revenue
              ltac:(apply (bool_decide_unpack _); vm_compute; exact I)
              eq_refl eq_refl) as (Ha & Ha0 & Hc & Hc0 & _).
  split; [|split; [|split]].
  - simpl in Ha. rewrite Ha. vm_compute. reflexivity.
  - exact (Ha0 "2021-09-25" ["2022-09-24"] eq_refl).
  - rewrite Hc. vm_compute. reflexivity.
  - exact (Hc0 "2021-09-25" ["2022-09-24"] eq_refl).
Defined.

(* ===================================================================== *)
(** * Division guards                                                     *)
(* ===================================================================== *)

Section DivisionGuards.

Ltac lookup_inserts :=
  repeat first
    [ rewrite lookup_insert_eq
    | rewrite lookup_insert_ne by discriminate ].

Lemma margin_spec (x revenue : option Q) :
  FinancialAgent.margin x revenue = spec_ratio x revenue.
Proof.
  unfold FinancialAgent.margin, spec_ratio, PyFloat.truthy.
  destruct revenue as [r|]; [|by destruct x].
  destruct (Qeq_dec r 0) as [Hz|Hz].
  - apply eqb_zero in Hz. rewrite Hz. by destruct x.
  - destruct (PyFloat.eqb r 0) eqn:E.
    + apply eqb_zero in E. contradiction.
    + by destruct x.
Qed.

Lemma spec_ratio_guard (x d : option Q) :
  zero_or_missing d → spec_ratio x d = None.
Proof.
  destruct x as [v|], d as [r|]; simpl; try done.
  intros Hz. by destruct (Qeq_dec r 0).
Qed.

Lemma spec_ratio_nonzero (x : option Q) (r : Q) :
  ¬ (r == 0)%Q → spec_ratio x (Some r) = (fun v => (v / r)%Q) <$> x.
Proof.
  intros Hnz. destruct x as [v|]; simpl; [|done].
  by destruct (Qeq_dec r 0).
Qed.

Lemma agent_margins facts (periods : list string) period :
  period ∈ periods →
  let revenue := FinancialAgent._get_for_period facts "revenue" period in
  agent_metrics facts periods period !! "ebitda_margin"
  = Some (spec_ratio (agent_ebitda facts period) revenue)
  ∧ agent_metrics facts periods period !! "net_margin"
    = Some (spec_ratio (FinancialAgent._get_for_period facts "net_income" period)
              revenue)
  ∧ agent_metrics facts periods period !! "fcf_margin"
    = Some (spec_ratio (agent_fcf facts period) revenue).
Proof.
  intros Hin revenue. unfold agent_metrics.
  destruct (build_metrics_elem facts periods period Hin) as (fm & prev & ->).
  simpl. rewrite <- !margin_spec. apply period_metrics_margins.
Qed.

Lemma truthy_false_iff (x : option Q) :
  PyFloat.truthy x = false ↔ zero_or_missing x.
Proof.
  destruct x as [v|]; simpl; [|done].
  rewrite negb_false_iff. apply eqb_zero.
Qed.

Lemma valuation_pe_guard (sv : ValuationAgent.state) (key : string) :
  zero_or_missing
    (ValuationAgent.get (ValuationAgent.key_metrics sv key) "net_income")
  ∨ ValuationAgent.vm_market_cap (ValuationAgent.valuation_for sv key) = None →
  ValuationAgent.vm_pe (ValuationAgent.valuation_for sv key) = None.
Proof.
  unfold ValuationAgent.valuation_for. simpl.
  intros [Hz|Hm].
  - apply truthy_false_iff in Hz. repeat case_match; try done; congruence.
  - repeat case_match; try done; congruence.
Qed.

Lemma valuation_fcf_yield_guard (sv : ValuationAgent.state) (key : string) :
  zero_or_missing (ValuationAgent.vm_market_cap (ValuationAgent.valuation_for sv key)) →
  ValuationAgent.vm_fcf_yield (ValuationAgent.valuation_for sv key) = None.
Proof.
  unfold ValuationAgent.valuation_for. simpl.
  intros Hz. apply truthy_false_iff in Hz.
  repeat case_match; try done;
    match goal with H : _ && _ = true |- _ => apply andb_true_iff in H as [_ H] end;
    congruence.
Qed.

Import FinancialCalcs.

Lemma safe_div_zero (a b : Q) : (b == 0)%Q → safe_div a b = 0%Q.
Proof. intros Hz. unfold safe_div. apply eqb_zero in Hz. by rewrite Hz. Qed.

Lemma safe_div_nonzero (a b : Q) : ¬ (b == 0)%Q → safe_div a b = (a / b)%Q.
Proof.
  intros Hnz. unfold safe_div.
  destruct (PyFloat.eqb b 0) eqn:E; [|done].
  apply eqb_zero in E. contradiction.
Qed.

Lemma calcs_margin_missing facts period key :
  key ∈ calcs_margin_keys →
  calcs_revenue facts period = None →
  _compute_metrics_for_period facts period !! key = None.
Proof.
  intros Hk Hr. unfold _compute_metrics_for_period.
  unfold calcs_revenue in Hr. rewrite Hr.
  unfold calcs_margin_keys in Hk.
  repeat (apply elem_of_cons in Hk as [->|Hk]);
    [..|by apply elem_of_nil in Hk];
    repeat case_match; lookup_inserts;
    rewrite ?set_if_lookup_ne by discriminate; apply lookup_empty.
Qed.

Lemma calcs_margin_zero facts period key (r v : Q) :
  key ∈ calcs_margin_keys →
  calcs_revenue facts period = Some r →
  (r == 0)%Q →
  _compute_metrics_for_period facts period !! key = Some v →
  v = 0%Q.
Proof.
  intros Hk Hr Hz. unfold _compute_metrics_for_period.
  unfold calcs_revenue in Hr. rewrite Hr.
  unfold calcs_margin_keys in Hk.
  repeat (apply elem_of_cons in Hk as [->|Hk]);
    [..|by apply elem_of_nil in Hk];
    repeat case_match; lookup_inserts;
    rewrite ?set_if_lookup_ne by discriminate;
    rewrite ?lookup_empty, ?safe_div_zero by done;
    congruence.
Qed.

End DivisionGuards.

(** C4, as the specification states it, fails on [financial_calcs]:
    with revenue 0 and net income 5 the net margin is present and equal
    to 0 ([safe_div] returns 0.0 for a zero denominator). *)
Lemma C4_counterexample : ¬ calcs_division_guard_claim.
Proof.
  intros H.
  specialize (H zero_revenue_facts "2022-09-24" "net_margin").
  assert (Hk : "net_margin" ∈ calcs_margin_keys)
    by (unfold calcs_margin_keys; set_solver).
  assert (Hz : zero_or_missing (calcs_revenue zero_revenue_facts "2022-09-24"))
    by (vm_compute; reflexivity).
  specialize (H Hk Hz). vm_compute in H. discriminate H.
Qed.

(** C4 (amended): for every period of its run, [FinancialAgent] reports
    each margin as [None] when revenue is zero or missing and divides by
    revenue otherwise; its growth rates are [None] when the previous
    value is zero or missing; [ValuationAgent] reports P/E as [None]
    when net income is zero or missing or the market capitalisation is
    missing, and FCF yield as [None] when the market capitalisation is
    zero or missing.  In [financial_calcs] a margin has no entry when
    revenue is missing, but [safe_div] returns 0 for a zero denominator,
    so a margin over zero revenue is 0; a growth rate there has no entry
    when the previous value is zero or missing.  None of these
    computations raises: [FinancialAgent] yields whenever there is a
    period and [ValuationAgent] always yields. *)
Theorem C4_division_guard
    (facts : gmap string (gmap string Q)) (periods : list string)
    (period : string) :
  period ∈ periods →
  let revenue := FinancialAgent._get_for_period facts "revenue" period in
  (zero_or_missing revenue →
     agent_metrics facts periods period !! "ebitda_margin" = Some None
     ∧ agent_metrics facts periods period !! "net_margin" = Some None
     ∧ agent_metrics facts periods period !! "fcf_margin" = Some None)
  ∧ (∀ r : Q, revenue = Some r → ¬ (r == 0)%Q →
       agent_metrics facts periods period !! "ebitda_margin"
       = Some ((fun v => (v / r)%Q) <$> agent_ebitda facts period)
       ∧ agent_metrics facts periods period !! "net_margin"
         = Some ((fun v => (v / r)%Q)
                   <$> FinancialAgent._get_for_period facts "net_income" period)
       ∧ agent_metrics facts periods period !! "fcf_margin"
         = Some ((fun v => (v / r)%Q) <$> agent_fcf facts period))
  ∧ (∀ cur prev : option Q,
       zero_or_missing prev → FinancialAgent._safe_growth cur prev = None)
  ∧ (∀ (sv : ValuationAgent.state) (key : string),
       (zero_or_missing
          (ValuationAgent.get (ValuationAgent.key_metrics sv key) "net_income")
        ∨ ValuationAgent.vm_market_cap (ValuationAgent.valuation_for sv key) = None →
        ValuationAgent.vm_pe (ValuationAgent.valuation_for sv key) = None)
       ∧ (zero_or_missing
            (ValuationAgent.vm_market_cap (ValuationAgent.valuation_for sv key)) →
          ValuationAgent.vm_fcf_yield (ValuationAgent.valuation_for sv key) = None))
  ∧ (∀ a b : Q, (b == 0)%Q → FinancialCalcs.safe_div a b = 0%Q)
  ∧ (∀ a b : Q, ¬ (b == 0)%Q → FinancialCalcs.safe_div a b = (a / b)%Q)
  ∧ (∀ key : string, key ∈ calcs_margin_keys →
       (calcs_revenue facts period = None →
        FinancialCalcs._compute_metrics_for_period facts period !! key = None)
       ∧ (∀ r v : Q, calcs_revenue facts period = Some r → (r == 0)%Q →
          FinancialCalcs._compute_metrics_for_period facts period !! key = Some v →
          v = 0%Q))
  ∧ (∀ (per_period : gmap string (gmap string Q)) (ps l1 l2 : list string)
       (q p : string) (t : tracked),
       NoDup (PySort.sorted ps) →
       PySort.sorted ps = l1 ++ q :: p :: l2 →
       zero_or_missing (FinancialCalcs.metric_at per_period q (metric_key t)) →
       yoy_at per_period ps t p = None)
  ∧ (∀ sf : FinancialAgent.state,
       default [] (FinancialAgent.available_periods sf) ≠ [] →
       ∃ d, FinancialAgent._run_async_impl sf = Yield d)
  ∧ (∀ sv : ValuationAgent.state,
       ∃ v, ValuationAgent._run_async_impl sv = Yield v).
Proof.
  intros Hin revenue.
  destruct (agent_margins facts periods period Hin) as (He & Hn & Hf).
  fold revenue in He, Hn, Hf.
  split; [|split; [|split; [|split; [|split; [|split; [|split; [|split; [|split]]]]]]]].
  - intros Hz. rewrite He, Hn, Hf.
    by rewrite !spec_ratio_guard.
  - intros r Hr Hnz. rewrite He, Hn, Hf, Hr.
    by rewrite !spec_ratio_nonzero.
  - intros cur prev Hz. rewrite safe_growth_spec.
    destruct cur as [c|], prev as [pv|]; simpl in *; try done.
    by destruct (Qeq_dec pv 0).
  - intros sv key. split.
    + apply valuation_pe_guard.
    + apply valuation_fcf_yield_guard.
  - apply safe_div_zero.
  - apply safe_div_nonzero.
  - intros key Hk. split.
    + by apply calcs_margin_missing.
    + intros r v. by apply calcs_margin_zero.
  - intros per_period ps l1 l2 q p t Hnd Hs Hz.
    rewrite (calcs_growth_adjacent _ _ l1 l2 q p t Hnd Hs).
    destruct (FinancialCalcs.metric_at per_period p (metric_key t)) as [c|],
             (FinancialCalcs.metric_at per_period q (metric_key t)) as [pv|];
      simpl in *; try done.
    by destruct (Qeq_dec pv 0).
  - intros sf Hne. unfold FinancialAgent._run_async_impl.
    destruct (last (default [] (FinancialAgent.available_periods sf))) eqn:Hl.
    + eauto.
    + apply last_None in Hl. contradiction.
  - intros sv. unfold ValuationAgent._run_async_impl.
    repeat case_match; eauto.
Qed.

(** C4 (amended) on the Fact Table with revenue 0 and net income 5: the
    agent's margins are [None]. *)
Lemma C4_division_guard_witness :
  agent_metrics zero_revenue_facts ["2022-09-24"] "2022-09-24" !! "ebitda_margin"
  = Some None
  ∧ agent_metrics zero_revenue_facts ["2022-09-24"] "2022-09-24" !! "net_margin"
    = Some None
  ∧ agent_metrics zero_revenue_facts ["2022-09-24"] "2022-09-24" !! "fcf_margin"
    = Some None.
Proof.
  apply (proj1 (C4_division_guard zero_revenue_facts ["2022-09-24"] "2022-09-24"
                  ltac:(set_solver))).
  vm_compute. reflexivity.
Defined.

(* ===================================================================== *)
(** * No periods                                                          *)
(* ===================================================================== *)

Lemma zero_periods_get (facts : gmap string (gmap string Q))
    (key period : string) :
  zero_periods facts → FinancialAgent._get_for_period facts key period = None.
Proof.
  intros Hz. unfold FinancialAgent._get_for_period.
  destruct (facts !! key) as [pm|] eqn:Hk; simpl; [|apply lookup_empty].
  rewrite (Hz _ _ Hk). apply lookup_empty.
Qed.

(** Without any fact every entry of a period's metrics is [None]. *)
Lemma zero_periods_metrics (facts : gmap string (gmap string Q))
    (fm : gmap string (gmap string (option Q))) (prev : option string)
    (period key : string) (v : option Q) :
  zero_periods facts →
  FinancialAgent.period_metrics facts fm prev period !! key = Some v →
  v = None.
Proof.
  intros Hz. unfold FinancialAgent.period_metrics.
  rewrite !(zero_periods_get facts _ period Hz).
  destruct prev as [pp|]; cbn [FinancialAgent.compute_ebitda FinancialAgent.margin
                              FinancialAgent._safe_growth];
    intros Hk;
    repeat (apply lookup_insert_Some in Hk as [[_ <-]|[_ Hk]]; [done|]);
    by rewrite lookup_empty in Hk.
Qed.

Lemma zero_periods_empty : zero_periods ∅.
Proof. intros metric pm Hm. by rewrite lookup_empty in Hm. Qed.

(** C7, as the specification states it, fails on [ValuationAgent]:
    with an empty Fact Table, no period list and no key period it yields
    a snapshot and raises nothing. *)
Lemma C7_counterexample : ¬ no_periods_claim.
Proof.
  intros H.
  destruct (H empty_financial_state empty_valuation_state) as [_ [msg Hv]].
  - exact zero_periods_empty.
  - exact zero_periods_empty.
  - vm_compute in Hv. discriminate Hv.
Qed.

(** C7 (amended): neither agent looks at the Fact Table to decide.
    [FinancialAgent] raises [ValueError] exactly when
    [available_periods] is missing or empty in the state; with a Fact
    Table of zero periods and a non-empty [available_periods] it raises
    nothing and yields, for exactly the listed periods, metrics whose
    values are all [None].  [ValuationAgent] never raises: without a key
    period and without [available_periods] it yields a snapshot whose
    every field is [None], and with a key period it yields the valuation
    of that period. *)
Theorem C7_no_periods
    (sf : FinancialAgent.state) (sv : ValuationAgent.state) :
  ((∃ msg, FinancialAgent._run_async_impl sf = Raise msg)
   ↔ default [] (FinancialAgent.available_periods sf) = [])
  ∧ (default [] (FinancialAgent.available_periods sf) = [] →
     FinancialAgent._run_async_impl sf
     = Raise "FinancialAgent: 'available_periods' missing or empty")
  ∧ (zero_periods (default ∅ (FinancialAgent.financials_raw sf)) →
     default [] (FinancialAgent.available_periods sf) ≠ [] →
     ∃ d, FinancialAgent._run_async_impl sf = Yield d
          ∧ dom (FinancialAgent.financial_metrics d)
            = list_to_set (default [] (FinancialAgent.available_periods sf))
          ∧ all_none (FinancialAgent.financial_metrics d))
  ∧ (∃ vm, ValuationAgent._run_async_impl sv = Yield vm)
  ∧ (default [] (ValuationAgent.available_periods sv) = [] →
     PyStr.or_else (ValuationAgent.key_period sv) None = None →
     ValuationAgent._run_async_impl sv = Yield ValuationAgent.no_periods_metrics)
  ∧ (∀ key : string,
       PyStr.or_else (ValuationAgent.key_period sv) None = Some key →
       ValuationAgent._run_async_impl sv
       = Yield (ValuationAgent.valuation_for sv key)).
Proof.
  split; [|split; [|split; [|split; [|split]]]].
  - unfold FinancialAgent._run_async_impl.
    destruct (default [] (FinancialAgent.available_periods sf)) as [|p l] eqn:Hp.
    + split; [done|]. intros _. by eexists.
    + destruct (last (p :: l)) as [key|] eqn:Hl.
      * split; [by intros [msg ?]|done].
      * by apply last_None in Hl.
  - intros Hf. unfold FinancialAgent._run_async_impl. by rewrite Hf.
  - intros Hz Hne. unfold FinancialAgent._run_async_impl.
    set (facts := default ∅ (FinancialAgent.financials_raw sf)) in *.
    set (periods := default [] (FinancialAgent.available_periods sf)) in *.
    destruct (last periods) as [key|] eqn:Hl; [|by apply last_None in Hl].
    eexists. split; [done|]. cbn [FinancialAgent.financial_metrics].
    assert (Hdom : dom (FinancialAgent.build_metrics facts periods)
                   = list_to_set periods).
    { apply set_eq. intros p. rewrite elem_of_dom, elem_of_list_to_set. split.
      - intros [m Hm].
        destruct (decide (p ∈ periods)) as [|Hnin]; [done|]. exfalso.
        unfold FinancialAgent.build_metrics in Hm.
        rewrite fold_step_other in Hm by done. simpl in Hm.
        by rewrite lookup_empty in Hm.
      - intros Hin. destruct (build_metrics_elem facts periods p Hin)
          as (fm & prev & Hb). by eexists. }
    split; [exact Hdom|].
    intros p m k v Hm Hk.
    assert (Hin : p ∈ periods).
    { apply (elem_of_list_to_set (C := gset string)). rewrite <- Hdom.
      apply elem_of_dom. by eexists. }
    destruct (build_metrics_elem facts periods p Hin) as (fm & prev & Hb).
    rewrite Hb in Hm. injection Hm as <-.
    by apply (zero_periods_metrics facts fm prev p k v).
  - unfold ValuationAgent._run_async_impl.
    destruct (PyStr.or_else _ _); [by eexists|].
    destruct (last _); by eexists.
  - intros Hv Hk. unfold ValuationAgent._run_async_impl. by rewrite Hk, Hv.
  - intros key Hk. unfold ValuationAgent._run_async_impl. by rewrite Hk.
Qed.

(** C7 (amended) on a state without periods, where [FinancialAgent]
    raises and [ValuationAgent] yields the empty snapshot, and on a
    state whose Fact Table is empty while the period list of an earlier
    run is still there, where [FinancialAgent] yields metrics that are
    all [None]. *)
Lemma C7_no_periods_witness :
  FinancialAgent._run_async_impl empty_financial_state
  = Raise "FinancialAgent: 'available_periods' missing or empty"
  ∧ ValuationAgent._run_async_impl empty_valuation_state
    = Yield ValuationAgent.no_periods_metrics
  ∧ zero_periods (default ∅ (FinancialAgent.financials_raw stale_financial_state))
  ∧ ∃ d, FinancialAgent._run_async_impl stale_financial_state = Yield d
         ∧ dom (FinancialAgent.financial_metrics d)
           = list_to_set ["2021-09-25"; "2022-09-24"]
         ∧ all_none (FinancialAgent.financial_metrics d).
Proof.
  destruct (C7_no_periods empty_financial_state empty_valuation_state)
    as (_ & Hf & _ & _ & Hv & _).
  split; [exact (Hf eq_refl)|]. split; [exact (Hv eq_refl eq_refl)|].
  assert (Hz : zero_periods
                 (default ∅ (FinancialAgent.financials_raw stale_financial_state))).
  { exact zero_periods_empty. }
  split; [exact Hz|].
  destruct (C7_no_periods stale_financial_state empty_valuation_state)
    as (_ & _ & Hs & _).
  exact (Hs Hz ltac:(discriminate)).
Defined.

(* ===================================================================== *)
(** * The section map                                                     *)
(* ===================================================================== *)

Section SectionMap.
Import TextTools.

Lemma odict_get_set {V} (d : ODict.t V) (k k' : string) (v : V) :
  ODict.get (ODict.set d k v) k'
  = if decide (k = k') then Some v else ODict.get d k'.
Proof.
  induction d as [|[k0 v0] d IH]; simpl.
  - destruct (String.eqb_spec k k'); by case_decide.
  - destruct (String.eqb_spec k0 k) as [->|Hne]; simpl.
    + destruct (String.eqb_spec k k'); by case_decide.
    + destruct (String.eqb_spec k0 k') as [->|Hne'].
      * by rewrite decide_False by done.
      * apply IH.
Qed.

Lemma odict_get_elem {V} (d : ODict.t V) (k : string) (v : V) :
  ODict.get d k = Some v → (k, v) ∈ d.
Proof.
  induction d as [|[k0 v0] d IH]; simpl; [done|].
  destruct (String.eqb_spec k0 k) as [->|Hne].
  - intros [= ->]. set_solver.
  - intros H. set_solver.
Qed.

Lemma odict_get_None {V} (d : ODict.t V) (k : string) :
  ODict.get d k = None ↔ k ∉ ODict.keys d.
Proof.
  unfold ODict.keys. induction d as [|[k0 v0] d IH]; simpl.
  - split; [intros _; apply not_elem_of_nil | done].
  - destruct (String.eqb_spec k0 k) as [->|Hne].
    + split; [done|]. intros H. exfalso. apply H. set_solver.
    + rewrite IH. set_solver.
Qed.

Lemma odict_get_nodup {V} (d : ODict.t V) (k : string) (v : V) :
  NoDup (ODict.keys d) → (k, v) ∈ d → ODict.get d k = Some v.
Proof.
  unfold ODict.keys. induction d as [|[k0 v0] d IH]; simpl; intros Hnd Hin.
  - by apply elem_of_nil in Hin.
  - apply NoDup_cons in Hnd as [Hk0 Hnd].
    apply elem_of_cons in Hin as [[= -> ->]|Hin].
    + by rewrite String.eqb_refl.
    + destruct (String.eqb_spec k0 k) as [->|Hne]; [|by apply IH].
      exfalso. apply Hk0. apply list_elem_of_fmap. by exists (k, v).
Qed.

Lemma static_fold_get by_id
    (rows : list (string * string * string * string * option Z))
    (acc : ODict.t index_entry) (id : string) :
  ODict.get
    (fold_left
       (fun index row =>
          let '(sec_id, default_label, section_type, part, page) := row in
          ODict.set index sec_id
            (_entry by_id sec_id default_label section_type part page))
       rows acc) id
  = match static_row rows id with
    | Some (sec_id, default_label, section_type, part, page) =>
        Some (_entry by_id sec_id default_label section_type part page)
    | None => ODict.get acc id
    end.
Proof.
  revert acc. induction rows as [|[[[[s l] ty] pa] pg] rows IH]; intros acc;
    [done|].
  simpl. rewrite IH.
  destruct (static_row rows id) as [[[[[s' l'] ty'] pa'] pg']|]; [done|].
  rewrite odict_get_set. by case_decide.
Qed.

Lemma static_row_catalogue (id : string) :
  id ∈ catalogue_ids →
  ∃ default_label section_type part page,
    static_row catalogue id = Some (id, default_label, section_type, part, page).
Proof.
  unfold catalogue_ids, catalogue. simpl. intros Hin.
  repeat (apply elem_of_cons in Hin as [->|Hin];
          [vm_compute; by eexists _, _, _, _|]).
  by apply elem_of_nil in Hin.
Qed.

Lemma static_row_not_catalogue (id : string) :
  id ∉ catalogue_ids → static_row catalogue id = None.
Proof.
  unfold catalogue_ids. generalize catalogue. intros rows.
  induction rows as [|row rows IH]; simpl; intros Hnin; [done|].
  apply not_elem_of_cons in Hnin as [Hne Hnin].
  rewrite IH by done. by rewrite decide_False by done.
Qed.

Lemma extras_fold_get (items : ODict.t chunk) (index : ODict.t index_entry)
    (k : string) :
  ODict.get (fold_left add_extra items index) k
  = match ODict.get index k with
    | Some e => Some e
    | None => extra_entry k <$> ODict.get items k
    end.
Proof.
  revert index. induction items as [|[k0 c0] items IH]; intros index; simpl.
  - by destruct (ODict.get index k).
  - rewrite IH. unfold add_extra, ODict.mem. simpl.
    destruct (ODict.get index k0) as [e0|] eqn:H0.
    + destruct (ODict.get index k) as [e|] eqn:Hk; [done|].
      destruct (String.eqb_spec k0 k) as [->|Hne]; [congruence|done].
    + rewrite odict_get_set.
      destruct (String.eqb_spec k0 k) as [->|Hne].
      * rewrite decide_True by done. by rewrite H0.
      * rewrite decide_False by done. done.
Qed.

Lemma sections_index_get by_id (k : string) :
  ODict.get (_build_sections_index by_id) k
  = match static_row catalogue k with
    | Some (sec_id, default_label, section_type, part, page) =>
        Some (_entry by_id sec_id default_label section_type part page)
    | None => extra_entry k <$> ODict.get by_id k
    end.
Proof.
  unfold _build_sections_index, static_index.
  rewrite extras_fold_get, static_fold_get.
  by destruct (static_row catalogue k) as [[[[[s' l'] ty'] pa'] pg']|].
Qed.

End SectionMap.

(** C10: whenever at least one Item heading is detected, the Section
    Index has an entry for every id of the static catalogue ([item_1]
    to [item_16] with their letter variants); the entry of a catalogued
    section that was not detected has [present_in_document = False] and
    [approx_char_len = None]; every detected id outside the catalogue
    has an entry with section type ["other"] and
    [present_in_document = True]. *)
Theorem C10_index_covers_catalogue (text : string) :
  TextTools._find_item_headings text ≠ [] →
  TextTools.catalogue_ids
  = [ "item_1"; "item_1a"; "item_1b"; "item_1c"; "item_2"; "item_3";
      "item_4"; "item_5"; "item_6"; "item_7"; "item_7a"; "item_8";
      "item_9"; "item_9a"; "item_9b"; "item_9c"; "item_10"; "item_11";
      "item_12"; "item_13"; "item_14"; "item_15"; "item_16" ]
  ∧ (∀ id : string, id ∈ TextTools.catalogue_ids →
       ∃ e, index_entry_of text id = Some e
            ∧ TextTools.e_id e = id
            ∧ (detected text id = None →
               TextTools.e_present_in_document e = false
               ∧ TextTools.e_approx_char_len e = None))
  ∧ (∀ (sid : string) (c : TextTools.chunk),
       detected text sid = Some c →
       sid ∉ TextTools.catalogue_ids →
       ∃ e, index_entry_of text sid = Some e
            ∧ TextTools.e_id e = sid
            ∧ TextTools.e_section_type e = "other"
            ∧ TextTools.e_present_in_document e = true).
Proof.
  intros Hh. split; [reflexivity|].
  unfold index_entry_of, detected, TextTools.build_10k_section_map.
  destruct (TextTools._find_item_headings text) as [|h hs]; [done|].
  simpl. split.
  - intros id Hin. rewrite sections_index_get.
    destruct (static_row_catalogue id Hin) as (l & ty & pa & pg & ->).
    eexists. split; [done|]. split; [done|].
    intros Hd. unfold TextTools._entry. by rewrite Hd.
  - intros sid c Hd Hnin. rewrite sections_index_get.
    rewrite static_row_not_catalogue by done. rewrite Hd. simpl.
    by eexists.
Qed.

(** C10 on the text with the headings of Item 1A and Item 1B. *)
Lemma C10_index_covers_catalogue_witness :
  ∃ e, index_entry_of two_items_text "item_8" = Some e
       ∧ TextTools.e_id e = "item_8"
       ∧ (detected two_items_text "item_8" = None →
          TextTools.e_present_in_document e = false
          ∧ TextTools.e_approx_char_len e = None).
Proof.
  apply (proj1 (proj2 (C10_index_covers_catalogue two_items_text
                         ltac:(vm_compute; discriminate)))).
  vm_compute. set_solver.
Defined.

(** C8 fails on the code: the heading pattern allows only the letter
    [a] after the item number, so "Item 1B." is not a heading.  On the
    text with the headings of Item 1A and Item 1B on lines of their
    own, only [item_1a] is detected, its section text runs to the end of
    the document (and so contains "Item 1B."), there is no [item_1b]
    section, and the index entry [item_1b] is marked as not present. *)
Theorem C8_item_1b_not_detected :
  (∀ rest : string,
     TextTools.match_heading (String.append "Item 1B." rest) = None)
  ∧ map TextTools.h_section_id (TextTools._find_item_headings two_items_text)
    = ["item_1a"]
  ∧ TextTools.c_text <$> detected two_items_text "item_1a" = Some two_items_text
  ∧ detected two_items_text "item_1b" = None
  ∧ TextTools.e_present_in_document <$> index_entry_of two_items_text "item_1b"
    = Some false.
Proof.
  split; [|split; [|split; [|split]]].
  - intros rest. reflexivity.
  - vm_compute. reflexivity.
  - vm_compute. reflexivity.
  - vm_compute. reflexivity.
  - vm_compute. reflexivity.
Qed.

(* ===================================================================== *)
(** * Lexical fallback ranking                                            *)
(* ===================================================================== *)

Section Fallback.
Import QaAgent.

Lemma insert_desc_perm (x : Q * string) (l : list (Q * string)) :
  insert_desc x l ≡ₚ x :: l.
Proof.
  induction l as [|y l IH]; simpl; [done|].
  destruct (Qle_bool y.1 x.1); [done|].
  rewrite IH. apply Permutation_swap.
Qed.

Lemma sort_desc_perm (l : list (Q * string)) : sort_desc l ≡ₚ l.
Proof.
  unfold sort_desc. induction l as [|x l IH]; simpl; [done|].
  by rewrite insert_desc_perm, IH.
Qed.

Lemma insert_desc_sorted (x : Q * string) (l : list (Q * string)) :
  StronglySorted desc l → StronglySorted desc (insert_desc x l).
Proof.
  induction 1 as [|y l Hl IH Hy]; simpl.
  - repeat constructor.
  - destruct (Qle_bool y.1 x.1) eqn:E.
    + apply Qle_bool_iff in E.
      constructor; [by constructor|].
      constructor; [done|].
      eapply Forall_impl; [exact Hy|].
      intros z Hz. unfold desc in *. by apply Qle_trans with y.1.
    + assert (Hlt : (x.1 <= y.1)%Q).
      { apply Qlt_le_weak, Qnot_le_lt. intros Hle.
        apply Qle_bool_iff in Hle. congruence. }
      constructor; [done|].
      rewrite insert_desc_perm. by constructor.
Qed.

Lemma sort_desc_sorted (l : list (Q * string)) :
  StronglySorted desc (sort_desc l).
Proof.
  unfold sort_desc. induction l as [|x l IH]; simpl; [constructor|].
  by apply insert_desc_sorted.
Qed.

Lemma score_items_elem question (index : ODict.t index_value) (s : Q) (sid : string) :
  (s, sid) ∈ score_items question index ↔
  ∃ m, (sid, Meta m) ∈ index
       ∧ s = _score_section_for_question question m
       ∧ PyFloat.ltb 0 s = true.
Proof.
  unfold score_items. rewrite list_elem_of_In, in_flat_map. split.
  - intros ([k v] & Hin & Hx). apply list_elem_of_In in Hin. simpl in Hx.
    destruct v as [m|]; [|done].
    destruct (PyFloat.ltb 0 _) eqn:E; [|done].
    destruct Hx as [[= <- <-]|[]]. by exists m.
  - intros (m & Hin & -> & Hlt). exists (sid, Meta m).
    split; [by apply list_elem_of_In|]. simpl. rewrite Hlt. by left.
Qed.

Lemma score_items_keys question (index : ODict.t index_value) :
  NoDup (ODict.keys index) → NoDup (score_items question index).*2.
Proof.
  unfold ODict.keys. induction index as [|[k v] index IH]; simpl; intros Hnd.
  - constructor.
  - apply NoDup_cons in Hnd as [Hk Hnd].
    change (score_items question ((k, v) :: index))
      with (match v with
            | NotDict => []
            | Meta m =>
                if PyFloat.ltb 0 (_score_section_for_question question m)
                then [(_score_section_for_question question m, k)] else []
            end ++ score_items question index).
    assert (Hfresh : k ∉ (score_items question index).*2).
    { intros Hin. apply list_elem_of_fmap in Hin as ([s sid] & -> & Hin).
      apply score_items_elem in Hin as (m & Hin & _).
      apply Hk. apply list_elem_of_fmap. by exists (sid, Meta m). }
    destruct v as [m|]; simpl; [|by apply IH].
    destruct (PyFloat.ltb 0 _); simpl; [|by apply IH].
    apply NoDup_cons. split; [done | by apply IH].
Qed.

Lemma odict_set_fresh {V} (d : ODict.t V) (k : string) (v : V) :
  k ∉ ODict.keys d → ODict.set d k v = d ++ [(k, v)].
Proof.
  unfold ODict.keys. induction d as [|[k0 v0] d IH]; simpl; intros Hnin; [done|].
  apply not_elem_of_cons in Hnin as [Hne Hnin].
  destruct (String.eqb_spec k0 k) as [->|_]; [done|].
  by rewrite IH.
Qed.

Lemma select_closed (index : ODict.t index_value) (top_k : nat) (min_score : Q)
    (scored : list (Q * string)) (results : ODict.t index_value) :
  (length results < top_k)%nat →
  NoDup scored.*2 →
  (∀ x, x ∈ scored → x.2 ∉ ODict.keys results) →
  (∀ x, x ∈ scored → is_Some (ODict.get index x.2)) →
  select index top_k min_score scored results
  = results
    ++ map (stored_item index)
         (take (top_k - length results)%nat (take_while (above min_score) scored)).
Proof.
  revert results. induction scored as [|[s sid] scored IH];
    intros results Hlen Hnd Hfresh Hkeys; simpl.
  - by rewrite take_nil, app_nil_r.
  - unfold above at 1. simpl.
    destruct (PyFloat.ltb s min_score); simpl.
    + by rewrite take_nil, app_nil_r.
    + destruct (Hkeys (s, sid)) as [meta Hmeta]; [set_solver|].
      simpl in Hmeta. rewrite Hmeta.
      rewrite odict_set_fresh by (apply (Hfresh (s, sid)); set_solver).
      rewrite length_app. simpl.
      destruct (top_k - length results)%nat as [|n] eqn:Hn; [lia|].
      simpl. unfold stored_item at 1. simpl. rewrite Hmeta. simpl.
      destruct (Nat.leb_spec top_k (length results + 1)) as [Hle|Hgt].
      * assert (n = 0)%nat as -> by lia. by rewrite take_0.
      * apply NoDup_cons in Hnd as [Hsid Hnd].
        rewrite IH.
        -- rewrite length_app. simpl. rewrite <- app_assoc. simpl.
           repeat f_equal. lia.
        -- rewrite length_app. simpl. lia.
        -- done.
        -- intros x Hx. unfold ODict.keys. rewrite fmap_app. simpl.
           intros Hin. apply elem_of_app in Hin as [Hin|Hin].
           ++ apply (Hfresh x); [set_solver|done].
           ++ apply list_elem_of_singleton in Hin.
              apply Hsid. apply list_elem_of_fmap. by exists x.
        -- intros x Hx. apply Hkeys. set_solver.
Qed.

Lemma take_while_prefix {A} (f : A → bool) (l : list A) :
  ∃ rest, l = take_while f l ++ rest.
Proof.
  induction l as [|x l [rest IH]]; simpl; [by exists []|].
  destruct (f x); [|by eexists].
  exists rest. simpl. by f_equal.
Qed.

Lemma take_while_elem {A} (f : A → bool) (l : list A) (x : A) :
  x ∈ take_while f l → f x = true ∧ x ∈ l.
Proof.
  induction l as [|y l IH]; simpl; [by intros ?%elem_of_nil|].
  destruct (f y) eqn:E; [|by intros ?%elem_of_nil].
  intros [->|Hin]%elem_of_cons; [set_solver|].
  destruct (IH Hin). set_solver.
Qed.

Lemma sorted_map_in {A B} (R : relation A) (R' : relation B) (f : A → B)
    (l : list A) :
  (∀ a b, a ∈ l → b ∈ l → R a b → R' (f a) (f b)) →
  StronglySorted R l → StronglySorted R' (map f l).
Proof.
  intros Hf Hs. induction Hs as [|x l Hl IH Hx]; simpl; [constructor|].
  constructor.
  - apply IH. intros a b Ha Hb. apply Hf; set_solver.
  - apply Forall_fmap. apply Forall_forall. intros y Hy.
    rewrite Forall_forall in Hx. apply Hf; [set_solver|set_solver|by apply Hx].
Qed.

Lemma ranking_elem question (index : ODict.t index_value) (x : Q * string) :
  NoDup (ODict.keys index) →
  x ∈ ranking question index →
  ∃ m, ODict.get index x.2 = Some (Meta m)
       ∧ x.1 = _score_section_for_question question m
       ∧ (0 < x.1)%Q.
Proof.
  intros Hnd Hin. unfold ranking in Hin. rewrite sort_desc_perm in Hin.
  destruct x as [s sid]. apply score_items_elem in Hin as (m & Hin & -> & Hlt).
  exists m. split; [by apply odict_get_nodup|]. split; [done|].
  by apply ltb_lt.
Qed.

Lemma fallback_closed question (index : ODict.t index_value)
    (top_k : nat) (min_score : Q) :
  (0 < top_k)%nat →
  NoDup (ODict.keys index) →
  _fallback_sections_for_question question index top_k min_score
  = map (stored_item index) (selected question index top_k min_score).
Proof.
  intros Hk Hnd. unfold _fallback_sections_for_question, selected.
  fold (ranking question index).
  rewrite select_closed; simpl.
  - by rewrite Nat.sub_0_r.
  - done.
  - unfold ranking. rewrite sort_desc_perm. by apply score_items_keys.
  - intros x _. apply not_elem_of_nil.
  - intros x Hx. destruct (ranking_elem _ _ _ Hnd Hx) as (m & -> & _). eauto.
Qed.

Lemma selected_elem question (index : ODict.t index_value)
    (top_k : nat) (min_score : Q) (x : Q * string) :
  x ∈ selected question index top_k min_score →
  x ∈ ranking question index ∧ (min_score <= x.1)%Q.
Proof.
  unfold selected. intros Hin. apply subseteq_take in Hin.
  apply take_while_elem in Hin as [Ha Hin]. split; [done|].
  unfold above in Ha. apply negb_true_iff in Ha. by apply ltb_ge.
Qed.

Lemma selected_sorted question (index : ODict.t index_value)
    (top_k : nat) (min_score : Q) :
  StronglySorted desc (selected question index top_k min_score).
Proof.
  unfold selected.
  destruct (take_while_prefix (above min_score) (ranking question index))
    as [rest Hr].
  pose proof (sort_desc_sorted (score_items question index)) as Hs.
  fold (ranking question index) in Hs. rewrite Hr in Hs.
  apply StronglySorted_app_1_l in Hs.
  rewrite <- (take_drop top_k (take_while _ _)) in Hs.
  by apply StronglySorted_app_1_l in Hs.
Qed.

Lemma odict_set_elem {V} (d : ODict.t V) (k : string) (v : V) (y : string * V) :
  y ∈ ODict.set d k v → y = (k, v) ∨ y ∈ d.
Proof.
  induction d as [|[k0 v0] d IH]; simpl.
  - intros ?%list_elem_of_singleton. by left.
  - destruct (String.eqb_spec k0 k) as [->|_].
    + intros [->|Hin]%elem_of_cons; [by left | right; set_solver].
    + intros [->|Hin]%elem_of_cons; [right; set_solver|].
      destruct (IH Hin); [by left | right; set_solver].
Qed.

Lemma odict_set_length {V} (d : ODict.t V) (k : string) (v : V) :
  (length (ODict.set d k v) ≤ S (length d))%nat.
Proof.
  induction d as [|[k0 v0] d IH]; simpl; [lia|].
  destruct (String.eqb k0 k); simpl; lia.
Qed.

(** Whatever the second loop returns was in [results] or is the index
    value of a scored key. *)
Lemma select_elem (index : ODict.t index_value) (top_k : nat) (min_score : Q)
    (scored : list (Q * string)) (results : ODict.t index_value)
    (item : string * index_value) :
  item ∈ select index top_k min_score scored results →
  item ∈ results
  ∨ ∃ x, x ∈ scored ∧ item.1 = x.2 ∧ ODict.get index x.2 = Some item.2.
Proof.
  revert results. induction scored as [|[s sid] scored IH]; intros results;
    simpl; [by left|].
  destruct (PyFloat.ltb s min_score); [by left|].
  destruct (ODict.get index sid) as [meta|] eqn:Hmeta; [|by left].
  assert (Hset : ∀ y, y ∈ ODict.set results sid meta →
            y ∈ results
            ∨ ∃ x, x ∈ (s, sid) :: scored ∧ y.1 = x.2
                   ∧ ODict.get index x.2 = Some y.2).
  { intros y Hy. apply odict_set_elem in Hy as [->|Hy]; [|by left].
    right. exists (s, sid). split; [set_solver|done]. }
  destruct (top_k <=? length (ODict.set results sid meta))%nat.
  - apply Hset.
  - intros Hin. apply IH in Hin as [Hin|(x & Hx & Hi & Hg)].
    + by apply Hset.
    + right. exists x. split; [set_solver|done].
Qed.

Lemma score_pos_overlap question (m : section) :
  (0 < _score_section_for_question question m)%Q →
  question_tokens question ∩ section_tokens m ≠ ∅.
Proof.
  unfold _score_section_for_question. fold (question_tokens question).
  intros Hpos Hempty. rewrite Hempty, size_empty in Hpos.
  destruct (bool_decide (section_tokens m = ∅)).
  - by apply Qlt_irrefl in Hpos.
  - simpl in Hpos. unfold Qdiv in Hpos. rewrite Qmult_0_l in Hpos.
    by apply Qlt_irrefl in Hpos.
Qed.

Lemma score_formula question (m : section) :
  section_tokens m ≠ ∅ →
  question_tokens question ≠ ∅ →
  _score_section_for_question question m
  = (inject_Z (Z.of_nat (size (question_tokens question ∩ section_tokens m)))
     / inject_Z (Z.of_nat (size (question_tokens question))))%Q.
Proof.
  intros Hs Hq. unfold _score_section_for_question.
  fold (question_tokens question).
  rewrite bool_decide_eq_false_2 by done.
  assert (size (question_tokens question) ≠ 0)%nat as Hsz
    by (by intros ?%size_empty_inv%leibniz_equiv).
  by rewrite Nat.max_l by lia.
Qed.

Lemma score_zero question (m : section) :
  section_tokens m = ∅ ∨ question_tokens question = ∅ →
  (_score_section_for_question question m == 0)%Q.
Proof.
  unfold _score_section_for_question. fold (question_tokens question).
  intros [Hs|Hq].
  - by rewrite bool_decide_eq_true_2.
  - destruct (bool_decide (section_tokens m = ∅)); [done|].
    rewrite Hq. rewrite intersection_empty_l_L, size_empty.
    unfold Qdiv. apply Qmult_0_l.
Qed.

(** The tokens of [_normalize_text] are the case-folded runs of letters
    and digits. *)
Lemma word_char_spec (c : ascii) :
  spec_word_char c
  = if PyStr.is_lower_alnum (PyStr.lower_char c)
    then Some (PyStr.lower_char c) else None.
Proof. by destruct c as [[] [] [] [] [] [] [] []]. Qed.

Lemma lower_alnum_not_space (c : ascii) :
  PyStr.is_lower_alnum c = true → PyStr.is_space c = false.
Proof. by destruct c as [[] [] [] [] [] [] [] []]. Qed.

Lemma token_truthy (c : ascii) (cur : list ascii) :
  PyStr.truthy (string_of_list_ascii (List.rev (c :: cur))) = true.
Proof.
  simpl. destruct (List.rev cur) as [|a l]; reflexivity.
Qed.

Lemma filter_emit (cur : list ascii) (rest : list string) :
  filter (fun t => PyStr.truthy t = true) (emit cur rest)
  = emit cur (filter (fun t => PyStr.truthy t = true) rest).
Proof.
  destruct cur as [|c cur]; [done|]. unfold emit.
  rewrite filter_cons, decide_True; [done|apply token_truthy].
Qed.

Lemma normalize_runs (s : string) :
  (∀ cur, filter (fun t => PyStr.truthy t = true)
            (split_ws cur (sub_other false (PyStr.lower s)))
          = spec_tokens_from cur s)
  ∧ filter (fun t => PyStr.truthy t = true)
      (split_ws [] (sub_other true (PyStr.lower s)))
    = spec_tokens_from [] s.
Proof.
  induction s as [|c s [IH1 IH2]].
  - split; [|done]. intros cur. simpl. apply (filter_emit cur []).
  - assert (Hstep : ∀ in_run cur, (in_run = true → cur = []) →
              filter (fun t => PyStr.truthy t = true)
                (split_ws cur (sub_other in_run (PyStr.lower (String c s))))
              = spec_tokens_from cur (String c s)).
    { intros in_run cur Hcur.
      cbn [PyStr.lower sub_other spec_tokens_from]. rewrite word_char_spec.
      destruct (PyStr.is_lower_alnum (PyStr.lower_char c)) eqn:Ha.
      - cbn [orb split_ws]. rewrite (lower_alnum_not_space _ Ha). apply IH1.
      - cbn [orb]. destruct (PyStr.is_space (PyStr.lower_char c)) eqn:Hs.
        + cbn [split_ws]. rewrite Hs.
          change (filter (fun t => PyStr.truthy t = true)
                    (emit cur (split_ws [] (sub_other false (PyStr.lower s))))
                  = emit cur (spec_tokens_from [] s)).
          by rewrite filter_emit, IH1.
        + destruct in_run.
          * rewrite (Hcur eq_refl). exact IH2.
          * cbn [split_ws].
            change (PyStr.is_space " ") with true. cbv iota.
            change (filter (fun t => PyStr.truthy t = true)
                      (emit cur (split_ws [] (sub_other true (PyStr.lower s))))
                    = emit cur (spec_tokens_from [] s)).
            by rewrite filter_emit, IH2. }
    split.
    + intros cur. by apply Hstep.
    + by apply Hstep.
Qed.

Lemma normalize_text_spec (text : string) :
  _normalize_text text = spec_tokens_from [] text.
Proof. unfold _normalize_text. apply (proj1 (normalize_runs text)). Qed.

Lemma take_prefix (n : nat) (s : string) : PyStr.take n s = spec_prefix n s.
Proof.
  unfold spec_prefix. revert s. induction n as [|n IH]; intros [|c s]; simpl;
    try done. by rewrite IH.
Qed.

Lemma section_tokens_spec (m : section) :
  section_tokens m = spec_tokens (spec_section_text m).
Proof.
  unfold section_tokens, spec_tokens, spec_section_text.
  rewrite normalize_text_spec, take_prefix.
  replace (PyStr.or_empty (PyStr.or_else (s_label m)
             (PyStr.or_else (s_title m) (Some EmptyString))))
    with (spec_label m).
  - by destruct (s_text m).
  - unfold spec_label.
    destruct (s_label m) as [[|c l]|], (s_title m) as [[|c' t]|]; reflexivity.
Qed.

End Fallback.

(** C9: in the lexical fallback the score of a section is the number of
    question tokens that are also tokens of its label and of the first
    2000 characters of its text, divided by the number of question
    tokens (0 when either token set is empty); the result lists, best
    first, at most five sections, each with a score of at least 0.15,
    namely the first five of the ranking that reach 0.15; and for every
    top-K and minimum score a section that shares no token with the
    question is not in the result.  The tokens of a text are its
    maximal runs of letters and digits, case-folded: those of the
    question, and for a section those of its label (its title when it
    has no label), a space and the first 2000 characters of its text. *)
Theorem C9_fallback_ranking
    (question : string) (index : ODict.t QaAgent.index_value) :
  NoDup (ODict.keys index) →
  (∀ m : QaAgent.section,
     QaAgent.section_tokens m ≠ ∅ →
     question_tokens question ≠ ∅ →
     QaAgent._score_section_for_question question m
     = (inject_Z (Z.of_nat (size (question_tokens question
                                  ∩ QaAgent.section_tokens m)))
        / inject_Z (Z.of_nat (size (question_tokens question))))%Q)
  ∧ (∀ m : QaAgent.section,
       QaAgent.section_tokens m = ∅ ∨ question_tokens question = ∅ →
       (QaAgent._score_section_for_question question m == 0)%Q)
  ∧ QaAgent.fallback question index
    = map (stored_item index) (selected question index 5 (15 # 100))
  ∧ (length (QaAgent.fallback question index) ≤ 5)%nat
  ∧ StronglySorted (score_ge question) (QaAgent.fallback question index)
  ∧ (∀ (sid : string) (v : QaAgent.index_value),
       (sid, v) ∈ QaAgent.fallback question index →
       ODict.get index sid = Some v
       ∧ ∃ m, v = QaAgent.Meta m
              ∧ (15 # 100 <= QaAgent._score_section_for_question question m)%Q)
  ∧ (∀ (top_k : nat) (min_score : Q) (sid : string) (m : QaAgent.section),
       (sid, QaAgent.Meta m)
         ∈ QaAgent._fallback_sections_for_question question index top_k min_score →
       question_tokens question ∩ QaAgent.section_tokens m ≠ ∅)
  ∧ question_tokens question = spec_tokens question
  ∧ (∀ m : QaAgent.section,
       QaAgent.section_tokens m = spec_tokens (spec_section_text m)).
Proof.
  intros Hnd.
  assert (Hclosed : QaAgent.fallback question index
                    = map (stored_item index) (selected question index 5 (15 # 100)))
    by (apply fallback_closed; [lia|done]).
  split; [apply score_formula|]. split; [apply score_zero|].
  split; [exact Hclosed|]. rewrite Hclosed.
  split; [|split; [|split; [|split; [|split]]]];
    [| | | |unfold question_tokens, spec_tokens; by rewrite normalize_text_spec
     |apply section_tokens_spec].
  - rewrite length_map. unfold selected. rewrite length_take. lia.
  - apply (sorted_map_in desc); [|apply selected_sorted].
    intros a b Ha Hb Hab.
    apply selected_elem in Ha as [Ha _]. apply selected_elem in Hb as [Hb _].
    destruct (ranking_elem _ _ _ Hnd Ha) as (ma & Hga & Hsa & _).
    destruct (ranking_elem _ _ _ Hnd Hb) as (mb & Hgb & Hsb & _).
    unfold score_ge, stored_item. simpl. rewrite Hga, Hgb. simpl.
    unfold desc in Hab. by rewrite <- Hsa, <- Hsb.
  - intros sid v Hin. apply list_elem_of_fmap in Hin as (x & Hx & Hin).
    apply selected_elem in Hin as [Hin Hmin].
    destruct (ranking_elem _ _ _ Hnd Hin) as (m & Hg & Hs & _).
    unfold stored_item in Hx. rewrite Hg in Hx. simpl in Hx.
    injection Hx as -> ->. split; [done|].
    exists m. split; [done|]. by rewrite <- Hs.
  - intros top_k min_score sid m Hin.
    unfold QaAgent._fallback_sections_for_question in Hin.
    apply select_elem in Hin as [Hin|(x & Hx & Hi & Hg)];
      [by apply elem_of_nil in Hin|].
    fold (ranking question index) in Hx.
    destruct (ranking_elem _ _ _ Hnd Hx) as (m' & Hg' & Hs & Hpos).
    simpl in Hg. rewrite Hg' in Hg. injection Hg as ->.
    apply score_pos_overlap. by rewrite <- Hs.
Qed.

(** C9 on an index of three sections with texts and the question
    "cyber risk": the section without common token is left out, the
    section that shares "risk" with its label and "cyber" with its text
    comes first, and the section that shares "cyber" with its text only
    comes second. *)
Lemma C9_fallback_ranking_witness :
  map fst (QaAgent.fallback "cyber risk" text_index) = ["item_1a"; "item_1c"]
  ∧ (length (QaAgent.fallback "cyber risk" text_index) ≤ 5)%nat
  ∧ StronglySorted (score_ge "cyber risk") (QaAgent.fallback "cyber risk" text_index)
  ∧ question_tokens "cyber risk" = spec_tokens "cyber risk".
Proof.
  destruct (C9_fallback_ranking "cyber risk" text_index
              ltac:(apply (bool_decide_unpack _); vm_compute; exact I))
    as (_ & _ & _ & Hlen & Hsorted & _ & _ & Htok & _).
  split; [vm_compute; reflexivity|].
  split; [exact Hlen|]. split; [exact Hsorted | exact Htok].
Defined.

(* ===================================================================== *)
(** * Further properties of the Fact Table                                *)
(* ===================================================================== *)

Section FactTable.
Import PdfTools.

Lemma map_concepts_fold_inv (cmap : list (string * list string)) raw
    (acc : gmap string (gmap string Q)) key (pm : gmap string Q) :
  fold_left
    (fun result kc =>
       let merged := merge_concepts raw kc.2 in
       if decide (merged = ∅) then result else <[kc.1 := merged]> result)
    cmap acc !! key = Some pm →
  acc !! key = Some pm
  ∨ ∃ concepts, (key, concepts) ∈ cmap
                ∧ pm = merge_concepts raw concepts ∧ pm ≠ ∅.
Proof.
  revert acc. induction cmap as [|[k cs] cmap IH]; intros acc; simpl.
  - by left.
  - intros H. apply IH in H as [H|(concepts & Hin & -> & Hne)].
    + case_decide as He; [by left|].
      destruct (decide (k = key)) as [->|Hk].
      * rewrite lookup_insert_eq in H. injection H as <-.
        right. exists cs. split; [set_solver|done].
      * rewrite lookup_insert_ne in H by done. by left.
    + right. exists concepts. split; [set_solver|done].
Qed.

Lemma first_reporting_elem raw (concepts : list string) period v :
  first_reporting raw concepts period = Some v →
  ∃ concept, concept ∈ concepts ∧ stored raw concept period = Some v.
Proof.
  induction concepts as [|c concepts IH]; simpl; [done|].
  destruct (stored raw c period) as [w|] eqn:Hs.
  - intros [= ->]. exists c. split; [set_solver|done].
  - intros H. destruct (IH H) as (c' & Hin & Hc'). exists c'. set_solver.
Qed.

Lemma fact_of_tag_period ctx um tag name period v :
  fact_of_tag ctx um tag = Some (name, period, v) →
  period ≠ EmptyString ∧ ∃ ref, ctx !! ref = Some period.
Proof.
  unfold fact_of_tag. intros H.
  repeat (case_match; try discriminate).
  injection H as <- <- <-. split; [|eauto].
  intros ->. simpl in *. discriminate.
Qed.

End FactTable.

(** X1: the Fact Table is well formed.  Every key is a friendly key of
    the concept map, no key is bound to an empty period map, and every
    value was asserted by a scanned fact whose context resolves to the
    (non-empty) period it is stored under.  Hence without any resolvable
    context the Fact Table is empty. *)
Theorem X_fact_table_well_formed
    (tags : list PdfTools.ix_tag) (ctx um : gmap string string)
    (key : string) (pm : gmap string Q) :
  PdfTools._extract_key_facts_from_ixbrl tags ctx um !! key = Some pm →
  key ∈ PdfTools.concept_map.*1
  ∧ pm ≠ ∅
  ∧ (∀ (period : string) (v : Q),
       pm !! period = Some v →
       period ≠ EmptyString
       ∧ (∃ ref, ctx !! ref = Some period)
       ∧ ∃ tag concept,
           tag ∈ tags
           ∧ PdfTools.fact_of_tag ctx um tag = Some (concept, period, v))
  ∧ PdfTools._extract_key_facts_from_ixbrl tags ∅ um = ∅.
Proof.
  intros H.
  assert (Hinv : ∀ tags' ctx' key' pm',
            PdfTools._extract_key_facts_from_ixbrl tags' ctx' um !! key' = Some pm' →
            key' ∈ PdfTools.concept_map.*1
            ∧ pm' ≠ ∅
            ∧ ∀ (period : string) (v : Q),
                pm' !! period = Some v →
                period ≠ EmptyString
                ∧ (∃ ref, ctx' !! ref = Some period)
                ∧ ∃ tag concept,
                    tag ∈ tags'
                    ∧ PdfTools.fact_of_tag ctx' um tag = Some (concept, period, v)).
  { clear. intros tags ctx key pm H.
    unfold PdfTools._extract_key_facts_from_ixbrl, PdfTools.map_concepts in H.
    apply map_concepts_fold_inv in H as [H|(concepts & Hin & -> & Hne)];
      [by rewrite lookup_empty in H|].
    split; [apply list_elem_of_fmap; by exists (key, concepts)|].
    split; [done|].
    intros period v Hv. rewrite merge_concepts_lookup in Hv.
    apply first_reporting_elem in Hv as (concept & _ & Hs).
    apply scan_stored_from_tag in Hs as (tag & Htag & Hf).
    destruct (fact_of_tag_period _ _ _ _ _ _ Hf) as [Hp Hctx].
    split; [done|]. split; [done|]. by exists tag, concept. }
  destruct (Hinv _ _ _ _ H) as (Hk & Hne & Hv).
  split; [done|]. split; [done|]. split; [done|].
  apply map_eq. intros k. rewrite lookup_empty.
  destruct (PdfTools._extract_key_facts_from_ixbrl tags ∅ um !! k) as [pm'|] eqn:Hk';
    [|done].
  exfalso. destruct (Hinv _ _ _ _ Hk') as (_ & Hne' & Hv').
  apply Hne'. apply map_eq. intros p. rewrite lookup_empty.
  destruct (pm' !! p) as [v|] eqn:Hp; [|done].
  destruct (Hv' p v Hp) as (_ & (ref & Href) & _).
  by rewrite lookup_empty in Href.
Qed.

(** X1 on the document of the scaling example. *)
Lemma X_fact_table_well_formed_witness :
  "revenue" ∈ PdfTools.concept_map.*1
  ∧ PdfTools._extract_key_facts_from_ixbrl [example_tag] ∅ example_units = ∅.
Proof.
  destruct (PdfTools._extract_key_facts_from_ixbrl [example_tag] example_contexts
              example_units !! "revenue") as [pm|] eqn:H;
    [|vm_compute in H; discriminate H].
  destruct (X_fact_table_well_formed _ _ _ _ _ H) as (Hk & _ & _ & He).
  split; [exact Hk | exact He].
Defined.

(** X2: the revenue reconciler touches no other metric, and running it
    again on its own result changes nothing. *)
Theorem X_fix_revenue_only_and_idempotent
    (doc : ExtractionAgent.document) (parsed : ExtractionAgent.parsed_doc)
    (facts : gmap string (gmap string Q)) :
  (∀ key : string, key ≠ "revenue" →
     ExtractionAgent._fix_revenue_from_ixbrl doc parsed facts !! key = facts !! key)
  ∧ ExtractionAgent._fix_revenue_from_ixbrl doc parsed
      (ExtractionAgent._fix_revenue_from_ixbrl doc parsed facts)
    = ExtractionAgent._fix_revenue_from_ixbrl doc parsed facts.
Proof.
  unfold ExtractionAgent._fix_revenue_from_ixbrl.
  split.
  - intros key Hne.
    repeat case_match; try done; by rewrite lookup_insert_ne.
  - repeat case_match; try done; by rewrite insert_insert_eq.
Qed.

(** X2 on the document with the two revenue facts. *)
Lemma X_fix_revenue_only_and_idempotent_witness :
  ExtractionAgent._fix_revenue_from_ixbrl two_revenue_doc no_fact_list
    table_with_income !! "net_income"
  = Some ({[ "2022-09-24" := 1%Q ]} : gmap string Q).
Proof.
  rewrite (proj1 (X_fix_revenue_only_and_idempotent two_revenue_doc no_fact_list
                    table_with_income) "net_income" ltac:(discriminate)).
  vm_compute. reflexivity.
Defined.

(* ===================================================================== *)
(** * Further properties of the section map                               *)
(* ===================================================================== *)

Section SectionIndex.
Import TextTools.

Lemma odict_keys_set {V} (d : ODict.t V) (k : string) (v : V) :
  ODict.keys (ODict.set d k v)
  = if ODict.mem d k then ODict.keys d else ODict.keys d ++ [k].
Proof.
  unfold ODict.keys, ODict.mem.
  induction d as [|[k0 v0] d IH]; simpl; [done|].
  destruct (String.eqb_spec k0 k) as [->|Hne]; simpl; [done|].
  rewrite IH. by destruct (ODict.get d k).
Qed.

Lemma odict_mem_keys {V} (d : ODict.t V) (k : string) :
  ODict.mem d k = true ↔ k ∈ ODict.keys d.
Proof.
  unfold ODict.mem. destruct (ODict.get d k) eqn:Hg.
  - split; [intros _|done].
    apply odict_get_elem in Hg. apply list_elem_of_fmap. by eexists (_, _).
  - apply odict_get_None in Hg. split; [done|]. intros Hin. contradiction.
Qed.

Lemma odict_set_nodup {V} (d : ODict.t V) (k : string) (v : V) :
  NoDup (ODict.keys d) → NoDup (ODict.keys (ODict.set d k v)).
Proof.
  intros Hnd. rewrite odict_keys_set.
  destruct (ODict.mem d k) eqn:Hm; [done|].
  apply NoDup_app. split; [done|]. split; [|apply NoDup_singleton].
  intros x Hx ->%list_elem_of_singleton.
  apply odict_mem_keys in Hx. congruence.
Qed.

(** What the loop over the chunks keeps: unique ids, and for every id
    a chunk of that id whose text no chunk of the same id exceeds. *)
Lemma index_chunks_keeps_longest (cs : list chunk) :
  NoDup (ODict.keys (index_chunks cs))
  ∧ (∀ c, c ∈ cs →
       ∃ kept, ODict.get (index_chunks cs) (c_id c) = Some kept
               ∧ (String.length (c_text c) ≤ String.length (c_text kept))%nat)
  ∧ (∀ sid kept, ODict.get (index_chunks cs) sid = Some kept →
       kept ∈ cs ∧ c_id kept = sid).
Proof.
  unfold index_chunks. induction cs as [|c cs IH] using rev_ind.
  - simpl. split; [constructor|]. split; [by intros c ?%elem_of_nil|done].
  - rewrite fold_left_app. simpl.
    destruct IH as (Hnd & Hall & Hget).
    set (d := fold_left index_chunk cs []) in *.
    unfold index_chunk.
    destruct (ODict.get d (c_id c)) as [old|] eqn:Hold.
    + destruct (Nat.ltb_spec (String.length (c_text old)) (String.length (c_text c)))
        as [Hlt|Hge].
      * split; [by apply odict_set_nodup|]. split.
        -- intros c' [Hc'| ->%list_elem_of_singleton]%elem_of_app.
           ++ destruct (Hall c' Hc') as (kept & Hk & Hlen).
              rewrite odict_get_set. case_decide as He.
              ** exists c. split; [done|].
                 rewrite He, Hk in Hold. injection Hold as ->. lia.
              ** by exists kept.
           ++ exists c. rewrite odict_get_set, decide_True by done. done.
        -- intros sid kept. rewrite odict_get_set. case_decide as He.
           ++ intros [= <-]. split; [set_solver|done].
           ++ intros Hk. destruct (Hget _ _ Hk). split; [set_solver|done].
      * split; [done|]. split.
        -- intros c' [Hc'| ->%list_elem_of_singleton]%elem_of_app.
           ++ by apply Hall.
           ++ by exists old.
        -- intros sid kept Hk. destruct (Hget _ _ Hk). split; [set_solver|done].
    + split; [by apply odict_set_nodup|]. split.
      * intros c' [Hc'| ->%list_elem_of_singleton]%elem_of_app.
        -- destruct (Hall c' Hc') as (kept & Hk & Hlen).
           rewrite odict_get_set. case_decide as He; [congruence|].
           by exists kept.
        -- exists c. rewrite odict_get_set, decide_True by done. done.
      * intros sid kept. rewrite odict_get_set. case_decide as He.
        -- intros [= <-]. split; [set_solver|done].
        -- intros Hk. destruct (Hget _ _ Hk). split; [set_solver|done].
Qed.

Lemma filter_iff_in {A} (P1 P2 : A → Prop)
    `{!∀ x, Decision (P1 x), !∀ x, Decision (P2 x)} (l : list A) :
  (∀ x, x ∈ l → P1 x ↔ P2 x) → filter P1 l = filter P2 l.
Proof.
  induction l as [|a l IH]; intros Hiff; [done|].
  rewrite !filter_cons.
  rewrite IH by (intros x Hx; apply Hiff; set_solver).
  destruct (decide (P1 a)) as [H1|H1], (decide (P2 a)) as [H2|H2]; try done.
  - exfalso. apply H2, (Hiff a); [set_solver|done].
  - exfalso. apply H1, (Hiff a); [set_solver|done].
Qed.

Lemma static_index_keys (by_id : ODict.t chunk) :
  ODict.keys (static_index by_id) = catalogue_ids.
Proof. reflexivity. Qed.

Lemma extras_fold_keys (items : ODict.t chunk) (index : ODict.t index_entry) :
  NoDup (ODict.keys items) →
  ODict.keys (fold_left add_extra items index)
  = ODict.keys index
    ++ filter (fun k => k ∉ ODict.keys index) (ODict.keys items).
Proof.
  revert index. induction items as [|[k0 c0] items IH]; intros index Hnd; simpl.
  - by rewrite filter_nil, app_nil_r.
  - unfold ODict.keys in Hnd. simpl in Hnd.
    apply NoDup_cons in Hnd as [Hk0 Hnd].
    rewrite filter_cons.
    destruct (ODict.mem index k0) eqn:Hm.
    + assert (add_extra index (k0, c0) = index) as ->
        by (unfold add_extra; simpl; by rewrite Hm).
      apply odict_mem_keys in Hm.
      rewrite decide_False by (by intros ?). by apply IH.
    + assert (add_extra index (k0, c0)
              = ODict.set index k0 (extra_entry k0 c0)) as ->
        by (unfold add_extra; simpl; by rewrite Hm).
      assert (k0 ∉ ODict.keys index) as Hnin
        by (intros ?%odict_mem_keys; congruence).
      rewrite decide_True by done. rewrite IH by done.
      rewrite odict_keys_set, Hm. rewrite <- app_assoc. simpl.
      do 2 f_equal. apply filter_iff_in. intros k Hk.
      rewrite not_elem_of_app, list_elem_of_singleton.
      split; [tauto|]. intros Hn. split; [done|]. by intros ->.
Qed.

Lemma sections_by_id_nodup (text : string) :
  NoDup (ODict.keys (sections_by_id (build_10k_section_map text))).
Proof.
  unfold build_10k_section_map.
  destruct (_find_item_headings text) as [|h hs]; simpl; [constructor|].
  apply index_chunks_keeps_longest.
Qed.

End SectionIndex.

(** X3: the detected sections have unique ids, and when an id is
    detected several times the section kept for it is one of the detected
    chunks of that id with the longest text: no chunk of the same id has
    a longer text than the kept one. *)
Theorem X_duplicate_heading_keeps_longest (text : string) :
  NoDup (ODict.keys (TextTools.sections_by_id (TextTools.build_10k_section_map text)))
  ∧ (∀ c : TextTools.chunk,
       c ∈ TextTools.chunks (TextTools.build_10k_section_map text) →
       ∃ kept, detected text (TextTools.c_id c) = Some kept
               ∧ (String.length (TextTools.c_text c)
                  ≤ String.length (TextTools.c_text kept))%nat)
  ∧ (∀ (sid : string) (kept : TextTools.chunk),
       detected text sid = Some kept →
       kept ∈ TextTools.chunks (TextTools.build_10k_section_map text)
       ∧ TextTools.c_id kept = sid).
Proof.
  unfold detected, TextTools.build_10k_section_map.
  destruct (TextTools._find_item_headings text) as [|h hs]; simpl.
  - split; [constructor|]. split; [by intros c ?%elem_of_nil|done].
  - apply index_chunks_keeps_longest.
Qed.

(** X3 on the text where "Item 7." appears twice: the section kept is
    the second, longer one. *)
Lemma X_duplicate_heading_keeps_longest_witness :
  TextTools.c_label <$> detected twice_item_7_text "item_7"
  = Some "Item 7. Discussion"
  ∧ ∀ c : TextTools.chunk,
      c ∈ TextTools.chunks (TextTools.build_10k_section_map twice_item_7_text) →
      ∃ kept, detected twice_item_7_text (TextTools.c_id c) = Some kept
              ∧ (String.length (TextTools.c_text c)
                 ≤ String.length (TextTools.c_text kept))%nat.
Proof.
  split; [vm_compute; reflexivity|].
  exact (proj1 (proj2 (X_duplicate_heading_keeps_longest twice_item_7_text))).
Defined.

(** X4: when a heading is detected, the Section Index lists the ids of
    the static catalogue first, in catalogue order, followed by the
    detected ids outside the catalogue in order of detection; no id
    occurs twice. *)
Theorem X_index_key_order (text : string) :
  TextTools._find_item_headings text ≠ [] →
  ODict.keys (TextTools.sections_index (TextTools.build_10k_section_map text))
  = TextTools.catalogue_ids
    ++ filter (fun k => k ∉ TextTools.catalogue_ids)
         (ODict.keys (TextTools.sections_by_id (TextTools.build_10k_section_map text)))
  ∧ NoDup (ODict.keys (TextTools.sections_index
                         (TextTools.build_10k_section_map text))).
Proof.
  intros Hh.
  pose proof (sections_by_id_nodup text) as Hnd.
  revert Hnd. unfold TextTools.build_10k_section_map.
  destruct (TextTools._find_item_headings text) as [|h hs]; [done|].
  cbn [TextTools.sections_index TextTools.sections_by_id]. intros Hnd.
  assert (Hkeys : ODict.keys (TextTools._build_sections_index
                                (TextTools.index_chunks
                                   (TextTools.build_chunks text (h :: hs))))
                  = TextTools.catalogue_ids
                    ++ filter (fun k => k ∉ TextTools.catalogue_ids)
                         (ODict.keys (TextTools.index_chunks
                                        (TextTools.build_chunks text (h :: hs))))).
  { unfold TextTools._build_sections_index.
    rewrite extras_fold_keys by done. by rewrite static_index_keys. }
  split; [done|]. rewrite Hkeys.
  apply NoDup_app. split; [|split].
  - apply (bool_decide_unpack _). vm_compute. exact I.
  - intros k Hk Hin. apply list_elem_of_filter in Hin as [Hn _]. contradiction.
  - by apply NoDup_filter.
Qed.

(** X4 on a text with a heading outside the catalogue. *)
Lemma X_index_key_order_witness :
  ODict.keys (TextTools.sections_index
                (TextTools.build_10k_section_map extra_item_text))
  = TextTools.catalogue_ids ++ ["item_17"].
Proof.
  rewrite (proj1 (X_index_key_order extra_item_text
                    ltac:(vm_compute; discriminate))).
  vm_compute. reflexivity.
Defined.

(* ===================================================================== *)
(** * Further properties of the valuation                                 *)
(* ===================================================================== *)

Section Valuation.
Import ValuationAgent.



End Valuation.



(** X6: the valuation snapshot is consistent with its own inputs: the
    market capitalisation is price times shares when both are known; P/E
    is market capitalisation over net income, known only for a non-zero
    net income; FCF yield is free cash flow over market capitalisation,
    known only when both are non-zero (a free cash flow of exactly zero
    gives no yield rather than a yield of zero), whatever net income is;
    the capitalisation in millions is the capitalisation divided by
    1,000,000. *)
Theorem X_valuation_ratios (st : ValuationAgent.state) (key : string) :
  let vm := ValuationAgent.valuation_for st key in
  let metrics := ValuationAgent.key_metrics st key in
  ValuationAgent.vm_market_cap vm
  = match ValuationAgent.vm_current_price vm, ValuationAgent.vm_shares vm with
    | Some p, Some s => Some (p * s)%Q
    | _, _ => None
    end
  ∧ ValuationAgent.vm_pe vm
    = spec_ratio (ValuationAgent.vm_market_cap vm)
        (ValuationAgent.get metrics "net_income")
  ∧ ValuationAgent.vm_fcf_yield vm
    = match ValuationAgent.get metrics "fcf" with
      | Some f =>
          if Qeq_dec f 0 then None
          else spec_ratio (Some f) (ValuationAgent.vm_market_cap vm)
      | None => None
      end
  ∧ ValuationAgent.vm_market_cap_millions vm
    = (fun mc => (mc / 1000000)%Q) <$> ValuationAgent.vm_market_cap vm
  ∧ ValuationAgent.vm_revenue vm = ValuationAgent.get metrics "revenue"
  ∧ ValuationAgent.vm_key_period vm = Some key.
Proof.
  intros vm metrics. unfold vm, ValuationAgent.valuation_for. simpl.
  fold metrics.
  set (mc := match _, _ with | Some p, Some s => Some (p * s)%Q | _, _ => None end).
  split; [done|]. split; [|split; [|split; [|done]]].
  - unfold spec_ratio, PyFloat.truthy.
    destruct mc as [m|], (ValuationAgent.get metrics "net_income") as [ni|];
      try done.
    destruct (Qeq_dec ni 0) as [Hz|Hz].
    + apply eqb_zero in Hz. by rewrite Hz.
    + destruct (PyFloat.eqb ni 0) eqn:E; [|done].
      apply eqb_zero in E. contradiction.
  - unfold spec_ratio, PyFloat.truthy.
    destruct (ValuationAgent.get metrics "fcf") as [f|]; [|by destruct mc].
    destruct mc as [m|]; [|by destruct (Qeq_dec f 0)].
    destruct (Qeq_dec f 0) as [Hf|Hf].
    + apply eqb_zero in Hf. by rewrite Hf.
    + destruct (PyFloat.eqb f 0) eqn:Ef; [apply eqb_zero in Ef; contradiction|].
      simpl. destruct (Qeq_dec m 0) as [Hm|Hm].
      * apply eqb_zero in Hm. by rewrite Hm.
      * destruct (PyFloat.eqb m 0) eqn:Em; [|done].
        apply eqb_zero in Em. contradiction.
  - by destruct mc.
Qed.

(** X7: [ValuationAgent] values the key period of the state when the
    state names one, else the last available period; with neither it
    yields the snapshot whose fields are all [None].  It never raises. *)
Theorem X_valuation_key_period (st : ValuationAgent.state) :
  ∃ vm,
    ValuationAgent._run_async_impl st = Yield vm
    ∧ ValuationAgent.vm_key_period vm
      = PyStr.or_else (ValuationAgent.key_period st)
          (last (default [] (ValuationAgent.available_periods st)))
    ∧ (ValuationAgent.vm_key_period vm = None →
       vm = ValuationAgent.no_periods_metrics)
    ∧ (∀ key, ValuationAgent.vm_key_period vm = Some key →
       vm = ValuationAgent.valuation_for st key).
Proof.
  unfold ValuationAgent._run_async_impl.
  destruct (ValuationAgent.key_period st) as [kp|]; simpl.
  - destruct (PyStr.truthy kp) eqn:Ht.
    + eexists. split; [done|]. simpl. split; [done|]. split; [done|].
      by intros key [= ->].
    + destruct (last _) as [key|]; eexists; (split; [done|]); simpl.
      * split; [done|]. split; [done|]. by intros key' [= ->].
      * split; [done|]. split; [done|]. done.
  - destruct (last _) as [key|]; eexists; (split; [done|]); simpl.
    + split; [done|]. split; [done|]. by intros key' [= ->].
    + split; [done|]. split; [done|]. done.
Qed.

(** X7 on a state without key period and with one available period. *)
Lemma X_valuation_key_period_witness :
  ∃ vm,
    ValuationAgent._run_async_impl weighted_shares_state = Yield vm
    ∧ ValuationAgent.vm_key_period vm = Some "2022-09-24"
    ∧ ValuationAgent.vm_shares_source vm = Some "weighted_avg_shares_diluted"
    ∧ ValuationAgent.vm_market_cap vm = Some (10 * 100)%Q.
Proof.
  destruct (X_valuation_key_period weighted_shares_state)
    as (vm & Hrun & Hkey & _ & Hval).
  exists vm. split; [exact Hrun|].
  assert (Hk : ValuationAgent.vm_key_period vm = Some "2022-09-24")
    by (rewrite Hkey; vm_compute; reflexivity).
  split; [exact Hk|].
  rewrite (Hval "2022-09-24" Hk). split; vm_compute; reflexivity.
Defined.

(* ===================================================================== *)
(** * Further properties of the metrics agent                             *)
(* ===================================================================== *)

Section AgentRun.
Import FinancialAgent.

Lemma period_metrics_dom facts fm prev period :
  dom (period_metrics facts fm prev period)
  = match prev with
    | Some _ => base_keys ∪ growth_keys
    | None => base_keys
    end.
Proof.
  unfold period_metrics, base_keys, growth_keys.
  destruct prev; rewrite !dom_insert_L, dom_empty_L; set_solver.
Qed.

Lemma fold_step_dom facts (l : list string)
    (acc : gmap string (gmap string (option Q)) * option string) :
  dom (fold_left (period_step facts) l acc).1 = list_to_set l ∪ dom acc.1.
Proof.
  revert acc. induction l as [|x l IH]; intros acc; simpl; [set_solver|].
  rewrite IH. simpl. rewrite dom_insert_L. set_solver.
Qed.

Lemma build_metrics_dom facts (periods : list string) :
  dom (build_metrics facts periods) = list_to_set periods.
Proof.
  unfold build_metrics. rewrite fold_step_dom. simpl.
  rewrite dom_empty_L. set_solver.
Qed.

Lemma growth_key_endswith (k : string) :
  k ∈ growth_keys → PyStr.endswith "_growth" k = true.
Proof.
  unfold growth_keys. rewrite !elem_of_union, !elem_of_singleton.
  intros [[[-> | ->] | ->] | ->]; reflexivity.
Qed.

Lemma base_key_not_endswith (k : string) :
  k ∈ base_keys → PyStr.endswith "_growth" k = false.
Proof.
  unfold base_keys. rewrite !elem_of_union, !elem_of_singleton.
  intros H. repeat (destruct H as [H | ->]; [|reflexivity]). by subst.
Qed.

End AgentRun.

(** X8: with at least one available period [FinancialAgent] yields; its
    key period is the last available period; [financial_metrics] has an
    entry for exactly the available periods; every entry has all eleven
    base keys (a missing input shows as [None] under its key) and beyond
    them at most the four growth keys; [latest_metrics] is the entry of
    the key period and [yoy_metrics] consists of exactly its growth
    entries. *)
Theorem X_financial_agent_run (st : FinancialAgent.state) :
  default [] (FinancialAgent.available_periods st) ≠ [] →
  ∃ d,
    FinancialAgent._run_async_impl st = Yield d
    ∧ last (default [] (FinancialAgent.available_periods st))
      = Some (FinancialAgent.key_period d)
    ∧ dom (FinancialAgent.financial_metrics d)
      = list_to_set (default [] (FinancialAgent.available_periods st))
    ∧ FinancialAgent.financial_metrics d !! FinancialAgent.key_period d
      = Some (FinancialAgent.latest_metrics d)
    ∧ (∀ (p : string) (m : gmap string (option Q)),
         FinancialAgent.financial_metrics d !! p = Some m →
         base_keys ⊆ dom m ∧ dom m ⊆ base_keys ∪ growth_keys)
    ∧ (∀ k : string,
         FinancialAgent.yoy_metrics d !! k
         = if decide (k ∈ growth_keys)
           then FinancialAgent.latest_metrics d !! k else None).
Proof.
  intros Hne. unfold FinancialAgent._run_async_impl.
  set (facts := default ∅ (FinancialAgent.financials_raw st)).
  set (periods := default [] (FinancialAgent.available_periods st)) in *.
  destruct (last periods) as [key|] eqn:Hlast;
    [|by apply last_None in Hlast].
  assert (Hvals : ∀ p m, FinancialAgent.build_metrics facts periods !! p = Some m →
            base_keys ⊆ dom m ∧ dom m ⊆ base_keys ∪ growth_keys).
  { intros p m Hm.
    assert (p ∈ periods) as Hin.
    { apply (elem_of_list_to_set (C := gset string)).
      rewrite <- (build_metrics_dom facts periods). apply elem_of_dom. eauto. }
    destruct (build_metrics_elem facts periods p Hin) as (fm & prev & Hb).
    rewrite Hb in Hm. injection Hm as <-.
    rewrite period_metrics_dom. destruct prev; set_solver. }
  assert (Hkey : is_Some (FinancialAgent.build_metrics facts periods !! key)).
  { apply elem_of_dom. rewrite build_metrics_dom.
    apply elem_of_list_to_set. by apply last_Some_elem_of. }
  destruct Hkey as [latest Hlatest].
  eexists. split; [done|]. cbn [FinancialAgent.key_period
    FinancialAgent.financial_metrics FinancialAgent.latest_metrics
    FinancialAgent.yoy_metrics].
  rewrite Hlatest. change (default ∅ (Some latest)) with latest.
  split; [done|]. split; [apply build_metrics_dom|]. split; [done|].
  split; [exact Hvals|].
  intros k. destruct (Hvals key latest Hlatest) as [Hb Hg].
  case_decide as Hgk.
  - destruct (latest !! k) as [x|] eqn:Hk.
    + apply map_lookup_filter_Some_2; [done|].
      by apply growth_key_endswith.
    + apply map_lookup_filter_None_2. by left.
  - apply map_lookup_filter_None_2. right. intros x Hk. simpl.
    assert (k ∈ dom latest) as Hd by (apply elem_of_dom; eauto).
    assert (k ∈ base_keys) as Hbk by set_solver.
    rewrite (base_key_not_endswith k Hbk). done.
Qed.

(** X8 on the run over the periods of the growth example. *)
Lemma X_financial_agent_run_witness :
  ∃ d,
    FinancialAgent._run_async_impl two_period_state = Yield d
    ∧ FinancialAgent.key_period d = "2022-09-24"
    ∧ dom (FinancialAgent.financial_metrics d)
      = list_to_set ["2021-09-25"; "2022-09-24"].
Proof.
  destruct (X_financial_agent_run two_period_state
              ltac:(vm_compute; discriminate))
    as (d & Hrun & Hkey & Hdom & _).
  exists d. split; [exact Hrun|]. split; [|exact Hdom].
  change (Some "2022-09-24" = Some (FinancialAgent.key_period d)) in Hkey.
  congruence.
Defined.

(* ===================================================================== *)
(** * Sorted periods                                                      *)
(* ===================================================================== *)

Section SortedPeriods.

Lemma str_leb_trans (a b c : string) :
  String.leb a b = true → String.leb b c = true → String.leb a c = true.
Proof.
  unfold String.leb. revert b c.
  induction a as [|x a IH]; intros [|y b] [|z c]; simpl; try done.
  unfold Ascii.compare.
  destruct (N.compare_spec (N_of_ascii x) (N_of_ascii y)) as [Hxy|Hxy|Hxy];
    destruct (N.compare_spec (N_of_ascii y) (N_of_ascii z)) as [Hyz|Hyz|Hyz];
    destruct (N.compare_spec (N_of_ascii x) (N_of_ascii z)) as [Hxz|Hxz|Hxz];
    try done; try lia.
  apply IH.
Qed.

Lemma insert_str_perm (x : string) (l : list string) :
  PySort.insert_str x l ≡ₚ x :: l.
Proof.
  induction l as [|y l IH]; simpl; [done|].
  destruct (String.leb x y); [done|].
  rewrite IH. apply Permutation_swap.
Qed.

Lemma sorted_perm (l : list string) : PySort.sorted l ≡ₚ l.
Proof.
  unfold PySort.sorted. induction l as [|x l IH]; simpl; [done|].
  by rewrite insert_str_perm, IH.
Qed.

Lemma insert_str_sorted (x : string) (l : list string) :
  StronglySorted str_le l → StronglySorted str_le (PySort.insert_str x l).
Proof.
  induction 1 as [|y l Hl IH Hy]; simpl.
  - repeat constructor.
  - destruct (String.leb x y) eqn:E.
    + constructor; [by constructor|].
      constructor; [done|].
      eapply Forall_impl; [exact Hy|].
      intros z Hz. by apply str_leb_trans with y.
    + assert (str_le y x) as Hyx
        by (destruct (String.leb_total x y); [congruence|done]).
      constructor; [done|].
      rewrite insert_str_perm. by constructor.
Qed.

Lemma sorted_sorted (l : list string) : StronglySorted str_le (PySort.sorted l).
Proof.
  unfold PySort.sorted. induction l as [|x l IH]; simpl; [constructor|].
  by apply insert_str_sorted.
Qed.

(** The last element of a sorted list is its greatest. *)
Lemma sorted_last_max (l : list string) (x y : string) :
  StronglySorted str_le l → last l = Some x → y ∈ l → str_le y x.
Proof.
  intros Hs Hl Hy. apply last_Some in Hl as [l' ->].
  apply elem_of_app in Hy as [Hy| ->%list_elem_of_singleton].
  - apply (StronglySorted_app_1_elem_of _ l' [x]); [done|done|set_solver].
  - unfold str_le, String.leb.
    destruct (String.compare x x) eqn:E; try done.
    pose proof (String.compare_antisym x x) as Ha. rewrite E in Ha. done.
Qed.

Lemma period_set_elem (facts : gmap string (gmap string Q)) (p : string) :
  p ∈ PySort.period_set facts
  ↔ ∃ metric pm, facts !! metric = Some pm ∧ is_Some (pm !! p).
Proof.
  unfold PySort.period_set.
  apply (map_fold_weak_ind
           (fun (s : gset string) (m : gmap string (gmap string Q)) =>
              p ∈ s ↔ ∃ metric pm, m !! metric = Some pm ∧ is_Some (pm !! p))).
  - split; [set_solver|]. intros (metric & pm & Hm & _).
    by rewrite lookup_empty in Hm.
  - intros k pm m s Hk IH. rewrite elem_of_union, IH, elem_of_dom. split.
    + intros [(metric & pm' & Hm & Hp)|Hp].
      * exists metric, pm'. split; [|done].
        rewrite lookup_insert_ne; [done|]. intros ->. congruence.
      * exists k, pm. by rewrite lookup_insert_eq.
    + intros (metric & pm' & Hm & Hp).
      destruct (decide (k = metric)) as [->|Hne].
      * rewrite lookup_insert_eq in Hm. injection Hm as <-. by right.
      * rewrite lookup_insert_ne in Hm by done. left. eauto.
Qed.

End SortedPeriods.

(** X9: the list of available periods that [ExtractionAgent] writes to
    the state is in ascending order, has no duplicates and holds exactly
    the periods that some metric of the Fact Table reports. *)
Theorem X_available_periods (facts : gmap string (gmap string Q)) :
  StronglySorted str_le (ExtractionAgent.available_periods facts)
  ∧ NoDup (ExtractionAgent.available_periods facts)
  ∧ ∀ p : string,
      p ∈ ExtractionAgent.available_periods facts ↔ reported facts p.
Proof.
  unfold ExtractionAgent.available_periods. split; [apply sorted_sorted|].
  split.
  - rewrite sorted_perm. apply NoDup_elements.
  - intros p. rewrite sorted_perm, elem_of_elements. apply period_set_elem.
Qed.

(** X9 on a Fact Table whose metrics cover different periods. *)
Lemma X_available_periods_witness :
  ExtractionAgent.available_periods staggered_facts
  = ["2020-09-26"; "2021-09-25"; "2022-09-24"]
  ∧ ("2021-09-25" ∈ ExtractionAgent.available_periods staggered_facts
     ↔ reported staggered_facts "2021-09-25").
Proof.
  split; [vm_compute; reflexivity|].
  apply (proj2 (proj2 (X_available_periods staggered_facts))).
Defined.

Section CoreMetrics.
Import FinancialCalcs.

Lemma fold_insert_fun {V} (f : string → V) (l : list string)
    (m : gmap string V) (p : string) :
  fold_left (fun acc x => <[x := f x]> acc) l m !! p
  = if decide (p ∈ l) then Some (f p) else m !! p.
Proof.
  revert m. induction l as [|x l IH]; intros m.
  - case_decide as Hin; [by apply elem_of_nil in Hin|done].
  - cbn [fold_left]. rewrite IH. destruct (decide (p ∈ l)) as [Hin|Hnin].
    + by rewrite decide_True by set_solver.
    + destruct (decide (p = x)) as [->|Hne].
      * rewrite decide_True by set_solver. by rewrite lookup_insert_eq.
      * rewrite decide_False by set_solver. by rewrite lookup_insert_ne.
Qed.

Lemma yoy_dom per_period (periods : list string) :
  dom (_compute_yoy_growth per_period periods) = growth_keys.
Proof.
  unfold _compute_yoy_growth, metrics_to_track, growth_keys. simpl.
  rewrite !dom_insert_L, dom_empty_L. set_solver.
Qed.

End CoreMetrics.

(** X10: [compute_core_metrics] lists the periods some metric reports,
    in ascending order and without duplicates; [per_period] has an entry
    for exactly these periods, the one [_compute_metrics_for_period]
    computes; and [yoy] always has the four growth keys, also for an
    empty Fact Table. *)
Theorem X_core_metrics_shape (facts : gmap string (gmap string Q)) :
  let cm := FinancialCalcs.compute_core_metrics facts in
  StronglySorted str_le (FinancialCalcs.cm_periods cm)
  ∧ NoDup (FinancialCalcs.cm_periods cm)
  ∧ (∀ p : string, p ∈ FinancialCalcs.cm_periods cm ↔ reported facts p)
  ∧ (∀ p : string,
       FinancialCalcs.cm_per_period cm !! p
       = if decide (p ∈ FinancialCalcs.cm_periods cm)
         then Some (FinancialCalcs._compute_metrics_for_period facts p)
         else None)
  ∧ dom (FinancialCalcs.cm_yoy cm) = growth_keys.
Proof.
  unfold FinancialCalcs.compute_core_metrics.
  cbn [FinancialCalcs.cm_periods FinancialCalcs.cm_per_period
       FinancialCalcs.cm_yoy].
  unfold FinancialCalcs._collect_all_periods.
  split; [apply sorted_sorted|]. split; [|split; [|split]].
  - rewrite sorted_perm. apply NoDup_elements.
  - intros p. rewrite sorted_perm, elem_of_elements. apply period_set_elem.
  - intros p.
    rewrite (fold_insert_fun (FinancialCalcs._compute_metrics_for_period facts)).
    by rewrite lookup_empty.
  - apply yoy_dom.
Qed.

(** X10 on a Fact Table whose metrics cover different periods. *)
Lemma X_core_metrics_shape_witness :
  FinancialCalcs.cm_periods (FinancialCalcs.compute_core_metrics staggered_facts)
  = ["2020-09-26"; "2021-09-25"; "2022-09-24"]
  ∧ ("2021-09-25"
       ∈ FinancialCalcs.cm_periods (FinancialCalcs.compute_core_metrics staggered_facts)
     ↔ reported staggered_facts "2021-09-25").
Proof.
  split; [vm_compute; reflexivity|].
  apply (proj1 (proj2 (proj2 (X_core_metrics_shape staggered_facts)))).
Defined.

Section CalcsEntries.
Import FinancialCalcs.

Lemma set_if_lookup_eq key x (result : gmap string Q) :
  set_if key x result !! key
  = match x with Some v => Some v | None => result !! key end.
Proof. destruct x; simpl; [by rewrite lookup_insert_eq|done]. Qed.

Ltac calcs_lookup :=
  unfold _compute_metrics_for_period;
  repeat case_match;
  repeat first
    [ rewrite lookup_insert_eq
    | rewrite lookup_insert_ne by discriminate
    | rewrite set_if_lookup_eq
    | rewrite set_if_lookup_ne by discriminate
    | rewrite lookup_empty ];
  try reflexivity; try congruence;
  try (repeat case_match; congruence).

Lemma calcs_base_entries facts period :
  _compute_metrics_for_period facts period !! "revenue"
  = calcs_revenue facts period
  ∧ _compute_metrics_for_period facts period !! "net_income"
    = _get_value facts "net_income" period
  ∧ _compute_metrics_for_period facts period !! "operating_cash_flow"
    = _get_value facts "operating_cash_flow" period
  ∧ _compute_metrics_for_period facts period !! "capital_expenditures"
    = _get_value facts "capital_expenditures" period.
Proof.
  unfold calcs_revenue. repeat split; calcs_lookup.
Qed.

Lemma calcs_derived_entries facts period :
  _compute_metrics_for_period facts period !! "fcf"
  = match _get_value facts "operating_cash_flow" period,
          _get_value facts "capital_expenditures" period with
    | Some o, Some c => Some (o - c)%Q
    | _, _ => None
    end
  ∧ _compute_metrics_for_period facts period !! "gross_profit"
    = match calcs_revenue facts period,
            _get_value facts "cost_of_sales" period with
      | Some r, Some c => Some (r - c)%Q
      | _, _ => None
      end
  ∧ _compute_metrics_for_period facts period !! "operating_income"
    = match calcs_revenue facts period,
            _get_value facts "operating_income" period with
      | Some _, Some oi => Some oi
      | _, _ => None
      end.
Proof.
  unfold calcs_revenue. repeat split; calcs_lookup.
Qed.

End CalcsEntries.

(** X11: in [financial_calcs] the entry of a period copies revenue, net
    income, operating cash flow and capital expenditures when present;
    [net_sales] takes precedence over [revenue] as the top line; free
    cash flow is operating cash flow minus capital expenditures and
    gross profit is revenue minus cost of sales, each present only when
    both inputs are; operating income is reported only when revenue is
    present as well. *)
Theorem X_calcs_period_entries
    (facts : gmap string (gmap string Q)) (period : string) :
  let m := FinancialCalcs._compute_metrics_for_period facts period in
  let value := fun metric => FinancialCalcs._get_value facts metric period in
  m !! "revenue"
  = match value "net_sales" with
    | Some v => Some v
    | None => value "revenue"
    end
  ∧ m !! "net_income" = value "net_income"
  ∧ m !! "operating_cash_flow" = value "operating_cash_flow"
  ∧ m !! "capital_expenditures" = value "capital_expenditures"
  ∧ m !! "fcf"
    = match value "operating_cash_flow", value "capital_expenditures" with
      | Some o, Some c => Some (o - c)%Q
      | _, _ => None
      end
  ∧ m !! "gross_profit"
    = match m !! "revenue", value "cost_of_sales" with
      | Some r, Some c => Some (r - c)%Q
      | _, _ => None
      end
  ∧ m !! "operating_income"
    = match m !! "revenue", value "operating_income" with
      | Some _, Some oi => Some oi
      | _, _ => None
      end.
Proof.
  intros m value. unfold m, value.
  destruct (calcs_base_entries facts period) as (Hr & Hn & Ho & Hc).
  destruct (calcs_derived_entries facts period) as (Hf & Hg & Hoi).
  rewrite Hr, Hn, Ho, Hc, Hf, Hg, Hoi.
  repeat split. unfold calcs_revenue. simpl.
  by destruct (FinancialCalcs._get_value facts "net_sales" period),
              (FinancialCalcs._get_value facts "revenue" period).
Qed.

(* ===================================================================== *)
(** * Tokens and scores                                                   *)
(* ===================================================================== *)

Section Tokens.
Import QaAgent PyStr.

Lemma sub_other_chars (in_run : bool) (s : string) :
  Forall (fun c => is_lower_alnum c = true ∨ is_space c = true)
    (list_ascii_of_string (sub_other in_run s)).
Proof.
  revert in_run. induction s as [|c s IH]; intros in_run; simpl; [constructor|].
  destruct (is_lower_alnum c || is_space c) eqn:E.
  - simpl. constructor; [|apply IH].
    apply orb_true_iff in E. tauto.
  - destruct in_run; [apply IH|].
    simpl. constructor; [by right | apply IH].
Qed.

Lemma split_ws_tokens (P : ascii → Prop) (cur : list ascii) (s : string) :
  Forall P cur →
  Forall (fun c => is_space c = false → P c) (list_ascii_of_string s) →
  ∀ t, t ∈ split_ws cur s →
       t ≠ EmptyString ∧ Forall P (list_ascii_of_string t).
Proof.
  revert cur. induction s as [|c s IH]; intros cur Hcur Hs t; simpl.
  - destruct cur as [|a cur]; [by intros ?%elem_of_nil|].
    intros ->%list_elem_of_singleton.
    rewrite list_ascii_of_string_of_list_ascii. split.
    + intros He. apply (f_equal list_ascii_of_string) in He.
      rewrite list_ascii_of_string_of_list_ascii in He. simpl in He.
      by destruct (List.rev cur).
    + apply Forall_forall. intros x Hx. rewrite Forall_forall in Hcur.
      apply Hcur. apply list_elem_of_In in Hx. apply in_rev in Hx.
      by apply list_elem_of_In.
  - simpl in Hs. apply Forall_cons in Hs as [Hc Hs].
    destruct (is_space c) eqn:Esp.
    + destruct cur as [|a cur].
      * by apply IH.
      * intros [->|Hin]%elem_of_cons; [|by apply (IH [])].
        rewrite list_ascii_of_string_of_list_ascii. split.
        -- intros He. apply (f_equal list_ascii_of_string) in He.
           rewrite list_ascii_of_string_of_list_ascii in He. simpl in He.
           by destruct (List.rev cur).
        -- apply Forall_forall. intros x Hx. rewrite Forall_forall in Hcur.
           apply Hcur. apply list_elem_of_In in Hx. apply in_rev in Hx.
           by apply list_elem_of_In.
    + apply IH; [|done]. constructor; [by apply Hc|done].
Qed.

Lemma lower_char_idemp (c : ascii) : lower_char (lower_char c) = lower_char c.
Proof. by destruct c as [[] [] [] [] [] [] [] []]. Qed.

Lemma lower_idemp (s : string) : lower (lower s) = lower s.
Proof.
  induction s as [|c s IH]; simpl; [done|]. by rewrite lower_char_idemp, IH.
Qed.

End Tokens.

(** X12: every token of [_normalize_text] is non-empty and consists of
    the characters a-z and 0-9 only, and the tokens of a text do not
    depend on its letter case. *)
Theorem X_tokens_lowercase_alphanumeric (text : string) :
  (∀ t : string,
     t ∈ QaAgent._normalize_text text →
     t ≠ EmptyString ∧ all_chars PyStr.is_lower_alnum t)
  ∧ QaAgent._normalize_text (PyStr.lower text) = QaAgent._normalize_text text.
Proof.
  split.
  - intros t Hin. unfold QaAgent._normalize_text in Hin.
    apply list_elem_of_filter in Hin as [_ Hin].
    apply (split_ws_tokens (fun c => PyStr.is_lower_alnum c = true)) in Hin;
      [done|constructor|].
    eapply Forall_impl; [apply sub_other_chars|].
    intros c [Ha|Hs] Hns; [done|congruence].
  - unfold QaAgent._normalize_text. by rewrite lower_idemp.
Qed.

(** X12 on a question with capitals and punctuation. *)
Lemma X_tokens_lowercase_alphanumeric_witness :
  QaAgent._normalize_text "What's the R&D spend?"
  = ["what"; "s"; "the"; "r"; "d"; "spend"]
  ∧ "spend" ≠ EmptyString ∧ all_chars PyStr.is_lower_alnum "spend".
Proof.
  split; [vm_compute; reflexivity|].
  apply (proj1 (X_tokens_lowercase_alphanumeric "What's the R&D spend?")).
  vm_compute. set_solver.
Defined.

Section Scores.
Import QaAgent.

Lemma inject_nat_div_bounds (n m : nat) :
  (n ≤ m)%nat → (0 < m)%nat →
  (0 <= inject_Z (Z.of_nat n) / inject_Z (Z.of_nat m))%Q
  ∧ (inject_Z (Z.of_nat n) / inject_Z (Z.of_nat m) <= 1)%Q.
Proof.
  intros Hle Hpos.
  assert (0 < inject_Z (Z.of_nat m))%Q as Hm
    by (change 0%Q with (inject_Z 0); rewrite <- Zlt_Qlt; lia).
  split.
  - apply Qle_shift_div_l; [done|]. rewrite Qmult_0_l.
    change 0%Q with (inject_Z 0). rewrite <- Zle_Qle. lia.
  - apply Qle_shift_div_r; [done|]. rewrite Qmult_1_l.
    rewrite <- Zle_Qle. lia.
Qed.

End Scores.

(** X13: the lexical score of a section lies between 0 and 1, and for a
    section with tokens it is 1 exactly when the question has a token
    and every token of the question is a token of the section. *)
Theorem X_score_bounds (question : string) (m : QaAgent.section) :
  (0 <= QaAgent._score_section_for_question question m)%Q
  ∧ (QaAgent._score_section_for_question question m <= 1)%Q
  ∧ ((QaAgent._score_section_for_question question m == 1)%Q
     ↔ question_tokens question ≠ ∅
       ∧ question_tokens question ⊆ QaAgent.section_tokens m).
Proof.
  unfold QaAgent._score_section_for_question. fold (question_tokens question).
  set (q := question_tokens question). set (s := QaAgent.section_tokens m).
  assert (Hsz : (size (q ∩ s) ≤ size q)%nat)
    by (apply subseteq_size; set_solver).
  destruct (bool_decide (s = ∅)) eqn:Hs.
  - apply bool_decide_eq_true in Hs.
    split; [done|]. split; [done|]. split; [done|].
    intros [Hq Hsub]. exfalso. apply Hq. rewrite Hs in Hsub. set_solver.
  - destruct (inject_nat_div_bounds (size (q ∩ s)) (Nat.max (size q) 1))
      as [H0 H1]; [lia|lia|].
    split; [done|]. split; [done|].
    assert (Hm : (0 < inject_Z (Z.of_nat (Nat.max (size q) 1)))%Q)
      by (change 0%Q with (inject_Z 0); rewrite <- Zlt_Qlt; lia).
    split.
    + intros Heq.
      assert (Hn : size (q ∩ s) = Nat.max (size q) 1).
      { apply Nat2Z.inj, inject_Z_injective.
        apply (Qmult_inj_r _ _ (/ inject_Z (Z.of_nat (Nat.max (size q) 1)))).
        - intros Hz. apply Qinv_lt_0_compat in Hm. rewrite Hz in Hm.
          by apply Qlt_irrefl in Hm.
        - rewrite Qmult_inv_r by (intros Hz; rewrite Hz in Hm; by apply Qlt_irrefl in Hm).
          exact Heq. }
      assert (size q ≠ 0)%nat as Hq0 by lia.
      split.
      * intros He. rewrite He, size_empty in Hq0. done.
      * assert (q ∩ s = q) as Heqv.
        { apply set_subseteq_size_eq; [set_solver|lia]. }
        set_solver.
    + intros [Hq Hsub].
      assert (q ∩ s = q) as -> by set_solver.
      assert (size q ≠ 0)%nat as Hq0
        by (by intros ?%size_empty_inv%leibniz_equiv).
      rewrite Nat.max_l by lia. unfold Qdiv.
      apply Qmult_inv_r. intros Hz.
      assert (0 < inject_Z (Z.of_nat (size q)))%Q as Hp
        by (change 0%Q with (inject_Z 0); rewrite <- Zlt_Qlt; lia).
      rewrite Hz in Hp. by apply Qlt_irrefl in Hp.
Qed.

(* ===================================================================== *)
(** * Properties of intent detection and of the section filter           *)
(* ===================================================================== *)

Section Intents.
Import QaAgent.

Lemma rule_based_intents (question : option string) :
  _detect_intents_rule_based question ≠ ∅
  ∧ _detect_intents_rule_based question ⊆ allowed_intents.
Proof.
  unfold _detect_intents_rule_based, add_if_any, allowed_intents.
  destruct (any_keyword financial_words _), (any_keyword risk_words _),
    (any_keyword mdna_words _), (any_keyword memo_words _);
    case_bool_decide; set_solver.
Qed.

Lemma refine_intents (llm_reply : option (list string)) (rule : gset string) :
  rule ≠ ∅ → rule ⊆ allowed_intents →
  _refine_intents_with_llm llm_reply rule ≠ ∅
  ∧ _refine_intents_with_llm llm_reply rule ⊆ allowed_intents
  ∧ rule ⊆ _refine_intents_with_llm llm_reply rule.
Proof.
  intros Hne Hsub. destruct llm_reply as [raw|]; simpl; [|done].
  assert (Hl : (list_to_set (filter (fun i => i ∈ allowed_intents) raw) : gset string)
               ⊆ allowed_intents).
  { intros x Hx. apply elem_of_list_to_set in Hx.
    by apply list_elem_of_filter in Hx as [Hx _]. }
  case_bool_decide as Hc; [set_solver|].
  split; [done|]. split; set_solver.
Qed.

Lemma wanted_types_spec (intents : gset string) :
  wanted_types intents = intents ∩ typed_intents.
Proof.
  unfold wanted_types, typed_intents.
  repeat case_bool_decide; set_solver.
Qed.

Lemma filter_loop_yield (wanted : gset string)
    (items filtered : ODict.t filter_value) :
  NoDup (ODict.keys (filtered ++ items)) →
  (∀ sid, (sid, FOther) ∉ items) →
  filter_loop wanted items filtered
  = Yield (filtered ++ filter (fun item => kept_by wanted item) items).
Proof.
  unfold ODict.t in *.
  revert filtered. induction items as [|[sid meta] items IH];
    intros filtered Hnd Hno; cbn [filter_loop].
  - by rewrite app_nil_r.
  - assert (Hno' : ∀ s, (s, FOther) ∉ items) by (intros s Hs; apply (Hno s); set_solver).
    assert (Hnd' : NoDup (ODict.keys (filtered ++ items))).
    { unfold ODict.keys in *. rewrite map_app in *. simpl in Hnd.
      apply NoDup_app in Hnd as (H1 & H2 & H3). apply NoDup_cons in H3 as [H3 H4].
      apply NoDup_app. split; [done|]. split; [|done].
      intros x Hx Hx'. apply (H2 x Hx). set_solver. }
    assert (Hfresh : sid ∉ ODict.keys filtered).
    { unfold ODict.keys in *. rewrite map_app in Hnd. simpl in Hnd.
      apply NoDup_app in Hnd as (_ & H2 & _). intros Hin. apply (H2 sid Hin). set_solver. }
    rewrite filter_cons.
    destruct meta as [i [ty|]| |].
    + case_bool_decide as Hty.
      * rewrite decide_True by (by apply bool_decide_pack).
        rewrite odict_set_fresh by done. rewrite IH.
        -- by rewrite <- app_assoc.
        -- by rewrite <- app_assoc.
        -- done.
      * rewrite decide_False by (by intros ?%bool_decide_unpack).
        by apply IH.
    + rewrite decide_False by (by intros []). by apply IH.
    + rewrite decide_False by (by intros []). by apply IH.
    + exfalso. apply (Hno sid). set_solver.
Qed.

Lemma filter_loop_raise (wanted : gset string)
    (items filtered : ODict.t filter_value) :
  (∃ e, filter_loop wanted items filtered = Raise e)
  ↔ ∃ sid, (sid, FOther) ∈ items.
Proof.
  revert filtered. induction items as [|[sid meta] items IH]; intros filtered; simpl.
  - split; [by intros [e ?]|]. intros [sid Hin]. by apply elem_of_nil in Hin.
  - destruct meta as [i [ty|]| |].
    + destruct (bool_decide (ty ∈ wanted)); rewrite IH; set_solver.
    + rewrite IH; set_solver.
    + rewrite IH; set_solver.
    + split; [|by eexists]. intros _. exists sid. set_solver.
Qed.

Lemma normalize_fold_values (l : list filter_value) (acc : ODict.t filter_value) :
  (∀ sid, (sid, FOther) ∉ acc) →
  ∀ sid, (sid, FOther) ∉ fold_left normalize_step l acc.
Proof.
  revert acc. induction l as [|e l IH]; intros acc Hacc; simpl; [done|].
  apply IH. intros sid Hin. destruct e as [[s|] ty| |]; simpl in Hin;
    try by apply (Hacc sid).
  destruct (PyStr.truthy s); [|by apply (Hacc sid)].
  apply odict_set_elem in Hin as [?|Hin]; [done|by apply (Hacc sid)].
Qed.

Lemma normalize_fold_get (l : list filter_value) (acc : ODict.t filter_value)
    (sid : string) :
  ODict.get (fold_left normalize_step l acc) sid
  = if PyStr.truthy sid
    then from_option Some (ODict.get acc sid) (last (filter (fun e => has_id sid e) l))
    else ODict.get acc sid.
Proof.
  revert acc. induction l as [|e l IH]; intros acc; cbn [fold_left].
  - by destruct (PyStr.truthy sid).
  - rewrite IH, filter_cons.
    destruct e as [[s|] ty| |]; cbn [normalize_step has_id].
    + destruct (String.eqb_spec s sid) as [->|Hne].
      * rewrite decide_True by exact I. rewrite last_cons.
        destruct (PyStr.truthy sid) eqn:Ht; [|done].
        rewrite odict_get_set, decide_True by done.
        by destruct (last _).
      * rewrite decide_False by (intros []).
        destruct (PyStr.truthy s); [|done].
        by rewrite odict_get_set, decide_False by done.
    + by rewrite decide_False by (intros []).
    + by rewrite decide_False by (intros []).
    + by rewrite decide_False by (intros []).
Qed.

Lemma normalize_fold_nodup (l : list filter_value) (acc : ODict.t filter_value) :
  NoDup (ODict.keys acc) → NoDup (ODict.keys (fold_left normalize_step l acc)).
Proof.
  revert acc. induction l as [|e l IH]; intros acc Hacc; simpl; [done|].
  apply IH. destruct e as [[s|] ty| |]; simpl; try done.
  destruct (PyStr.truthy s); [|done]. by apply odict_set_nodup.
Qed.

End Intents.

(** X14: whatever the language model replies (or if its call fails), the
    detected intents are never empty, are among financials, risks, mdna
    and memo, and contain every intent the keyword rules found; when the
    call fails they are exactly the rule-based intents. *)
Theorem X_detected_intents (llm_reply : option (list string))
    (question : option string) :
  QaAgent._detect_intents llm_reply question ≠ ∅
  ∧ QaAgent._detect_intents llm_reply question ⊆ QaAgent.allowed_intents
  ∧ QaAgent._detect_intents_rule_based question
    ⊆ QaAgent._detect_intents llm_reply question
  ∧ QaAgent._detect_intents None question
    = QaAgent._detect_intents_rule_based question.
Proof.
  destruct (rule_based_intents question) as [Hne Hsub].
  destruct (refine_intents llm_reply _ Hne Hsub) as (H1 & H2 & H3).
  unfold QaAgent._detect_intents. done.
Qed.

(** X15: for an index in dictionary form whose values are dictionaries
    (or falsy), when the intents name at least one of risks, mdna and
    financials, the filter yields exactly the entries whose section type
    is one of the named intents, in the order of the index. *)
Theorem X_filter_by_section_type (d : ODict.t QaAgent.filter_value)
    (intents : gset string) :
  NoDup (ODict.keys d) →
  (∀ sid, (sid, QaAgent.FOther) ∉ d) →
  intents ∩ typed_intents ≠ ∅ →
  QaAgent._filter_sections_index_by_intents (QaAgent.RawDict d) intents
  = Yield (filter (fun item => kept_by (intents ∩ typed_intents) item) d).
Proof.
  intros Hnd Hno Hw. unfold QaAgent._filter_sections_index_by_intents.
  rewrite wanted_types_spec. simpl.
  destruct d as [|kv d]; [done|].
  rewrite bool_decide_eq_false_2 by done.
  by rewrite filter_loop_yield.
Qed.

(** X15 on an index with four entries and a question about risks and
    results. *)
Lemma X_filter_by_section_type_witness :
  QaAgent._filter_sections_index_by_intents (QaAgent.RawDict typed_index)
    {[ "risks"; "financials"; "memo" ]}
  = Yield [ ("item_1a", QaAgent.FDict (Some "item_1a") (Some "risks"));
            ("item_8", QaAgent.FDict (Some "item_8") (Some "financials")) ].
Proof.
  rewrite (X_filter_by_section_type typed_index {[ "risks"; "financials"; "memo" ]}).
  - vm_compute. reflexivity.
  - vm_compute. repeat constructor; set_solver.
  - intros sid Hin. vm_compute in Hin. set_solver.
  - intros He. assert (H : "risks" ∈ ({[ "risks"; "financials"; "memo" ]} ∩ typed_intents : gset string))
      by (unfold typed_intents; set_solver).
    rewrite He in H. set_solver.
Defined.

(** X16: the filter raises exactly when the index is a dictionary with a
    truthy value that is no dictionary and the intents name one of
    risks, mdna and financials; an index in list form, and intents that
    name none of the three, never raise, and then the whole normalised
    index is returned. *)
Theorem X_filter_raises (raw : QaAgent.raw_index) (intents : gset string) :
  ((∃ e, QaAgent._filter_sections_index_by_intents raw intents = Raise e)
   ↔ intents ∩ typed_intents ≠ ∅
     ∧ ∃ d sid, raw = QaAgent.RawDict d ∧ (sid, QaAgent.FOther) ∈ d)
  ∧ (intents ∩ typed_intents = ∅ →
     QaAgent._filter_sections_index_by_intents raw intents
     = Yield (QaAgent._normalize_sections_index raw)).
Proof.
  unfold QaAgent._filter_sections_index_by_intents.
  rewrite wanted_types_spec. split.
  - destruct (QaAgent._normalize_sections_index raw) as [|kv index] eqn:Hn.
    + split; [by intros [e ?]|]. intros (_ & d & sid & -> & Hin).
      simpl in Hn. subst d. by apply elem_of_nil in Hin.
    + case_bool_decide as Hw.
      * split; [by intros [e ?]|]. by intros [? _].
      * rewrite filter_loop_raise. split.
        -- intros [sid Hin]. split; [done|].
           destruct raw as [d|l|]; simpl in Hn.
           ++ subst d. by exists (kv :: index), sid.
           ++ exfalso. revert Hin. rewrite <- Hn.
              apply normalize_fold_values. intros s Hs. by apply elem_of_nil in Hs.
           ++ done.
        -- intros (_ & d & sid & -> & Hin). simpl in Hn. subst d. by exists sid.
  - intros Hw. destruct (QaAgent._normalize_sections_index raw); [done|].
    by rewrite bool_decide_eq_true_2.
Qed.

(** X16 on an index whose value is no dictionary, with the memo intent
    alone. *)
Lemma X_filter_raises_witness :
  QaAgent._filter_sections_index_by_intents
    (QaAgent.RawDict [("item_7", QaAgent.FOther)]) {[ "memo" ]}
  = Yield [("item_7", QaAgent.FOther)].
Proof.
  apply (proj2 (X_filter_raises (QaAgent.RawDict [("item_7", QaAgent.FOther)])
                  {[ "memo" ]})).
  unfold typed_intents. set_solver.
Defined.

(** X17: normalising an index in list form gives a dictionary keyed by
    id without repeated keys; an id maps to the last dictionary of the
    list that carries it, and entries without an id (or with an empty
    one) and entries that are no dictionaries are dropped. *)
Theorem X_normalize_list_form (l : list QaAgent.filter_value) (sid : string) :
  NoDup (ODict.keys (QaAgent._normalize_sections_index (QaAgent.RawList l)))
  ∧ ODict.get (QaAgent._normalize_sections_index (QaAgent.RawList l)) sid
    = if PyStr.truthy sid
      then last (filter (fun e => has_id sid e) l)
      else None.
Proof.
  simpl. split.
  - apply normalize_fold_nodup. constructor.
  - rewrite normalize_fold_get. simpl.
    destruct (PyStr.truthy sid); [|done]. by destruct (last _).
Qed.
